(** * TrackIt: the scheduled price-check engine

    A shallow embedding of the price-change analyzer and alert decision of
    [src/services/priceHelper.js], the plan registry of
    [src/services/plans.js], and the eligibility evaluator, retry wrapper,
    notification decision and sweep of [src/scheduler/cronJobs.js].

    Conventions of the embedding.
    - A JavaScript number is an exact rational ([Q]); [null] is [None].
      Rounding of binary64 arithmetic, [NaN] and the infinities are outside
      the model.
    - Truthiness, [||], [&&] and the relational operators are written out
      with the coercions JavaScript applies ([ToNumber null = 0]).
    - Instants are milliseconds since the epoch ([Z]).
    - Message texts are represented by a constructor per template carrying
      the numbers the template interpolates.
    - The clock, the random source, the page fetcher, the chat transport
      and the database engine are functions of the number of the
      interaction they answer; a property of the sweep holds for all of
      them. The lines of [console.error] are recorded, those of
      [console.log] are not. *)

From Stdlib Require Import ZArith QArith Qabs Qround Qminmax List String Ascii
  Bool Lia Lqa Permutation Sorted.
Import ListNotations.

Local Open Scope Q_scope.

(** ** JavaScript values *)

Module JS.

Definition num := option Q.

Definition ToNumber (x : num) : Q :=
  match x with Some q => q | None => 0 end.

(** [Boolean(x)] for a number or [null]. *)
Definition truthy (x : num) : bool :=
  match x with Some q => negb (Qeq_bool q 0) | None => false end.

Definition Qltb (a b : Q) : bool := negb (Qle_bool b a).

Definition lt (a b : num) : bool := Qltb (ToNumber a) (ToNumber b).
Definition le (a b : num) : bool := Qle_bool (ToNumber a) (ToNumber b).
Definition gt (a b : num) : bool := lt b a.
Definition ge (a b : num) : bool := le b a.

(** [Boolean(s)] for a string or [null]. *)
Definition truthyS (s : option string) : bool :=
  match s with Some EmptyString => false | Some _ => true | None => false end.

(** [a || b] where [b] is a string. *)
Definition orS (a : option string) (b : string) : string :=
  match a with
  | Some s => if truthyS a then s else b
  | None => b
  end.

Definition upper_ascii (c : ascii) : ascii :=
  let n := nat_of_ascii c in
  if (Nat.leb 97 n && Nat.leb n 122)%bool then ascii_of_nat (n - 32) else c.

(** [String.prototype.toUpperCase] on ASCII text. *)
Fixpoint toUpperCase (s : string) : string :=
  match s with
  | EmptyString => EmptyString
  | String c r => String (upper_ascii c) (toUpperCase r)
  end.

(** The number that [x.toFixed(digits)] prints: the nearest multiple of
    [10^-digits], the larger one on a tie, the sign handled apart. *)
Definition toFixed (digits : nat) (x : Q) : Q :=
  let scale := inject_Z (10 ^ Z.of_nat digits) in
  let n := inject_Z (Qfloor (Qabs x * scale + (1 # 2))) / scale in
  if Qltb x 0 then - n else n.

End JS.

(** ** Data model *)

(** A row returned by [getAllActiveTrackedProducts] and
    [getActiveTrackedProductsByInterval]: the columns of a tracked product
    and the plan columns of its owner. [last_checked_at] is the instant the
    stored text denotes. *)
Record Product := {
  id : Z;
  user_id : N;
  amazon_url : string;
  title : option string;
  current_price : JS.num;
  target_price : JS.num;
  currency : option string;
  last_checked_at : option Z;
  last_alert_price : JS.num;
  last_alerted_at : option Z;
  telegram_id : Z;
  plan : option string;
  max_products : option Z;
  check_interval : option string
}.

(** The user object the sweep builds for a group of products. *)
Record User := {
  u_id : N;
  u_telegram_id : Z;
  u_plan : option string;
  u_check_interval : option string;
  u_max_products : option Z
}.

(** The reason texts of [shouldSendNotification]. *)
Inductive NotifyReason :=
| NoReason
| AlreadyAlertedAt (lastAlert : JS.num) (currency : option string)
| TargetPriceReached (target : JS.num) (currency : option string)
| PriceDroppedBy (dropPercentage : Q)
| PriceDroppedStillAboveTarget (dropPercentage : Q).

(** ** [src/services/priceHelper.js] *)

Module priceHelper.

Inductive Direction := unchanged | down | up.

Record PriceChange := {
  absoluteChange : Q;
  percentChange : Q;
  direction : Direction;
  isMeaningful : bool;
  formattedAbsolute : Q;   (* the number [formatPrice] renders *)
  formattedPercent : Q;    (* the number before the percent sign *)
  isDropped : bool;        (* absent, hence falsy, in the guard's result *)
  isIncreased : bool
}.

Inductive Priority := high | normal.

Inductive Reason :=
| PriceDidNotDrop
| AlreadyAlertedAt (lastAlert : JS.num)
| TargetPriceReached (target : JS.num)
| PriceDropped (percent : Q)
| DropBelowThreshold (percent : Q) (threshold : Q).

Record Alert := {
  shouldAlert : bool;
  reason : Reason;
  priceChange : PriceChange;
  priority : option Priority
}.

Definition direction_eqb (a b : Direction) : bool :=
  match a, b with
  | unchanged, unchanged | down, down | up, up => true
  | _, _ => false
  end.

(** An entry of the price history as [getPriceHistory] returns it, the
    newest first. *)
Record HistoryEntry := {
  price : JS.num;
  checked_at : Z
}.

Inductive Period := SevenDays | FourteenDays.

Record TrendStats := {
  period : Period;
  startPrice : JS.num;
  currentPrice : JS.num;
  change : PriceChange;
  min : Q;
  max : Q;
  avg : Q;              (* the number [toFixed(2)] prints *)
  dataPoints : nat
}.

(** The summary line: the seven-day direction with its percentage, when
    there is one, and whether the all-time-low note is appended. *)
Inductive TrendSummary :=
| NoHistory
| Summary (sevenDays : option (Direction * Q)) (allTimeLowNote : bool).

Record TrendAnalysis := {
  hasData : bool;
  summary : TrendSummary;
  trend7d : option TrendStats;
  trend14d : option TrendStats;
  allTimeHigh : option Q;
  allTimeLow : option Q;
  avgPrice : option Q;
  isAtLow : bool;
  totalChecks : nat
}.

Inductive Label := DOWN | UP | STABLE.

Inductive TrendDescription :=
| NotEnoughData
| InvalidPrices
| Dropping (percent : Q) (checks : nat)
| Rising (percent : Q) (checks : nat)
| StableWithin (percent : Q).

Record TrendLabel := {
  label : Label;
  description : TrendDescription;
  trendPercent : Q      (* the field [percentChange] *)
}.

Section Config.

(** [parseFloat(process.env.MIN_DROP_PERCENT)]; [None] when it is not a
    number. *)
Variable env_MIN_DROP_PERCENT : JS.num.

Definition MIN_DROP_PERCENT : Q :=
  if JS.truthy env_MIN_DROP_PERCENT then JS.ToNumber env_MIN_DROP_PERCENT
  else 2.

Definition calculatePriceChange (oldPrice newPrice : JS.num) : PriceChange :=
  if (negb (JS.truthy oldPrice) || negb (JS.truthy newPrice)
      || JS.le oldPrice (Some 0) || JS.le newPrice (Some 0))%bool
  then {| absoluteChange := 0; percentChange := 0; direction := unchanged;
          isMeaningful := false; formattedAbsolute := 0;
          formattedPercent := 0; isDropped := false; isIncreased := false |}
  else
    let absoluteChange := JS.ToNumber oldPrice - JS.ToNumber newPrice in
    let percentChange := (absoluteChange / JS.ToNumber oldPrice) * 100 in
    let absPercent := Qabs percentChange in
    let direction :=
      if JS.Qltb (1 # 100) absoluteChange then down
      else if JS.Qltb absoluteChange (- (1 # 100)) then up
      else unchanged in
    let isMeaningful :=
      (direction_eqb direction down
       && Qle_bool MIN_DROP_PERCENT absPercent)%bool in
    {| absoluteChange := absoluteChange;
       percentChange := percentChange;
       direction := direction;
       isMeaningful := isMeaningful;
       formattedAbsolute := Qabs absoluteChange;
       formattedPercent := JS.toFixed 1 absPercent;
       isDropped := direction_eqb direction down;
       isIncreased := direction_eqb direction up |}.

Definition shouldTriggerAlert (product : Product) (oldPrice newPrice : JS.num)
  : Alert :=
  let priceChange := calculatePriceChange oldPrice newPrice in
  if negb (isDropped priceChange) then
    {| shouldAlert := false; reason := PriceDidNotDrop;
       priceChange := priceChange; priority := None |}
  else if (JS.truthy (last_alert_price product)
           && JS.ge newPrice (last_alert_price product))%bool then
    {| shouldAlert := false;
       reason := AlreadyAlertedAt (last_alert_price product);
       priceChange := priceChange; priority := None |}
  else if (JS.truthy (target_price product)
           && JS.le newPrice (target_price product))%bool then
    {| shouldAlert := true;
       reason := TargetPriceReached (target_price product);
       priceChange := priceChange; priority := Some high |}
  else if isMeaningful priceChange then
    {| shouldAlert := true;
       reason := PriceDropped (formattedPercent priceChange);
       priceChange := priceChange; priority := Some normal |}
  else
    {| shouldAlert := false;
       reason := DropBelowThreshold (formattedPercent priceChange)
                                    MIN_DROP_PERCENT;
       priceChange := priceChange; priority := None |}.


(** *** Trends over the price history *)

(** [Math.min(...values, last)] and [Math.max(...values, last)]; [null]
    counts as 0. *)
Definition minOf (values : list JS.num) (last : JS.num) : Q :=
  fold_right (fun v m => Qmin (JS.ToNumber v) m) (JS.ToNumber last) values.

Definition maxOf (values : list JS.num) (last : JS.num) : Q :=
  fold_right (fun v m => Qmax (JS.ToNumber v) m) (JS.ToNumber last) values.

(** [values.reduce((sum, p) => sum + p, 0) / values.length] *)
Definition average (values : list JS.num) : Q :=
  fold_left (fun sum p => sum + JS.ToNumber p) values 0
  / inject_Z (Z.of_nat (List.length values)).

Definition calculateTrendStats (prices : list HistoryEntry)
  (currentPrice : JS.num) (period : Period) : option TrendStats :=
  match prices with
  | [] => None
  | first :: _ =>
      let oldestEntry := List.last prices first in
      let oldestPrice := price oldestEntry in
      let change := calculatePriceChange oldestPrice currentPrice in
      let priceValues := map price prices in
      Some {| period := period;
              startPrice := oldestPrice;
              currentPrice := currentPrice;
              change := change;
              min := minOf priceValues currentPrice;
              max := maxOf priceValues currentPrice;
              avg := JS.toFixed 2 (average priceValues);
              dataPoints := List.length prices |}
  end.

(** [now] is the value of [new Date()] at the call. *)
Definition analyzePriceTrend (now : Z) (priceHistory : list HistoryEntry)
  (currentPrice : JS.num) : TrendAnalysis :=
  match priceHistory with
  | [] =>
      {| hasData := false; summary := NoHistory; trend7d := None;
         trend14d := None; allTimeHigh := None; allTimeLow := None;
         avgPrice := None; isAtLow := false; totalChecks := 0 |}
  | _ :: _ =>
      let sevenDaysAgo := (now - 7 * 24 * 60 * 60 * 1000)%Z in
      let fourteenDaysAgo := (now - 14 * 24 * 60 * 60 * 1000)%Z in
      let prices7d :=
        filter (fun h => Z.leb sevenDaysAgo (checked_at h)) priceHistory in
      let prices14d :=
        filter (fun h => Z.leb fourteenDaysAgo (checked_at h)) priceHistory in
      let trend7d := calculateTrendStats prices7d currentPrice SevenDays in
      let trend14d := calculateTrendStats prices14d currentPrice FourteenDays in
      let allPrices := map price priceHistory in
      let allTimeHigh := maxOf allPrices currentPrice in
      let allTimeLow := minOf allPrices currentPrice in
      let avgPrice := average allPrices in
      let isAtLow := Qle_bool (JS.ToNumber currentPrice) allTimeLow in
      {| hasData := true;
         summary :=
           Summary
             (match trend7d with
              | Some t => Some (direction (change t),
                                formattedPercent (change t))
              | None => None
              end)
             isAtLow;
         trend7d := trend7d;
         trend14d := trend14d;
         allTimeHigh := Some allTimeHigh;
         allTimeLow := Some allTimeLow;
         avgPrice := Some (JS.toFixed 2 avgPrice);
         isAtLow := isAtLow;
         totalChecks := List.length priceHistory |}
  end.

End Config.

(** [array.slice(0, end)] *)
Definition slice0 {A} (stop : Z) (l : list A) : list A :=
  if Z.ltb stop 0
  then firstn (Z.to_nat (Z.of_nat (List.length l) + stop)) l
  else firstn (Z.to_nat stop) l.

(** [getTrendLabel(priceHistory, entries)]; [None] is the [TypeError] of
    reading [.price] of a missing first element. *)
Definition getTrendLabel (priceHistory : list HistoryEntry) (entries : Z)
  : option TrendLabel :=
  if Nat.ltb (List.length priceHistory) 2 then
    Some {| label := STABLE; description := NotEnoughData; trendPercent := 0 |}
  else
    let recentPrices :=
      slice0 (Z.min entries (Z.of_nat (List.length priceHistory)))
        priceHistory in
    match recentPrices with
    | [] => None
    | newest :: _ =>
        let newestPrice := price newest in
        let oldestPrice := price (List.last recentPrices newest) in
        if (negb (JS.truthy oldestPrice) || negb (JS.truthy newestPrice))%bool
        then Some {| label := STABLE; description := InvalidPrices;
                     trendPercent := 0 |}
        else
          let percentChange :=
            (JS.ToNumber oldestPrice - JS.ToNumber newestPrice)
            / JS.ToNumber oldestPrice * 100 in
          let threshold := 2 in
          if JS.Qltb threshold percentChange then
            Some {| label := DOWN;
                    description :=
                      Dropping (JS.toFixed 1 percentChange)
                        (List.length recentPrices);
                    trendPercent := percentChange |}
          else if JS.Qltb percentChange (- threshold) then
            Some {| label := UP;
                    description :=
                      Rising (JS.toFixed 1 (Qabs percentChange))
                        (List.length recentPrices);
                    trendPercent := percentChange |}
          else
            Some {| label := STABLE;
                    description := StableWithin (JS.toFixed 1 (Qabs percentChange));
                    trendPercent := percentChange |}
    end.

End priceHelper.

(** ** [src/services/plans.js] *)

Module plans.

Record Plan := {
  plan_id : string;
  maxProducts : Z;
  checkInterval : string;
  checkIntervalMs : Z;
  price : Z
}.

Definition FREE : Plan :=
  {| plan_id := "FREE"; maxProducts := 1; checkInterval := "WEEKLY";
     checkIntervalMs := 7 * 24 * 60 * 60 * 1000; price := 0 |}.

Definition PRO : Plan :=
  {| plan_id := "PRO"; maxProducts := 10; checkInterval := "DAILY";
     checkIntervalMs := 24 * 60 * 60 * 1000; price := 99 |}.

(** [PLANS[key]] *)
Definition PLANS (key : string) : option Plan :=
  if String.eqb key "FREE" then Some FREE
  else if String.eqb key "PRO" then Some PRO
  else None.

Definition getPlanById (planId : option string) : Plan :=
  match planId with
  | Some s =>
      match PLANS (JS.toUpperCase s) with
      | Some plan => plan
      | None => FREE
      end
  | None => FREE
  end.

Definition getUserPlan (user : option User) : Plan :=
  match user with
  | None => FREE
  | Some u =>
      if negb (JS.truthyS (u_plan u)) then FREE else getPlanById (u_plan u)
  end.

Record CheckInterval := {
  interval_label : string;
  interval_description : string;
  interval_cron : string;
  interval_ms : Z
}.

(** [CHECK_INTERVALS[key]] *)
Definition CHECK_INTERVALS (key : string) : option CheckInterval :=
  if String.eqb key "WEEKLY" then
    Some {| interval_label := "Weekly";
            interval_description := "Every Sunday at 9 AM IST";
            interval_cron := "0 9 * * 0";
            interval_ms := 7 * 24 * 60 * 60 * 1000 |}
  else if String.eqb key "DAILY" then
    Some {| interval_label := "Daily";
            interval_description := "Every day at 9 AM IST";
            interval_cron := "0 9 * * *";
            interval_ms := 24 * 60 * 60 * 1000 |}
  else if String.eqb key "HOURLY" then
    Some {| interval_label := "Hourly";
            interval_description := "Every hour";
            interval_cron := "0 * * * *";
            interval_ms := 60 * 60 * 1000 |}
  else None.

Definition getCheckInterval (intervalId : option string) : CheckInterval :=
  match intervalId with
  | Some s =>
      match CHECK_INTERVALS (JS.toUpperCase s) with
      | Some interval => interval
      | None =>
          {| interval_label := "Weekly";
             interval_description := "Every Sunday at 9 AM IST";
             interval_cron := "0 9 * * 0";
             interval_ms := 7 * 24 * 60 * 60 * 1000 |}
      end
  | None =>
      {| interval_label := "Weekly";
         interval_description := "Every Sunday at 9 AM IST";
         interval_cron := "0 9 * * 0";
         interval_ms := 7 * 24 * 60 * 60 * 1000 |}
  end.

Record TrackCheck := {
  canTrack : bool;
  limit : Z;
  current : Z;
  remaining : Z
}.

(** [user?.max_products || plan.maxProducts] *)
Definition productLimit (user : option User) : Z :=
  let plan := getUserPlan user in
  match user with
  | Some u =>
      match u_max_products u with
      | Some m => if Z.eqb m 0 then maxProducts plan else m
      | None => maxProducts plan
      end
  | None => maxProducts plan
  end.

Definition canUserTrackMore (user : option User) (currentProductCount : Z)
  : TrackCheck :=
  let limit := productLimit user in
  let remaining := Z.max 0 (limit - currentProductCount) in
  {| canTrack := Z.ltb currentProductCount limit;
     limit := limit;
     current := currentProductCount;
     remaining := remaining |}.

(** [order[plan?.toUpperCase()] ?? 0] with [order = { FREE: 0, PRO: 1 }] *)
Definition planRank (planId : option string) : Z :=
  match planId with
  | Some s =>
      let key := JS.toUpperCase s in
      if String.eqb key "FREE" then 0
      else if String.eqb key "PRO" then 1
      else 0
  | None => 0
  end.

Definition comparePlans (planA planB : option string) : Z :=
  let a := planRank planA in
  let b := planRank planB in
  if Z.ltb a b then (-1) else if Z.ltb b a then 1 else 0.

Definition isPremiumPlan (planId : option string) : bool :=
  Z.ltb 0 (price (getPlanById planId)).

End plans.

(** ** The persistent store ([src/db]) and the external capabilities *)

Module users.
Record row := {
  id : N;
  telegram_id : Z;
  plan : option string;
  max_products : option Z;
  check_interval : option string;
  is_active : option Z
}.
End users.

Module tracked_products.
Record row := {
  id : Z;
  user_id : N;
  amazon_url : string;
  title : option string;
  current_price : JS.num;
  target_price : JS.num;
  currency : option string;
  last_checked_at : option Z;
  is_active : option Z;
  last_alert_price : JS.num;
  last_alerted_at : option Z;
  updated_at : option Z
}.
End tracked_products.

Module price_history.
Record row := {
  id : Z;
  product_id : Z;
  price : Q;
  checked_at : Z
}.
End price_history.

(** What [scrapeAmazonProduct] resolves to. *)
Record Scraped := {
  scraped_title : option string;
  scraped_price : JS.num;
  scraped_currency : option string
}.

Inductive ScrapeOutcome :=
| ScrapeThrows (message : string)
| ScrapeReturns (result : option Scraped).

(** The message [sendPriceDropNotification] composes. *)
Record PriceDropMessage := {
  msg_title : string;
  msg_was : JS.num;
  msg_now : JS.num;
  msg_savings : Q;
  msg_savingsPercent : Q;
  msg_target : JS.num;
  msg_reason : NotifyReason;
  msg_url : string
}.

Inductive ErrorLine :=
| NotificationFailed (message : string)
| ErrorContinuing (message : string)
| PriceCheckFailed (message : string).

Inductive Event :=
| EvDelay (ms : Q)
| EvScrape (url : string) (outcome : ScrapeOutcome)
| EvSendMessage (chat : Z) (message : PriceDropMessage) (delivered : bool)
| EvConsoleError (line : ErrorLine).

Record RunStats := {
  lastRun : option Z;
  productsChecked : nat;
  productsSkipped : nat;
  priceDrops : nat;
  notificationsSent : nat;
  errors : nat
}.

(** Everything a sweep reads or writes. [tick] counts the interactions with
    the outside so far; [trace] lists them, the newest first. *)
Record World := {
  tick : nat;
  db_users : list users.row;
  db_tracked_products : list tracked_products.row;
  db_price_history : list price_history.row;
  runStats : RunStats;
  trace : list Event
}.

(** The outside, as a function of the interaction it answers: the clock,
    the random source, the page fetcher, the chat transport and the
    database engine ([Some message] is a rejection). *)
Record Env := {
  localOffset : Z -> Z;
  Date_now : nat -> Z;
  Math_random : nat -> Q;
  scrapeAmazonProduct : nat -> string -> ScrapeOutcome;
  sendMessage : nat -> Z -> PriceDropMessage -> option string;
  sqlite : nat -> option string
}.

(** ** Effects: state with exceptions

    A computation runs on a world and completes normally or by throwing;
    the writes made before a throw stay in the world. *)

Inductive Completion (A : Type) :=
| Normal (value : A)
| Throw (message : string).
Arguments Normal {A} value.
Arguments Throw {A} message.

Definition Eff (A : Type) : Type := World -> Completion A * World.

Definition ret {A} (a : A) : Eff A := fun w => (Normal a, w).

Definition throw {A} (message : string) : Eff A := fun w => (Throw message, w).

Definition bind {A B} (c : Eff A) (k : A -> Eff B) : Eff B :=
  fun w =>
    match c w with
    | (Normal a, w1) => k a w1
    | (Throw m, w1) => (Throw m, w1)
    end.

(** [try { body } catch (error) { handler(error.message) }] *)
Definition try_catch {A} (body : Eff A) (handler : string -> Eff A) : Eff A :=
  fun w =>
    match body w with
    | (Normal a, w1) => (Normal a, w1)
    | (Throw m, w1) => handler m w1
    end.

Declare Scope eff_scope.
Delimit Scope eff_scope with eff.
Notation "x <- c ;; k" := (bind c (fun x => k))
  (at level 61, c at next level, right associativity) : eff_scope.
Notation "c ;; k" := (bind c (fun _ => k))
  (at level 61, right associativity) : eff_scope.
Local Open Scope eff_scope.

Definition get : Eff World := fun w => (Normal w, w).

Definition modify (f : World -> World) : Eff unit := fun w => (Normal tt, f w).

Definition set_tick (n : nat) (w : World) : World :=
  {| tick := n; db_users := db_users w;
     db_tracked_products := db_tracked_products w;
     db_price_history := db_price_history w;
     runStats := runStats w; trace := trace w |}.

Definition set_tracked_products (t : list tracked_products.row) (w : World)
  : World :=
  {| tick := tick w; db_users := db_users w; db_tracked_products := t;
     db_price_history := db_price_history w;
     runStats := runStats w; trace := trace w |}.

Definition set_price_history (h : list price_history.row) (w : World)
  : World :=
  {| tick := tick w; db_users := db_users w;
     db_tracked_products := db_tracked_products w; db_price_history := h;
     runStats := runStats w; trace := trace w |}.

Definition set_runStats (s : RunStats) (w : World) : World :=
  {| tick := tick w; db_users := db_users w;
     db_tracked_products := db_tracked_products w;
     db_price_history := db_price_history w;
     runStats := s; trace := trace w |}.

Definition set_trace (t : list Event) (w : World) : World :=
  {| tick := tick w; db_users := db_users w;
     db_tracked_products := db_tracked_products w;
     db_price_history := db_price_history w;
     runStats := runStats w; trace := t |}.

(** One interaction with the outside: its number, and the count moves on. *)
Definition interact : Eff nat :=
  fun w => (Normal (tick w), set_tick (S (tick w)) w).

Definition emit (e : Event) : Eff unit :=
  modify (fun w => set_trace (e :: trace w) w).

Definition console_error (line : ErrorLine) : Eff unit :=
  emit (EvConsoleError line).

(** [for (const x of l) body(x)] *)
Fixpoint forEach {A} (body : A -> Eff unit) (l : list A) : Eff unit :=
  match l with
  | [] => ret tt
  | x :: rest => body x ;; forEach body rest
  end.

(** *** Counters of the run *)

Definition resetStats (now : Z) : RunStats :=
  {| lastRun := Some now; productsChecked := 0; productsSkipped := 0;
     priceDrops := 0; notificationsSent := 0; errors := 0 |}.

Definition incChecked (s : RunStats) : RunStats :=
  {| lastRun := lastRun s; productsChecked := S (productsChecked s);
     productsSkipped := productsSkipped s; priceDrops := priceDrops s;
     notificationsSent := notificationsSent s; errors := errors s |}.

Definition incSkipped (s : RunStats) : RunStats :=
  {| lastRun := lastRun s; productsChecked := productsChecked s;
     productsSkipped := S (productsSkipped s); priceDrops := priceDrops s;
     notificationsSent := notificationsSent s; errors := errors s |}.

Definition incPriceDrops (s : RunStats) : RunStats :=
  {| lastRun := lastRun s; productsChecked := productsChecked s;
     productsSkipped := productsSkipped s; priceDrops := S (priceDrops s);
     notificationsSent := notificationsSent s; errors := errors s |}.

Definition incNotificationsSent (s : RunStats) : RunStats :=
  {| lastRun := lastRun s; productsChecked := productsChecked s;
     productsSkipped := productsSkipped s; priceDrops := priceDrops s;
     notificationsSent := S (notificationsSent s); errors := errors s |}.

Definition incErrors (s : RunStats) : RunStats :=
  {| lastRun := lastRun s; productsChecked := productsChecked s;
     productsSkipped := productsSkipped s; priceDrops := priceDrops s;
     notificationsSent := notificationsSent s; errors := S (errors s) |}.

Definition updateStats (f : RunStats -> RunStats) : Eff unit :=
  modify (fun w => set_runStats (f (runStats w)) w).

(** ** [src/db/queries]: the statements the sweep issues *)

Module queries.

(** [ORDER BY] as a stable insertion sort. *)
Fixpoint insertBy {A} (before : A -> A -> bool) (x : A) (l : list A) : list A :=
  match l with
  | [] => [x]
  | y :: rest =>
      if before x y then x :: y :: rest else y :: insertBy before x rest
  end.

Definition orderBy {A} (before : A -> A -> bool) (l : list A) : list A :=
  fold_left (fun sorted x => insertBy before x sorted) l [].

(** SQLite sorts NULL before every value. *)
Definition instantBefore (a b : option Z) : bool :=
  match a, b with
  | None, Some _ => true
  | Some x, Some y => Z.ltb x y
  | _, _ => false
  end.

Definition textBefore (a b : option string) : bool :=
  match a, b with
  | None, Some _ => true
  | Some x, Some y =>
      match String.compare x y with Lt => true | _ => false end
  | _, _ => false
  end.

Definition equalsOne (x : option Z) : bool :=
  match x with Some v => Z.eqb v 1 | None => false end.

Definition textEquals (x : option string) (v : string) : bool :=
  match x with Some s => String.eqb s v | None => false end.

(** A row of [tracked_products tp JOIN users u ON tp.user_id = u.id]
    projected to [tp.*, u.telegram_id, u.plan, u.max_products,
    u.check_interval]. *)
Definition joinRow (tp : tracked_products.row) (u : users.row) : Product :=
  {| id := tracked_products.id tp;
     user_id := tracked_products.user_id tp;
     amazon_url := tracked_products.amazon_url tp;
     title := tracked_products.title tp;
     current_price := tracked_products.current_price tp;
     target_price := tracked_products.target_price tp;
     currency := tracked_products.currency tp;
     last_checked_at := tracked_products.last_checked_at tp;
     last_alert_price := tracked_products.last_alert_price tp;
     last_alerted_at := tracked_products.last_alerted_at tp;
     telegram_id := users.telegram_id u;
     plan := users.plan u;
     max_products := users.max_products u;
     check_interval := users.check_interval u |}.

Definition activeJoin (where_user : users.row -> bool) (w : World)
  : list Product :=
  flat_map
    (fun tp =>
       map (joinRow tp)
         (filter
            (fun u =>
               (N.eqb (tracked_products.user_id tp) (users.id u)
                && equalsOne (tracked_products.is_active tp)
                && equalsOne (users.is_active u)
                && where_user u)%bool)
            (db_users w)))
    (db_tracked_products w).

Section WithEnv.

Variable env : Env.

(** One statement handed to the engine; it answers with the instant of
    [CURRENT_TIMESTAMP] or rejects. *)
Definition statement : Eff Z :=
  t <- interact ;;
  match sqlite env t with
  | Some message => throw message
  | None => ret (Date_now env t)
  end.

Definition findProduct (productId : Z) : Eff (option tracked_products.row) :=
  _ <- statement ;;
  w <- get ;;
  ret (find (fun r => Z.eqb (tracked_products.id r) productId)
         (db_tracked_products w)).

Definition updateWhereId (productId : Z)
  (f : tracked_products.row -> tracked_products.row) : World -> World :=
  fun w =>
    set_tracked_products
      (map (fun r => if Z.eqb (tracked_products.id r) productId then f r else r)
         (db_tracked_products w)) w.

Definition updateProductPrice (productId : Z) (currentPrice : JS.num)
  (title : option string) : Eff (option tracked_products.row) :=
  now <- statement ;;
  modify (updateWhereId productId (fun r =>
    {| tracked_products.id := tracked_products.id r;
       tracked_products.user_id := tracked_products.user_id r;
       tracked_products.amazon_url := tracked_products.amazon_url r;
       tracked_products.title := title;
       tracked_products.current_price := currentPrice;
       tracked_products.target_price := tracked_products.target_price r;
       tracked_products.currency := tracked_products.currency r;
       tracked_products.last_checked_at := Some now;
       tracked_products.is_active := tracked_products.is_active r;
       tracked_products.last_alert_price := tracked_products.last_alert_price r;
       tracked_products.last_alerted_at := tracked_products.last_alerted_at r;
       tracked_products.updated_at := Some now |})) ;;
  findProduct productId.

Definition updateAlertStatus (productId : Z) (alertPrice : JS.num)
  : Eff (option tracked_products.row) :=
  now <- statement ;;
  modify (updateWhereId productId (fun r =>
    {| tracked_products.id := tracked_products.id r;
       tracked_products.user_id := tracked_products.user_id r;
       tracked_products.amazon_url := tracked_products.amazon_url r;
       tracked_products.title := tracked_products.title r;
       tracked_products.current_price := tracked_products.current_price r;
       tracked_products.target_price := tracked_products.target_price r;
       tracked_products.currency := tracked_products.currency r;
       tracked_products.last_checked_at := tracked_products.last_checked_at r;
       tracked_products.is_active := tracked_products.is_active r;
       tracked_products.last_alert_price := alertPrice;
       tracked_products.last_alerted_at := Some now;
       tracked_products.updated_at := Some now |})) ;;
  findProduct productId.

Definition nextHistoryId (h : list price_history.row) : Z :=
  (1 + fold_right Z.max 0 (map price_history.id h))%Z.

(** [price] is declared [NOT NULL]. *)
Definition addPriceHistory (productId : Z) (price : JS.num)
  : Eff (option price_history.row) :=
  t <- interact ;;
  match sqlite env t, price with
  | Some message, _ => throw message
  | None, None => throw "SQLITE_CONSTRAINT: NOT NULL constraint failed"
  | None, Some p =>
      w <- get ;;
      let lastID := nextHistoryId (db_price_history w) in
      modify (set_price_history
                (db_price_history w ++
                 [{| price_history.id := lastID;
                     price_history.product_id := productId;
                     price_history.price := p;
                     price_history.checked_at := Date_now env t |}])) ;;
      _ <- statement ;;
      w' <- get ;;
      ret (find (fun r => Z.eqb (price_history.id r) lastID)
             (db_price_history w'))
  end.

Definition getAllActiveTrackedProducts : Eff (list Product) :=
  _ <- statement ;;
  w <- get ;;
  ret (orderBy
         (fun a b =>
            (textBefore (plan b) (plan a)
             || (negb (textBefore (plan a) (plan b))
                 && instantBefore (last_checked_at a) (last_checked_at b)))%bool)
         (activeJoin (fun _ => true) w)).

Definition getActiveTrackedProductsByInterval (interval : string)
  : Eff (list Product) :=
  _ <- statement ;;
  w <- get ;;
  ret (orderBy
         (fun a b => instantBefore (last_checked_at a) (last_checked_at b))
         (activeJoin (fun u => textEquals (users.check_interval u) interval) w)).

End WithEnv.

End queries.

(** ** [src/scheduler/cronJobs.js] *)

Module cronJobs.

Inductive EligibilityReason :=
| CheckedLessThanOneHourAgo
| HourlyCheckEligible
| AlreadyCheckedToday
| DailyCheckEligible
| WaitingForSunday (dayOfWeek : Z)
| AlreadyCheckedThisWeek
| WeeklyCheckEligible.

Record Eligibility := {
  eligible : bool;
  eligibility_reason : EligibilityReason
}.

Record Notification := {
  notify : bool;
  reason : NotifyReason
}.

(** The interval [isEligibleForCheck] switches on:
    [(user?.check_interval || plan.checkInterval).toUpperCase()]. *)
Definition effectiveInterval (user : option User) : string :=
  let plan := plans.getUserPlan user in
  let checkInterval :=
    match user with
    | Some u => JS.orS (u_check_interval u) (plans.checkInterval plan)
    | None => plans.checkInterval plan
    end in
  JS.toUpperCase checkInterval.

Section Clock.

(** The offset, in milliseconds, of local time from UTC at an instant. *)
Variable localOffset : Z -> Z.

(** [Date.prototype.getDay]: 0 is Sunday; the epoch was a Thursday. *)
Definition getDay (now : Z) : Z :=
  (((now + localOffset now) / 86400000 + 4) mod 7)%Z.

(** [now] is the value of [new Date()] at the call. *)
Definition isEligibleForCheck (now : Z) (user : option User)
  (product : Product) : Eligibility :=
  let dayOfWeek := getDay now in
  let lastChecked := last_checked_at product in
  let interval := effectiveInterval user in
  if String.eqb interval "HOURLY" then
    match lastChecked with
    | Some t =>
        let hoursSinceCheck :=
          inject_Z (now - t) / inject_Z (1000 * 60 * 60) in
        if JS.Qltb hoursSinceCheck 1
        then {| eligible := false;
                eligibility_reason := CheckedLessThanOneHourAgo |}
        else {| eligible := true; eligibility_reason := HourlyCheckEligible |}
    | None => {| eligible := true; eligibility_reason := HourlyCheckEligible |}
    end
  else if String.eqb interval "DAILY" then
    match lastChecked with
    | Some t =>
        let hoursSinceCheck :=
          inject_Z (now - t) / inject_Z (1000 * 60 * 60) in
        if JS.Qltb hoursSinceCheck 20
        then {| eligible := false; eligibility_reason := AlreadyCheckedToday |}
        else {| eligible := true; eligibility_reason := DailyCheckEligible |}
    | None => {| eligible := true; eligibility_reason := DailyCheckEligible |}
    end
  else
    if negb (Z.eqb dayOfWeek 0) then
      {| eligible := false; eligibility_reason := WaitingForSunday dayOfWeek |}
    else
      match lastChecked with
      | Some t =>
          let daysSinceCheck :=
            inject_Z (now - t) / inject_Z (1000 * 60 * 60 * 24) in
          if JS.Qltb daysSinceCheck 6
          then {| eligible := false;
                  eligibility_reason := AlreadyCheckedThisWeek |}
          else {| eligible := true;
                  eligibility_reason := WeeklyCheckEligible |}
      | None => {| eligible := true; eligibility_reason := WeeklyCheckEligible |}
      end.

End Clock.

(** [((oldPrice - newPrice) / oldPrice * 100).toFixed(1)] *)
Definition dropPercentage (oldPrice newPrice : JS.num) : Q :=
  JS.toFixed 1
    ((JS.ToNumber oldPrice - JS.ToNumber newPrice) / JS.ToNumber oldPrice
     * 100).

Definition shouldSendNotification (product : Product)
  (oldPrice newPrice : JS.num) : Notification :=
  if (negb (JS.truthy newPrice) || negb (JS.truthy oldPrice))%bool then
    {| notify := false; reason := NoReason |}
  else if (JS.truthy (last_alert_price product)
           && JS.ge newPrice (last_alert_price product))%bool then
    {| notify := false;
       reason := AlreadyAlertedAt (last_alert_price product)
                                  (currency product) |}
  else if (JS.truthy (target_price product)
           && JS.le newPrice (target_price product))%bool then
    {| notify := true;
       reason := TargetPriceReached (target_price product)
                                    (currency product) |}
  else if (negb (JS.truthy (target_price product))
           && JS.lt newPrice oldPrice)%bool then
    {| notify := true;
       reason := PriceDroppedBy (dropPercentage oldPrice newPrice) |}
  else if (JS.truthy (target_price product)
           && JS.lt newPrice oldPrice)%bool then
    if Qle_bool 5 (dropPercentage oldPrice newPrice) then
      {| notify := true;
         reason := PriceDroppedStillAboveTarget
                     (dropPercentage oldPrice newPrice) |}
    else {| notify := false; reason := NoReason |}
  else {| notify := false; reason := NoReason |}.

Definition truncateTitle (title : option string) (maxLength : nat) : string :=
  match title with
  | None => "Unknown Product"
  | Some t =>
      if negb (JS.truthyS title) then "Unknown Product"
      else if Nat.leb (String.length t) maxLength then t
      else String.append (String.substring 0 (maxLength - 3) t) "..."
  end.

(** *** The capabilities, as the sweep calls them *)

Record Group := {
  group_user : User;
  group_products : list Product
}.

Definition userOf (product : Product) : User :=
  {| u_id := user_id product;
     u_telegram_id := telegram_id product;
     u_plan := Some (JS.orS (plan product) "FREE");
     u_check_interval := Some (JS.orS (check_interval product) "WEEKLY");
     u_max_products :=
       match max_products product with
       | Some m => if Z.eqb m 0 then Some 1%Z else Some m
       | None => Some 1%Z
       end |}.

(** [productsByUser[product.user_id]], created on first use, then
    [.products.push(product)]. The keys are row ids, which [Object.keys]
    lists in ascending order. *)
Fixpoint addProduct (product : Product) (productsByUser : list (N * Group))
  : list (N * Group) :=
  match productsByUser with
  | [] =>
      [(user_id product,
        {| group_user := userOf product; group_products := [product] |})]
  | (key, g) :: rest =>
      if N.eqb key (user_id product) then
        (key, {| group_user := group_user g;
                 group_products := group_products g ++ [product] |}) :: rest
      else if N.ltb (user_id product) key then
        (user_id product,
         {| group_user := userOf product; group_products := [product] |})
          :: (key, g) :: rest
      else (key, g) :: addProduct product rest
  end.

Definition groupByUser (products : list Product) : list (N * Group) :=
  fold_left (fun productsByUser product => addProduct product productsByUser)
    products [].

(** The candidates in the order the two loops visit them, each with the
    user object of its group. *)
Definition candidatesOf (productsByUser : list (N * Group))
  : list (User * Product) :=
  flat_map
    (fun entry =>
       map (pair (group_user (snd entry))) (group_products (snd entry)))
    productsByUser.

(** [result && result.price] *)
Definition hasPrice (result : option Scraped) : bool :=
  match result with
  | Some r => JS.truthy (scraped_price r)
  | None => false
  end.

(** The text [sendPriceDropNotification] builds. *)
Definition priceDropMessage (product : Product) (oldPrice newPrice : JS.num)
  (reason : NotifyReason) : PriceDropMessage :=
  let savings := JS.ToNumber oldPrice - JS.ToNumber newPrice in
  let savingsPercent := JS.toFixed 1 (savings / JS.ToNumber oldPrice * 100) in
  {| msg_title := truncateTitle (title product) 100;
     msg_was := oldPrice;
     msg_now := newPrice;
     msg_savings := savings;
     msg_savingsPercent := savingsPercent;
     msg_target := target_price product;
     msg_reason := reason;
     msg_url := amazon_url product |}.

Section Sweep.

Variable env : Env.

(** [new Date()] *)
Definition now : Eff Z :=
  t <- interact ;; ret (Date_now env t).

(** [Math.random()] *)
Definition random : Eff Q :=
  t <- interact ;; ret (Math_random env t).

(** [await delay(ms)] *)
Definition delay (ms : Q) : Eff unit :=
  _ <- interact ;; emit (EvDelay ms).

(** [await scrapeAmazonProduct(url)] *)
Definition scrape (url : string) : Eff (option Scraped) :=
  t <- interact ;;
  let outcome := scrapeAmazonProduct env t url in
  emit (EvScrape url outcome) ;;
  match outcome with
  | ScrapeThrows message => throw message
  | ScrapeReturns result => ret result
  end.

(** One iteration of the loop of [scrapeWithRetry]: the result it returns,
    or nothing when the loop goes on. *)
Definition scrapeAttempt (attempt : Z) (url : string) : Eff (option Scraped) :=
  try_catch
    ((if Z.ltb 0 attempt
      then r <- random ;; delay (2000 + r * 1000)
      else ret tt) ;;
     result <- scrape url ;;
     if hasPrice result then ret result else ret None)
    (fun _ => ret None).

(** The iterations [attempt, attempt + 1, ...], [remaining] of them; after
    the last one the function returns [null]. *)
Fixpoint scrapeAttempts (remaining : nat) (attempt : Z) (url : string)
  : Eff (option Scraped) :=
  match remaining with
  | O => ret None
  | S remaining' =>
      returned <- scrapeAttempt attempt url ;;
      match returned with
      | Some result => ret (Some result)
      | None => scrapeAttempts remaining' (attempt + 1) url
      end
  end.

(** [for (let attempt = 0; attempt <= retries; attempt++)] *)
Definition scrapeWithRetry (url : string) (retries : Z)
  : Eff (option Scraped) :=
  scrapeAttempts (Z.to_nat (retries + 1)) 0 url.

Definition sendPriceDropNotification (product : Product)
  (oldPrice newPrice : JS.num) (reason : NotifyReason) : Eff unit :=
  let message := priceDropMessage product oldPrice newPrice reason in
  t <- interact ;;
  match sendMessage env t (telegram_id product) message with
  | Some failure =>
      emit (EvSendMessage (telegram_id product) message false) ;;
      throw failure
  | None => emit (EvSendMessage (telegram_id product) message true)
  end.

(** The inner [try]: send, record the alert, count it. *)
Definition notifyUser (product : Product) (oldPrice newPrice : JS.num)
  (reason : NotifyReason) : Eff unit :=
  try_catch
    (sendPriceDropNotification product oldPrice newPrice reason ;;
     _ <- queries.updateAlertStatus env (id product) newPrice ;;
     updateStats incNotificationsSent)
    (fun message => console_error (NotificationFailed message)).

(** The delay between requests, from the second checked product on. *)
Definition pacing : Eff unit :=
  w <- get ;;
  if Nat.ltb 0 (productsChecked (runStats w))
  then r <- random ;; delay (3000 + r * 2000)
  else ret tt.

(** The outer [try] of one iteration, entered for an eligible product. *)
Definition checkProduct (product : Product) : Eff unit :=
  try_catch
    (pacing ;;
     scrapedData <- scrapeWithRetry (amazon_url product) 1 ;;
     match scrapedData with
     | None => updateStats incErrors
     | Some data =>
         if negb (JS.truthy (scraped_price data)) then updateStats incErrors
         else
           let newPrice := scraped_price data in
           let oldPrice := current_price product in
           _ <- queries.updateProductPrice env (id product) newPrice
                  (scraped_title data) ;;
           _ <- queries.addPriceHistory env (id product) newPrice ;;
           updateStats incChecked ;;
           let shouldNotify :=
             shouldSendNotification product oldPrice newPrice in
           if notify shouldNotify then
             updateStats incPriceDrops ;;
             notifyUser product oldPrice newPrice (reason shouldNotify)
           else ret tt
     end)
    (fun message =>
       updateStats incErrors ;; console_error (ErrorContinuing message)).

(** The body of the loop over a user's products. *)
Definition processProduct (user : User) (product : Product) : Eff unit :=
  today <- now ;;
  let eligibility :=
    isEligibleForCheck (localOffset env) today (Some user) product in
  if negb (eligible eligibility) then updateStats incSkipped
  else checkProduct product.

Definition processGroups (productsByUser : list (N * Group)) : Eff unit :=
  forEach
    (fun entry =>
       forEach (processProduct (group_user (snd entry)))
         (group_products (snd entry)))
    productsByUser.

(** The loop body on a candidate paired with its owner. *)
Definition processCandidate (candidate : User * Product) : Eff unit :=
  processProduct (fst candidate) (snd candidate).

(** [runStats = { lastRun: new Date().toISOString(), ... }] *)
Definition resetRun : Eff unit :=
  started <- now ;;
  modify (set_runStats (resetStats started)).

(** The candidates of the sweep, all of them or those of one interval. *)
Definition loadCandidates (interval : option string) : Eff (list Product) :=
  match interval with
  | Some i =>
      if JS.truthyS interval
      then queries.getActiveTrackedProductsByInterval env i
      else queries.getAllActiveTrackedProducts env
  | None => queries.getAllActiveTrackedProducts env
  end.

Definition runPriceCheckByInterval (interval : option string) : Eff unit :=
  resetRun ;;
  try_catch
    (products <- loadCandidates interval ;;
     if Nat.eqb (List.length products) 0 then ret tt
     else processGroups (groupByUser products))
    (fun message => console_error (PriceCheckFailed message)).

End Sweep.

End cronJobs.

(** ** [src/services/planGuard.js] *)

Module planGuard.

Inductive GuardReason :=
| ProductLimitReached (current limit : Z)
| CanTrackMore (remaining : Z)
| TargetPriceAllowed
| ManualCheckAllowed
| CanViewHistory (days : Z)
| DailyRequiresPro (checkInterval : string)
| DailyCheckAllowed
| ActionAllowed.

Inductive Suggestion :=
| UpgradeToTrack (maxProducts : Z)
| DeleteAProduct
| UpgradeForDaily.

Record Validation := {
  allowed : bool;
  reason : GuardReason;
  suggestion : option Suggestion;
  limit : option Z;
  current : option Z;
  remaining : option Z;
  historyDays : option Z
}.

Record Context := {
  currentProductCount : option Z
}.

Definition validateTrackProduct (user : option User) (plan : plans.Plan)
  (context : Context) : Validation :=
  let currentCount :=
    match currentProductCount context with
    | Some c => c      (* [c || 0] is [c], also when [c] is 0 *)
    | None => 0%Z
    end in
  let trackCheck := plans.canUserTrackMore user currentCount in
  if negb (plans.canTrack trackCheck) then
    {| allowed := false;
       reason := ProductLimitReached (plans.current trackCheck)
                   (plans.limit trackCheck);
       suggestion :=
         Some (if String.eqb (plans.plan_id plan) "FREE"
               then UpgradeToTrack (plans.maxProducts plans.PRO)
               else DeleteAProduct);
       limit := Some (plans.limit trackCheck);
       current := Some (plans.current trackCheck);
       remaining := None; historyDays := None |}
  else
    {| allowed := true;
       reason := CanTrackMore (plans.remaining trackCheck);
       suggestion := None; limit := None; current := None;
       remaining := Some (plans.remaining trackCheck);
       historyDays := None |}.

Definition validateViewHistory (plan : plans.Plan) : Validation :=
  let days := if String.eqb (plans.plan_id plan) "PRO" then 90%Z else 7%Z in
  {| allowed := true; reason := CanViewHistory days; suggestion := None;
     limit := None; current := None; remaining := None;
     historyDays := Some days |}.

Definition validateDailyCheck (user : option User) (plan : plans.Plan)
  : Validation :=
  let checkInterval :=
    match user with
    | Some u => JS.orS (u_check_interval u) (plans.checkInterval plan)
    | None => plans.checkInterval plan
    end in
  if (negb (String.eqb checkInterval "DAILY")
      && negb (String.eqb checkInterval "HOURLY"))%bool then
    {| allowed := false; reason := DailyRequiresPro checkInterval;
       suggestion := Some UpgradeForDaily;
       limit := None; current := None; remaining := None;
       historyDays := None |}
  else
    {| allowed := true; reason := DailyCheckAllowed; suggestion := None;
       limit := None; current := None; remaining := None;
       historyDays := None |}.

Definition plainlyAllowed (why : GuardReason) : Validation :=
  {| allowed := true; reason := why; suggestion := None;
     limit := None; current := None; remaining := None;
     historyDays := None |}.

Definition validateAction (user : option User) (action : string)
  (context : Context) : Validation :=
  let plan := plans.getUserPlan user in
  if String.eqb action "TRACK_PRODUCT" then
    validateTrackProduct user plan context
  else if String.eqb action "SET_TARGET_PRICE" then
    plainlyAllowed TargetPriceAllowed
  else if String.eqb action "MANUAL_CHECK" then
    plainlyAllowed ManualCheckAllowed
  else if String.eqb action "VIEW_HISTORY" then validateViewHistory plan
  else if String.eqb action "DAILY_CHECK" then validateDailyCheck user plan
  else plainlyAllowed ActionAllowed.

Definition canPerformAction (user : option User) (action : string)
  (context : Context) : bool :=
  allowed (validateAction user action context).

End planGuard.

(** ** [src/utils/helpers.js] *)

Module helpers.

Inductive Direction := unchanged | down | up.

Record PriceChange := {
  change : Q;
  percentage : Q;
  direction : Direction
}.

Definition calculatePriceChange (oldPrice newPrice : JS.num) : PriceChange :=
  if (negb (JS.truthy oldPrice) || negb (JS.truthy newPrice))%bool then
    {| change := 0; percentage := 0; direction := unchanged |}
  else
    let change := JS.ToNumber newPrice - JS.ToNumber oldPrice in
    let percentage := JS.toFixed 2 (change / JS.ToNumber oldPrice * 100) in
    let direction := if JS.Qltb change 0 then down else unchanged in
    let direction := if JS.Qltb 0 change then up else direction in
    {| change := Qabs change;
       percentage := Qabs percentage;
       direction := direction |}.

(** [truncate(str, maxLength)]; [None] is [null] or [undefined]. *)
Definition truncate (str : option string) (maxLength : nat) : string :=
  match str with
  | None => ""
  | Some s =>
      if (negb (JS.truthyS str) || Nat.leb (String.length s) maxLength)%bool
      then s
      else String.append (String.substring 0 (maxLength - 3) s) "..."
  end.

Inductive RelativeTime :=
| JustNow
| MinutesAgo (minutes : Z) (plural : bool)
| HoursAgo (hours : Z) (plural : bool)
| DaysAgo (days : Z) (plural : bool)
| LocaleDate (date : Z).

(** [now] is the value of [new Date()] at the call; [Math.floor] of a
    quotient of integers is [Z.div]. *)
Definition getRelativeTime (now date : Z) : RelativeTime :=
  let diffMs := (now - date)%Z in
  let diffSecs := (diffMs / 1000)%Z in
  let diffMins := (diffSecs / 60)%Z in
  let diffHours := (diffMins / 60)%Z in
  let diffDays := (diffHours / 24)%Z in
  if Z.ltb diffSecs 60 then JustNow
  else if Z.ltb diffMins 60 then MinutesAgo diffMins (Z.ltb 1 diffMins)
  else if Z.ltb diffHours 24 then HoursAgo diffHours (Z.ltb 1 diffHours)
  else if Z.ltb diffDays 7 then DaysAgo diffDays (Z.ltb 1 diffDays)
  else LocaleDate date.

(** *** [retryWithBackoff]

    [fn k] is what the call number [k] of the wrapped function does. A run
    is what the wrapper hands back, the waits it made, in order, and the
    number of calls. *)

Inductive RetryResult (A : Type) :=
| Returned (value : A)
| Rethrown (lastError : option string).   (* [None] is [undefined] *)
Arguments Returned {A} value.
Arguments Rethrown {A} lastError.

Record RetryRun (A : Type) := {
  result : RetryResult A;
  waits : list Z;
  calls : nat
}.
Arguments result {A} _.
Arguments waits {A} _.
Arguments calls {A} _.

(** The iterations [attempt, attempt + 1, ...], [remaining] of them. *)
Fixpoint retryFrom {A} (fn : nat -> Completion A) (maxRetries baseDelay : Z)
  (remaining attempt : nat) (lastError : option string) : RetryRun A :=
  match remaining with
  | O => {| result := Rethrown lastError; waits := []; calls := 0 |}
  | S remaining' =>
      match fn attempt with
      | Normal value =>
          {| result := Returned value; waits := []; calls := 1 |}
      | Throw message =>
          let wait :=
            if Z.ltb (Z.of_nat attempt) (maxRetries - 1)
            then [(baseDelay * 2 ^ Z.of_nat attempt)%Z]
            else [] in
          let rest :=
            retryFrom fn maxRetries baseDelay remaining' (S attempt)
              (Some message) in
          {| result := result rest;
             waits := wait ++ waits rest;
             calls := S (calls rest) |}
      end
  end.

(** [for (let attempt = 0; attempt < maxRetries; attempt++)] *)
Definition retryWithBackoff {A} (fn : nat -> Completion A)
  (maxRetries baseDelay : Z) : RetryRun A :=
  retryFrom fn maxRetries baseDelay (Z.to_nat maxRetries) 0 None.

(** *** [createRateLimiter]

    The closure's array [requests] is the state; [now] is [Date.now()]. *)

Record CheckResult := {
  allowed : bool;
  retryAfter : option Z     (* [None] where the source has no number *)
}.

(** [while (requests.length > 0 && requests[0] < bound) requests.shift()] *)
Fixpoint shiftOld (bound : Z) (requests : list Z) : list Z :=
  match requests with
  | [] => []
  | first :: rest =>
      if Z.ltb first bound then shiftOld bound rest else requests
  end.

Definition check (maxRequests windowMs : Z) (now : Z) (requests : list Z)
  : CheckResult * list Z :=
  let requests := shiftOld (now - windowMs) requests in
  if Z.leb maxRequests (Z.of_nat (List.length requests)) then
    ({| allowed := false;
        retryAfter :=
          match requests with
          | first :: _ => Some (first + windowMs - now)%Z
          | [] => None
          end |}, requests)
  else ({| allowed := true; retryAfter := None |}, requests ++ [now]).

Definition reset (requests : list Z) : list Z := [].

End helpers.

(** * Specification vocabulary *)



(** The result a fetch hands to the caller of the retry wrapper, if any. *)
Definition usableResult (outcome : ScrapeOutcome) : option Scraped :=
  match outcome with
  | ScrapeReturns result => if cronJobs.hasPrice result then result else None
  | ScrapeThrows _ => None
  end.

(** The candidates the run has accounted for: skipped, failed or checked. *)
Definition counted (w : World) : nat :=
  productsSkipped (runStats w) + errors (runStats w)
  + productsChecked (runStats w).

(** The price stored for each tracked product, by id. *)
Definition storedPrices (w : World) : list (Z * JS.num) :=
  map (fun r => (tracked_products.id r, tracked_products.current_price r))
    (db_tracked_products w).

(** A computation leaves an observation of the world as it found it. *)
Definition preserves {A X : Type} (f : World -> X) (c : Eff A) : Prop :=
  forall w, f (snd (c w)) = f w.

(** A computation always completes normally. *)
Definition total {A : Type} (c : Eff A) : Prop :=
  forall w, exists a, fst (c w) = Normal a.

(** The observations that neither the clock nor the log can change. *)
Definition steady {X : Type} (f : World -> X) : Prop :=
  (forall n w, f (set_tick n w) = f w) /\
  (forall t w, f (set_trace t w) = f w).

(** ** Sample data *)

Definition sampleOwner : users.row :=
  {| users.id := 1%N; users.telegram_id := 4242;
     users.plan := Some "PRO"%string; users.max_products := Some 10%Z;
     users.check_interval := Some "DAILY"%string;
     users.is_active := Some 1%Z |}.

Definition sampleRow (rowId : Z) (url : string) (price : Q)
  : tracked_products.row :=
  {| tracked_products.id := rowId; tracked_products.user_id := 1%N;
     tracked_products.amazon_url := url;
     tracked_products.title := Some "Kettle"%string;
     tracked_products.current_price := Some price;
     tracked_products.target_price := None;
     tracked_products.currency := Some "INR"%string;
     tracked_products.last_checked_at := None;
     tracked_products.is_active := Some 1%Z;
     tracked_products.last_alert_price := None;
     tracked_products.last_alerted_at := None;
     tracked_products.updated_at := None |}.

Definition urlA : string := "https://www.amazon.in/dp/B00000000A".
Definition urlB : string := "https://www.amazon.in/dp/B00000000B".
Definition urlC : string := "https://www.amazon.in/dp/B00000000C".

(** Three tracked products of one daily user, none checked so far. *)
Definition sampleWorld : World :=
  {| tick := 0; db_users := [sampleOwner];
     db_tracked_products :=
       [sampleRow 1 urlA 1000; sampleRow 2 urlB 2000; sampleRow 3 urlC 3000];
     db_price_history := [];
     runStats := {| lastRun := None; productsChecked := 0;
                    productsSkipped := 0; priceDrops := 0;
                    notificationsSent := 0; errors := 0 |};
     trace := [] |}.

Definition quote (price : Q) : ScrapeOutcome :=
  ScrapeReturns (Some {| scraped_title := Some "Kettle"%string;
                         scraped_price := Some price;
                         scraped_currency := Some "INR"%string |}).

(** An outside where the second page always fails to load, the other two
    quote lower prices, the database accepts every statement, and the chat
    transport works or not. *)
Definition sampleEnv (transportDown : bool) : Env :=
  {| localOffset := fun _ => 19800000%Z;
     Date_now := fun t => (1700000000000 + 1000 * Z.of_nat t)%Z;
     Math_random := fun _ => 1 # 2;
     scrapeAmazonProduct := fun _ url =>
       if String.eqb url urlB then ScrapeThrows "Request blocked"
       else if String.eqb url urlA then quote 900 else quote 2800;
     sendMessage := fun _ _ _ =>
       if transportDown then Some "ETELEGRAM: 403 Forbidden"%string else None;
     sqlite := fun _ => None |}.

Definition sampleCandidate : Product :=
  queries.joinRow (sampleRow 1 urlA 1000) sampleOwner.

(** A never-checked product with the given target and last-alerted price. *)
Definition sampleProduct (target lastAlert : JS.num) : Product :=
  {| id := 1; user_id := 1%N;
     amazon_url := "https://www.amazon.in/dp/B000000001";
     title := Some "Kettle"%string; current_price := None;
     target_price := target;
     currency := Some "INR"%string; last_checked_at := None;
     last_alert_price := lastAlert; last_alerted_at := None;
     telegram_id := 4242; plan := Some "PRO"%string; max_products := Some 10%Z;
     check_interval := Some "DAILY"%string |}.


(** ** Further vocabulary *)

(** The products filed under a key. *)
Definition productsOf (key : N) (groups : list (N * cronJobs.Group))
  : list Product :=
  match find (fun entry => N.eqb (fst entry) key) groups with
  | Some entry => cronJobs.group_products (snd entry)
  | None => []
  end.

Definition ownedBy (key : N) (p : Product) : bool := N.eqb (user_id p) key.

(** A group holds at least one product and carries the owner columns of
    the first product filed in it. *)
Definition builtFromFirst (entry : N * cronJobs.Group) : Prop :=
  exists first rest,
    cronJobs.group_products (snd entry) = first :: rest /\
    cronJobs.group_user (snd entry) = cronJobs.userOf first.

(** A history entry with the given price and instant. *)
Definition entry (p : Q) (at_ : Z) : priceHelper.HistoryEntry :=
  {| priceHelper.price := Some p; priceHelper.checked_at := at_ |}.

(** The answers of a limiter to checks at the given instants, in order,
    each with its instant, from the given state. *)
Fixpoint serve (maxRequests windowMs : Z) (times : list Z) (requests : list Z)
  : list (Z * bool) :=
  match times with
  | [] => []
  | now :: later =>
      let answer := helpers.check maxRequests windowMs now requests in
      (now, helpers.allowed (fst answer))
        :: serve maxRequests windowMs later (snd answer)
  end.

(** The instants at which a check was allowed. *)
Definition granted (answers : list (Z * bool)) : list Z :=
  map fst (filter snd answers).


(** The columns of the tracked products that say which product is tracked,
    for whom, and towards which target. *)
Definition identities (w : World)
  : list (Z * N * string * JS.num * option string * option Z) :=
  map (fun r => (tracked_products.id r, tracked_products.user_id r,
                 tracked_products.amazon_url r,
                 tracked_products.target_price r,
                 tracked_products.currency r,
                 tracked_products.is_active r))
    (db_tracked_products w).

(** What a sweep may only add to: the users, the identities, the history
    and the counts of checked products, price drops and notifications. *)
Definition ledger (w : World) :=
  (db_users w, identities w, db_price_history w,
   productsChecked (runStats w), priceDrops (runStats w),
   notificationsSent (runStats w)).

(** From [w] to [w']: the users and identities are the same, the history
    has grown by [added], and the three counts by the given numbers. *)
Definition moved (checked drops sent : nat) (added : list price_history.row)
  (w w' : World) : Prop :=
  db_users w' = db_users w /\
  identities w' = identities w /\
  db_price_history w' = db_price_history w ++ added /\
  productsChecked (runStats w') = (productsChecked (runStats w) + checked)%nat /\
  priceDrops (runStats w') = (priceDrops (runStats w) + drops)%nat /\
  notificationsSent (runStats w')
    = (notificationsSent (runStats w) + sent)%nat.

(** A step of a sweep: a move whose counts are ordered as the code orders
    its increments. *)
Definition sweepStep (w w' : World) : Prop :=
  exists checked drops sent added,
    moved checked drops sent added w w' /\
    (sent <= drops)%nat /\ (drops <= checked)%nat /\
    (checked <= List.length added)%nat.

(** Every event of a stretch of the trace satisfies a condition. *)
Definition emits {A} (P : Event -> Prop) (c : Eff A) : Prop :=
  forall w, exists evs, trace (snd (c w)) = evs ++ trace w /\ Forall P evs.


(** What the sweep may do for a list of candidates: fetch their pages and
    message their owners. *)
Definition concerns (candidates : list Product) (e : Event) : Prop :=
  match e with
  | EvScrape url _ => In url (map amazon_url candidates)
  | EvSendMessage chat _ _ => In chat (map telegram_id candidates)
  | EvDelay _ | EvConsoleError _ => True
  end.

(** The outside [env] with another database engine. *)
Definition withSqlite (engine : nat -> option string) (env : Env) : Env :=
  {| localOffset := localOffset env; Date_now := Date_now env;
     Math_random := Math_random env;
     scrapeAmazonProduct := scrapeAmazonProduct env;
     sendMessage := sendMessage env; sqlite := engine |}.



(** * Properties *)

(** ** Comparisons on rationals *)

Lemma Qltb_true_iff (a b : Q) : JS.Qltb a b = true <-> a < b.
Proof.
  unfold JS.Qltb. rewrite negb_true_iff. split.
  - intro H. apply Qnot_le_lt. intro Hle.
    apply Qle_bool_iff in Hle. congruence.
  - intro H. destruct (Qle_bool b a) eqn:E; [|reflexivity].
    apply Qle_bool_iff in E. exfalso. exact (Qlt_not_le _ _ H E).
Qed.

Lemma Qltb_false_iff (a b : Q) : JS.Qltb a b = false <-> b <= a.
Proof.
  unfold JS.Qltb. rewrite negb_false_iff. apply Qle_bool_iff.
Qed.

Lemma Qle_bool_false_iff (a b : Q) : Qle_bool a b = false <-> b < a.
Proof.
  rewrite <- Qltb_true_iff. unfold JS.Qltb.
  destruct (Qle_bool a b); simpl; intuition congruence.
Qed.

Lemma truthy_Some (q : Q) : JS.truthy (Some q) = true <-> ~ q == 0.
Proof.
  simpl. rewrite negb_true_iff. split.
  - intros H E. apply Qeq_bool_iff in E. congruence.
  - intro H. destruct (Qeq_bool q 0) eqn:E; [|reflexivity].
    apply Qeq_bool_iff in E. contradiction.
Qed.

Lemma truthy_positive (q : Q) : 0 < q -> JS.truthy (Some q) = true.
Proof.
  intro H. apply truthy_Some. intro E. rewrite E in H.
  exact (Qlt_irrefl _ H).
Qed.

(** ** The price-change analyzer *)

Section Analyzer.

Variable env : JS.num.

(** The guard of [calculatePriceChange] lets two positive prices through. *)
Lemma calculatePriceChange_positive (o n : Q) :
  0 < o -> 0 < n ->
  priceHelper.calculatePriceChange env (Some o) (Some n) =
  let absoluteChange := o - n in
  let percentChange := (absoluteChange / o) * 100 in
  let direction :=
    if JS.Qltb (1 # 100) absoluteChange then priceHelper.down
    else if JS.Qltb absoluteChange (- (1 # 100)) then priceHelper.up
    else priceHelper.unchanged in
  {| priceHelper.absoluteChange := absoluteChange;
     priceHelper.percentChange := percentChange;
     priceHelper.direction := direction;
     priceHelper.isMeaningful :=
       (priceHelper.direction_eqb direction priceHelper.down
        && Qle_bool (priceHelper.MIN_DROP_PERCENT env) (Qabs percentChange))%bool;
     priceHelper.formattedAbsolute := Qabs absoluteChange;
     priceHelper.formattedPercent := JS.toFixed 1 (Qabs percentChange);
     priceHelper.isDropped :=
       priceHelper.direction_eqb direction priceHelper.down;
     priceHelper.isIncreased :=
       priceHelper.direction_eqb direction priceHelper.up |}.
Proof.
  intros Ho Hn. unfold priceHelper.calculatePriceChange.
  rewrite (truthy_positive o Ho), (truthy_positive n Hn).
  unfold JS.le, JS.ToNumber.
  assert (E1 : Qle_bool o 0 = false) by (apply Qle_bool_false_iff; exact Ho).
  assert (E2 : Qle_bool n 0 = false) by (apply Qle_bool_false_iff; exact Hn).
  rewrite E1, E2. reflexivity.
Qed.

(** A result with direction [down] comes from two positive prices more than
    a hundredth apart. *)
Lemma direction_down_inv (oldPrice newPrice : JS.num) :
  priceHelper.direction (priceHelper.calculatePriceChange env oldPrice newPrice)
    = priceHelper.down ->
  exists o n, oldPrice = Some o /\ newPrice = Some n /\
              0 < o /\ 0 < n /\ 1 # 100 < o - n.
Proof.
  unfold priceHelper.calculatePriceChange.
  destruct oldPrice as [o|], newPrice as [n|]; simpl;
    try (rewrite ?orb_true_r; simpl; discriminate).
  destruct (Qeq_bool o 0); simpl; [discriminate|].
    destruct (Qeq_bool n 0); simpl; [discriminate|].
    unfold JS.le; simpl.
    destruct (Qle_bool o 0) eqn:E1; simpl; [discriminate|].
    destruct (Qle_bool n 0) eqn:E2; simpl; [discriminate|].
    destruct (JS.Qltb (1 # 100) (o - n)) eqn:E3.
  - intros _. exists o, n. repeat split.
    + apply Qle_bool_false_iff; assumption.
    + apply Qle_bool_false_iff; assumption.
    + apply Qltb_true_iff; assumption.
  - destruct (JS.Qltb (o - n) (- (1 # 100))); discriminate.
Qed.

End Analyzer.



(** ** The alert decisions *)

Section Decisions.

Variable env : JS.num.

(** What [shouldTriggerAlert] sees once the price dropped. *)
Lemma dropped_change (o n : Q) :
  0 < o -> 0 < n -> 1 # 100 < o - n ->
  let change := priceHelper.calculatePriceChange env (Some o) (Some n) in
  priceHelper.isDropped change = true /\
  priceHelper.isMeaningful change =
    Qle_bool (priceHelper.MIN_DROP_PERCENT env) ((o - n) / o * 100).
Proof.
  intros Ho Hn Hd. rewrite (calculatePriceChange_positive env o n Ho Hn).
  assert (Hpos : 0 <= (o - n) / o * 100).
  { apply Qmult_le_0_compat; [|discriminate].
    apply Qle_shift_div_l; [exact Ho|]. rewrite Qmult_0_l.
    apply Qlt_le_weak. eapply Qlt_trans; [|exact Hd]. reflexivity. }
  apply Qltb_true_iff in Hd.
  cbv zeta. cbn [priceHelper.isDropped priceHelper.isMeaningful].
  rewrite Hd. cbn [priceHelper.direction_eqb andb]. split; [reflexivity|].
  destruct (Qle_bool (priceHelper.MIN_DROP_PERCENT env) (Qabs ((o - n) / o * 100)))
    eqn:E1; symmetry.
  - apply Qle_bool_iff. apply Qle_bool_iff in E1.
    rewrite (Qabs_pos _ Hpos) in E1. exact E1.
  - apply Qle_bool_false_iff. apply Qle_bool_false_iff in E1.
    rewrite (Qabs_pos _ Hpos) in E1. exact E1.
Qed.

Lemma not_dropped_no_alert (product : Product) (oldPrice newPrice : JS.num) :
  priceHelper.direction (priceHelper.calculatePriceChange env oldPrice newPrice)
    <> priceHelper.down ->
  priceHelper.shouldAlert
    (priceHelper.shouldTriggerAlert env product oldPrice newPrice) = false.
Proof.
  intro H. unfold priceHelper.shouldTriggerAlert.
  assert (E : priceHelper.isDropped
                (priceHelper.calculatePriceChange env oldPrice newPrice) = false).
  { revert H. unfold priceHelper.calculatePriceChange.
    destruct (_ || _ || _ || _)%bool; [reflexivity|].
    cbv zeta. cbn [priceHelper.isDropped priceHelper.direction].
    destruct (JS.Qltb (1 # 100) _); [congruence|].
    destruct (JS.Qltb _ (- (1 # 100))); reflexivity. }
  rewrite E. reflexivity.
Qed.

End Decisions.

(** The sweep's decision once both prices are non-zero numbers. *)
Lemma shouldSendNotification_numbers (product : Product) (o n : Q) :
  ~ o == 0 -> ~ n == 0 ->
  cronJobs.shouldSendNotification product (Some o) (Some n) =
  if (JS.truthy (last_alert_price product)
      && JS.ge (Some n) (last_alert_price product))%bool then
    {| cronJobs.notify := false;
       cronJobs.reason := AlreadyAlertedAt (last_alert_price product)
                                           (currency product) |}
  else if (JS.truthy (target_price product)
           && JS.le (Some n) (target_price product))%bool then
    {| cronJobs.notify := true;
       cronJobs.reason := TargetPriceReached (target_price product)
                                             (currency product) |}
  else if (negb (JS.truthy (target_price product)) && JS.Qltb n o)%bool then
    {| cronJobs.notify := true;
       cronJobs.reason :=
         PriceDroppedBy (cronJobs.dropPercentage (Some o) (Some n)) |}
  else if (JS.truthy (target_price product) && JS.Qltb n o)%bool then
    if Qle_bool 5 (cronJobs.dropPercentage (Some o) (Some n)) then
      {| cronJobs.notify := true;
         cronJobs.reason :=
           PriceDroppedStillAboveTarget
             (cronJobs.dropPercentage (Some o) (Some n)) |}
    else {| cronJobs.notify := false; cronJobs.reason := NoReason |}
  else {| cronJobs.notify := false; cronJobs.reason := NoReason |}.
Proof.
  intros Ho Hn. unfold cronJobs.shouldSendNotification.
  apply truthy_Some in Ho. apply truthy_Some in Hn. rewrite Ho, Hn.
  reflexivity.
Qed.

Lemma positive_nonzero (q : Q) : 0 < q -> ~ q == 0.
Proof. intros H E. rewrite E in H. exact (Qlt_irrefl _ H). Qed.

(** C1, amended. A price that did not drop never makes [shouldTriggerAlert]
    alert. The decision the sweep runs, [shouldSendNotification], compares
    the two prices directly: it stays silent when the new price is not below
    the old one and the target price is unset or not reached. *)
Theorem C1_no_alert_without_drop (env : JS.num) (product : Product)
  (oldPrice newPrice : JS.num) :
  priceHelper.direction (priceHelper.calculatePriceChange env oldPrice newPrice)
    <> priceHelper.down ->
  priceHelper.shouldAlert
    (priceHelper.shouldTriggerAlert env product oldPrice newPrice) = false /\
  (JS.lt newPrice oldPrice = false ->
   (JS.truthy (target_price product)
    && JS.le newPrice (target_price product))%bool = false ->
   cronJobs.notify (cronJobs.shouldSendNotification product oldPrice newPrice)
     = false).
Proof.
  intro Hdir. split; [apply not_dropped_no_alert; exact Hdir|].
  intros Hlt Htarget. unfold cronJobs.shouldSendNotification.
  rewrite Htarget, Hlt.
  destruct (negb (JS.truthy newPrice) || negb (JS.truthy oldPrice))%bool;
    [reflexivity|].
  destruct (JS.truthy (last_alert_price product)
            && JS.ge newPrice (last_alert_price product))%bool; [reflexivity|].
  rewrite !andb_false_r. reflexivity.
Qed.

Lemma C1_no_alert_without_drop_witness :
  priceHelper.shouldAlert
    (priceHelper.shouldTriggerAlert None (sampleProduct (Some 500) None)
       (Some 600) (Some 650)) = false /\
  cronJobs.notify
    (cronJobs.shouldSendNotification (sampleProduct (Some 500) None)
       (Some 600) (Some 650)) = false.
Proof.
  assert (H : priceHelper.direction
                (priceHelper.calculatePriceChange None (Some 600) (Some 650))
              <> priceHelper.down) by (vm_compute; discriminate).
  destruct (C1_no_alert_without_drop None (sampleProduct (Some 500) None)
              (Some 600) (Some 650) H) as [H1 H2].
  split; [exact H1 | apply H2; reflexivity].
Defined.

(** C1 as stated fails on the sweep's decision: the price rose from 400 to
    450, below the target of 500, and the sweep notifies; the price moved
    from 100 to 99.995, inside the tolerance, and the sweep notifies. *)
Lemma C1_sweep_alerts_without_drop :
  (priceHelper.direction
     (priceHelper.calculatePriceChange None (Some 400) (Some 450))
     <> priceHelper.down /\
   cronJobs.notify
     (cronJobs.shouldSendNotification (sampleProduct (Some 500) None)
        (Some 400) (Some 450)) = true) /\
  (priceHelper.direction
     (priceHelper.calculatePriceChange None (Some 100) (Some (99995 # 1000)))
     <> priceHelper.down /\
   cronJobs.notify
     (cronJobs.shouldSendNotification (sampleProduct None None)
        (Some 100) (Some (99995 # 1000))) = true).
Proof.
  repeat split; try reflexivity; vm_compute; discriminate.
Qed.




(** C3. Once an alert went out at some price, no new price at or above it
    alerts again, whatever the target price; both decisions agree. *)
Theorem C3_duplicate_suppression (env : JS.num) (product : Product)
  (oldPrice : JS.num) (lastAlertedPrice newPrice : Q) :
  last_alert_price product = Some lastAlertedPrice ->
  ~ lastAlertedPrice == 0 ->
  lastAlertedPrice <= newPrice ->
  priceHelper.shouldAlert
    (priceHelper.shouldTriggerAlert env product oldPrice (Some newPrice))
    = false /\
  cronJobs.notify
    (cronJobs.shouldSendNotification product oldPrice (Some newPrice))
    = false.
Proof.
  intros Hlast Hset Hge.
  assert (Hdup : (JS.truthy (last_alert_price product)
                  && JS.ge (Some newPrice) (last_alert_price product))%bool
                 = true).
  { rewrite Hlast. apply andb_true_iff. split.
    - apply truthy_Some; exact Hset.
    - apply Qle_bool_iff; exact Hge. }
  split.
  - unfold priceHelper.shouldTriggerAlert. rewrite Hdup.
    destruct (negb _); reflexivity.
  - unfold cronJobs.shouldSendNotification. rewrite Hdup.
    destruct (_ || _)%bool; reflexivity.
Qed.

Lemma C3_duplicate_suppression_witness :
  priceHelper.shouldAlert
    (priceHelper.shouldTriggerAlert None (sampleProduct (Some 500) (Some 100))
       (Some 150) (Some 100)) = false /\
  cronJobs.notify
    (cronJobs.shouldSendNotification (sampleProduct (Some 500) (Some 100))
       (Some 150) (Some 100)) = false.
Proof.
  apply (C3_duplicate_suppression None (sampleProduct (Some 500) (Some 100))
           (Some 150) 100 100 eq_refl).
  - vm_compute; discriminate.
  - vm_compute; discriminate.
Defined.

(** C7. A dropped price at or below the target, with no earlier alert,
    alerts with high priority, whatever the size of the drop; the sweep's
    decision notifies too, with the target-reached reason. *)
Theorem C7_target_reached (env : JS.num) (product : Product)
  (oldPrice : JS.num) (targetPrice newPrice : Q) :
  target_price product = Some targetPrice ->
  ~ targetPrice == 0 ->
  last_alert_price product = None ->
  priceHelper.direction
    (priceHelper.calculatePriceChange env oldPrice (Some newPrice))
    = priceHelper.down ->
  newPrice <= targetPrice ->
  let alert :=
    priceHelper.shouldTriggerAlert env product oldPrice (Some newPrice) in
  let sweep := cronJobs.shouldSendNotification product oldPrice (Some newPrice) in
  priceHelper.shouldAlert alert = true /\
  priceHelper.priority alert = Some priceHelper.high /\
  cronJobs.notify sweep = true /\
  cronJobs.reason sweep = TargetPriceReached (Some targetPrice) (currency product).
Proof.
  intros Htarget Hset Hnone Hdown Hle.
  destruct (direction_down_inv env oldPrice (Some newPrice) Hdown)
    as (o & n & -> & Hn' & Ho & Hn & Hd).
  injection Hn' as <-.
  destruct (dropped_change env o newPrice Ho Hn Hd) as [Hdropped _].
  assert (Hreach : (JS.truthy (target_price product)
                    && JS.le (Some newPrice) (target_price product))%bool
                   = true).
  { rewrite Htarget. apply andb_true_iff. split.
    - apply truthy_Some; exact Hset.
    - apply Qle_bool_iff; exact Hle. }
  cbv zeta. unfold priceHelper.shouldTriggerAlert.
  rewrite Hdropped.
  rewrite (shouldSendNotification_numbers product o newPrice
             (positive_nonzero o Ho) (positive_nonzero newPrice Hn)).
  rewrite Hreach, Hnone, Htarget. cbn. repeat split.
Qed.

Lemma C7_target_reached_witness :
  priceHelper.isMeaningful
    (priceHelper.calculatePriceChange None (Some 485) (Some 480)) = false /\
  priceHelper.shouldAlert
    (priceHelper.shouldTriggerAlert None (sampleProduct (Some 500) None)
       (Some 485) (Some 480)) = true /\
  priceHelper.priority
    (priceHelper.shouldTriggerAlert None (sampleProduct (Some 500) None)
       (Some 485) (Some 480)) = Some priceHelper.high.
Proof.
  split; [reflexivity|].
  destruct (C7_target_reached None (sampleProduct (Some 500) None)
              (Some 485) 500 480 eq_refl) as (H1 & H2 & _).
  - vm_compute; discriminate.
  - reflexivity.
  - reflexivity.
  - vm_compute; discriminate.
  - split; [exact H1 | exact H2].
Defined.

(** ** Eligibility *)




(** ** Effects: what a computation leaves alone, and when it cannot throw *)

Section Combinators.

Context {X : Type} (f : World -> X).

Lemma preserves_ret {A} (a : A) : preserves f (ret a).
Proof. intro w. reflexivity. Qed.

Lemma preserves_throw {A} (m : string) : preserves f (@throw A m).
Proof. intro w. reflexivity. Qed.

Lemma preserves_get : preserves f get.
Proof. intro w. reflexivity. Qed.

Lemma preserves_bind {A B} (c : Eff A) (k : A -> Eff B) :
  preserves f c -> (forall a, preserves f (k a)) -> preserves f (bind c k).
Proof.
  intros Hc Hk w. unfold bind. specialize (Hc w).
  destruct (c w) as [[a|m] w1]; simpl in *; [rewrite Hk|]; exact Hc.
Qed.

Lemma preserves_try_catch {A} (body : Eff A) (handler : string -> Eff A) :
  preserves f body -> (forall m, preserves f (handler m)) ->
  preserves f (try_catch body handler).
Proof.
  intros Hb Hh w. unfold try_catch. specialize (Hb w).
  destruct (body w) as [[a|m] w1]; simpl in *; [|rewrite Hh]; exact Hb.
Qed.

Lemma preserves_interact :
  (forall n w, f (set_tick n w) = f w) -> preserves f interact.
Proof. intros H w. simpl. apply H. Qed.

Lemma preserves_emit (e : Event) :
  (forall t w, f (set_trace t w) = f w) -> preserves f (emit e).
Proof. intros H w. simpl. apply H. Qed.

End Combinators.

Lemma total_ret {A} (a : A) : total (ret a).
Proof. intro w. exists a. reflexivity. Qed.

Lemma total_bind {A B} (c : Eff A) (k : A -> Eff B) :
  total c -> (forall a, total (k a)) -> total (bind c k).
Proof.
  intros Hc Hk w. unfold bind. destruct (Hc w) as [a Ha].
  destruct (c w) as [[a'|m] w1]; simpl in Ha; [|discriminate].
  apply Hk.
Qed.

Lemma total_try_catch {A} (body : Eff A) (handler : string -> Eff A) :
  (forall m, total (handler m)) -> total (try_catch body handler).
Proof.
  intros Hh w. unfold try_catch.
  destruct (body w) as [[a|m] w1]; [exists a; reflexivity | apply Hh].
Qed.

Lemma total_modify (g : World -> World) : total (modify g).
Proof. intro w. exists tt. reflexivity. Qed.

Lemma total_interact : total interact.
Proof. intro w. exists (tick w). reflexivity. Qed.

Lemma total_unit (c : Eff unit) : total c -> forall w, fst (c w) = Normal tt.
Proof. intros H w. destruct (H w) as [[] E]. exact E. Qed.

Lemma steady_runStats : steady runStats.
Proof. split; reflexivity. Qed.
Lemma steady_tracked : steady db_tracked_products.
Proof. split; reflexivity. Qed.
Lemma steady_history : steady db_price_history.
Proof. split; reflexivity. Qed.
Lemma steady_users : steady db_users.
Proof. split; reflexivity. Qed.

Ltac preserve :=
  repeat first
    [ apply preserves_ret | apply preserves_throw | apply preserves_get
    | apply preserves_interact; solve [intros; reflexivity | assumption | apply proj1; assumption]
    | apply preserves_emit; solve [intros; reflexivity | assumption | apply proj2; assumption]
    | apply preserves_bind; [|intros ?]
    | apply preserves_try_catch; [|intros ?]
    | match goal with
      | |- preserves _ (if ?b then _ else _) => destruct b
      | |- preserves _ (match ?x with _ => _ end) => destruct x
      end ].

Section Capabilities.

Variable env : Env.
Context {X : Type} (f : World -> X) (Hf : steady f).

Lemma preserves_now : preserves f (cronJobs.now env).
Proof. destruct Hf. unfold cronJobs.now. preserve. Qed.

Lemma preserves_random : preserves f (cronJobs.random env).
Proof. destruct Hf. unfold cronJobs.random. preserve. Qed.

Lemma preserves_delay ms : preserves f (cronJobs.delay ms).
Proof. destruct Hf. unfold cronJobs.delay. preserve. Qed.

Lemma preserves_scrape url : preserves f (cronJobs.scrape env url).
Proof. destruct Hf. unfold cronJobs.scrape. preserve. Qed.

Lemma preserves_scrapeAttempt attempt url :
  preserves f (cronJobs.scrapeAttempt env attempt url).
Proof.
  unfold cronJobs.scrapeAttempt. destruct Hf.
  pose proof preserves_random. pose proof preserves_delay.
  pose proof preserves_scrape. preserve; auto.
Qed.

Lemma preserves_scrapeAttempts remaining attempt url :
  preserves f (cronJobs.scrapeAttempts env remaining attempt url).
Proof.
  revert attempt. induction remaining as [|n IH]; intro attempt; simpl.
  - apply preserves_ret.
  - apply preserves_bind; [apply preserves_scrapeAttempt|].
    intros [r|]; [apply preserves_ret | apply IH].
Qed.

Lemma preserves_scrapeWithRetry url retries :
  preserves f (cronJobs.scrapeWithRetry env url retries).
Proof. apply preserves_scrapeAttempts. Qed.

Lemma preserves_statement : preserves f (queries.statement env).
Proof. destruct Hf. unfold queries.statement. preserve. Qed.

Lemma preserves_findProduct i : preserves f (queries.findProduct env i).
Proof.
  unfold queries.findProduct. destruct Hf.
  pose proof preserves_statement. preserve; auto.
Qed.

Lemma preserves_modify (g : World -> World) :
  (forall w, f (g w) = f w) -> preserves f (modify g).
Proof. intros H w. simpl. apply H. Qed.

Lemma preserves_updateProductPrice i p t :
  (forall l w, f (set_tracked_products l w) = f w) ->
  preserves f (queries.updateProductPrice env i p t).
Proof.
  intro H. destruct Hf. unfold queries.updateProductPrice.
  pose proof preserves_statement. pose proof preserves_findProduct.
  preserve; auto. apply preserves_modify. intro w. apply H.
Qed.

Lemma preserves_updateAlertStatus i p :
  (forall l w, f (set_tracked_products l w) = f w) ->
  preserves f (queries.updateAlertStatus env i p).
Proof.
  intro H. destruct Hf. unfold queries.updateAlertStatus.
  pose proof preserves_statement. pose proof preserves_findProduct.
  preserve; auto. apply preserves_modify. intro w. apply H.
Qed.

Lemma preserves_addPriceHistory i p :
  (forall l w, f (set_price_history l w) = f w) ->
  preserves f (queries.addPriceHistory env i p).
Proof.
  intro H. destruct Hf. unfold queries.addPriceHistory.
  pose proof preserves_statement.
  preserve; auto. apply preserves_modify. intro w. apply H.
Qed.

Lemma preserves_sendPriceDropNotification product o n r :
  preserves f (cronJobs.sendPriceDropNotification env product o n r).
Proof. destruct Hf. unfold cronJobs.sendPriceDropNotification. preserve. Qed.

Lemma preserves_updateStats (g : RunStats -> RunStats) :
  (forall s w, f (set_runStats s w) = f w) -> preserves f (updateStats g).
Proof. intros H w. simpl. apply H. Qed.

End Capabilities.

(** ** The retry wrapper *)

Section Retry.

Variable env : Env.





End Retry.



(** ** One product of the sweep *)

Section Item.

Variable env : Env.

Lemma total_now : total (cronJobs.now env).
Proof.
  unfold cronJobs.now. apply total_bind; [apply total_interact|].
  intro; apply total_ret.
Qed.

Lemma total_random : total (cronJobs.random env).
Proof.
  unfold cronJobs.random. apply total_bind; [apply total_interact|].
  intro; apply total_ret.
Qed.

Lemma total_delay ms : total (cronJobs.delay ms).
Proof.
  unfold cronJobs.delay. apply total_bind; [apply total_interact|].
  intro; apply total_modify.
Qed.


Lemma total_updateStats g : total (updateStats g).
Proof. apply total_modify. Qed.

Lemma total_console_error line : total (console_error line).
Proof. apply total_modify. Qed.

Lemma total_notifyUser product o n r :
  total (cronJobs.notifyUser env product o n r).
Proof.
  unfold cronJobs.notifyUser. apply total_try_catch.
  intro; apply total_console_error.
Qed.

Lemma total_checkProduct product : total (cronJobs.checkProduct env product).
Proof.
  unfold cronJobs.checkProduct. apply total_try_catch. intro m.
  apply total_bind; [apply total_updateStats|].
  intro; apply total_console_error.
Qed.

Lemma total_processProduct user product :
  total (cronJobs.processProduct env user product).
Proof.
  unfold cronJobs.processProduct. apply total_bind; [apply total_now|].
  intro today. destruct (negb _);
    [apply total_updateStats | apply total_checkProduct].
Qed.


Lemma notifyUser_history product o n r :
  preserves db_price_history (cronJobs.notifyUser env product o n r).
Proof.
  unfold cronJobs.notifyUser. apply preserves_try_catch.
  - apply preserves_bind;
      [apply preserves_sendPriceDropNotification; apply steady_history|].
    intros _. apply preserves_bind;
      [apply preserves_updateAlertStatus; [apply steady_history | reflexivity]|].
    intros _. intro w. reflexivity.
  - intro m. apply preserves_emit. reflexivity.
Qed.

(** A dispatch that throws: the handler logs it and nothing else moves. *)
Lemma notifyUser_failure product o n r failure (w : World) :
  sendMessage env (tick w) (telegram_id product)
    (cronJobs.priceDropMessage product o n r) = Some failure ->
  cronJobs.notifyUser env product o n r w =
  (Normal tt,
   set_trace
     (EvConsoleError (NotificationFailed failure)
        :: EvSendMessage (telegram_id product)
             (cronJobs.priceDropMessage product o n r) false
        :: trace w)
     (set_tick (S (tick w)) w)).
Proof.
  intro Hsend.
  unfold cronJobs.notifyUser, try_catch, bind,
    cronJobs.sendPriceDropNotification, bind, interact.
  cbn [tick set_tick]. rewrite Hsend. reflexivity.
Qed.

End Item.

Section Tally.

Variable env : Env.

Lemma bind_run {A B} (c : Eff A) (k : A -> Eff B) (w : World) :
  bind c k w =
  match c w with
  | (Normal a, w1) => k a w1
  | (Throw m, w1) => (Throw m, w1)
  end.
Proof. reflexivity. Qed.

Lemma preserves_pacing {X} (f : World -> X) :
  steady f -> preserves f (cronJobs.pacing env).
Proof.
  intro Hf. unfold cronJobs.pacing. apply preserves_bind; [apply preserves_get|].
  intro w0. destruct (Nat.ltb _ _); [|apply preserves_ret].
  apply preserves_bind; [apply preserves_random; exact Hf|].
  intro; apply preserves_delay; exact Hf.
Qed.



End Tally.

Section Persist.

Variable env : Env.

Lemma steady_storedPrices : steady storedPrices.
Proof. split; reflexivity. Qed.

(** A price update that completes normally has set the price of every row
    with the id. *)
Lemma updateProductPrice_stores (productId : Z) (price : JS.num)
  (title : option string) (w w1 : World) row :
  queries.updateProductPrice env productId price title w = (Normal row, w1) ->
  Forall (fun stored => fst stored = productId -> snd stored = price)
    (storedPrices w1).
Proof.
  unfold queries.updateProductPrice, queries.findProduct, queries.statement.
  rewrite !bind_run. cbn [interact].
  destruct (sqlite env (tick w)); [discriminate|]. cbn [ret].
  rewrite bind_run. cbn [modify]. rewrite !bind_run. cbn [interact tick].
  match goal with |- context [sqlite env ?t] => destruct (sqlite env t) end;
    [discriminate|].
  cbn [ret]. rewrite bind_run. cbn [get ret]. intro H. injection H as _ <-.
  unfold storedPrices. cbn [db_tracked_products set_tick queries.updateWhereId
    set_tracked_products].
  rewrite map_map. apply Forall_forall. intros stored Hin.
  apply in_map_iff in Hin. destruct Hin as (r & <- & _).
  destruct (Z.eqb_spec (tracked_products.id r) productId) as [E|E];
    cbn [fst snd tracked_products.id tracked_products.current_price];
    [reflexivity | contradiction].
Qed.

(** A history insert that completes normally has appended one entry. *)
Lemma addPriceHistory_appends (productId : Z) (price : JS.num)
  (w w1 : World) entry :
  queries.addPriceHistory env productId price w = (Normal entry, w1) ->
  exists added,
    db_price_history w1 = db_price_history w ++ [added] /\
    price_history.product_id added = productId /\
    Some (price_history.price added) = price.
Proof.
  unfold queries.addPriceHistory, queries.statement.
  rewrite !bind_run. cbn [interact].
  destruct (sqlite env (tick w)); [discriminate|].
  destruct price as [p|]; [|discriminate].
  rewrite bind_run. cbn [get]. rewrite bind_run. cbn [modify].
  rewrite !bind_run. cbn [interact tick].
  match goal with |- context [sqlite env ?t] => destruct (sqlite env t) end;
    [discriminate|].
  cbn [ret]. rewrite bind_run. cbn [get ret]. intro H. injection H as _ <-.
  eexists. cbn [db_price_history set_tick set_price_history].
  split; [reflexivity|]. split; reflexivity.
Qed.

Lemma updateWhereId_alert_keeps_prices (productId : Z)
  (f : tracked_products.row -> tracked_products.row) (w : World) :
  (forall r, tracked_products.id (f r) = tracked_products.id r /\
             tracked_products.current_price (f r)
             = tracked_products.current_price r) ->
  storedPrices (queries.updateWhereId productId f w) = storedPrices w.
Proof.
  intro Hf. unfold storedPrices, queries.updateWhereId.
  cbn [db_tracked_products set_tracked_products]. rewrite map_map.
  apply map_ext. intro r.
  destruct (Z.eqb _ _); [|reflexivity].
  destruct (Hf r) as [-> ->]. reflexivity.
Qed.

Lemma notifyUser_storedPrices product o n r :
  preserves storedPrices (cronJobs.notifyUser env product o n r).
Proof.
  unfold cronJobs.notifyUser. apply preserves_try_catch.
  - apply preserves_bind;
      [apply preserves_sendPriceDropNotification; apply steady_storedPrices|].
    intros _. apply preserves_bind.
    + unfold queries.updateAlertStatus. apply preserves_bind;
        [apply preserves_statement; apply steady_storedPrices|].
      intro t. apply preserves_bind.
      * apply preserves_modify. intro w.
        apply updateWhereId_alert_keeps_prices. intro row. split; reflexivity.
      * intros _. apply preserves_findProduct. apply steady_storedPrices.
    + intros _. intro w. reflexivity.
  - intro m. apply preserves_emit. reflexivity.
Qed.

(** A product counted as checked has its fetched price stored and one
    history entry appended, whatever the notification did afterwards. *)
Lemma checkProduct_persists (product : Product) (w : World) :
  let w' := snd (cronJobs.checkProduct env product w) in
  productsChecked (runStats w') = S (productsChecked (runStats w)) ->
  exists price added,
    JS.truthy price = true /\
    Forall (fun stored => fst stored = id product -> snd stored = price)
      (storedPrices w') /\
    db_price_history w' = db_price_history w ++ [added] /\
    price_history.product_id added = id product /\
    Some (price_history.price added) = price.
Proof.
  cbv zeta. unfold cronJobs.checkProduct, try_catch.
  rewrite bind_run.
  pose proof (preserves_pacing env runStats steady_runStats w) as P1.
  pose proof (preserves_pacing env db_price_history steady_history w) as Q1.
  destruct (cronJobs.pacing env w) as [[[]|m] w1]; cbn [snd] in P1, Q1.
  2:{ cbn. rewrite P1. intro H. lia. }
  rewrite bind_run.
  pose proof (preserves_scrapeWithRetry env runStats steady_runStats
                (amazon_url product) 1 w1) as P2.
  pose proof (preserves_scrapeWithRetry env db_price_history steady_history
                (amazon_url product) 1 w1) as Q2.
  destruct (cronJobs.scrapeWithRetry env (amazon_url product) 1 w1)
    as [[scrapedData|m] w2]; cbn [snd] in P2, Q2.
  2:{ cbn. rewrite P2, P1. intro H. lia. }
  destruct scrapedData as [data|]; [|cbn; rewrite P2, P1; intro H; lia].
  destruct (JS.truthy (scraped_price data)) eqn:Hprice; cbn [negb];
    [|cbn; rewrite P2, P1; intro H; lia].
  rewrite bind_run.
  pose proof (preserves_updateProductPrice env runStats steady_runStats
                (id product) (scraped_price data) (scraped_title data)
                (fun _ _ => eq_refl) w2) as P3.
  pose proof (preserves_updateProductPrice env db_price_history steady_history
                (id product) (scraped_price data) (scraped_title data)
                (fun _ _ => eq_refl) w2) as Q3.
  destruct (queries.updateProductPrice env (id product) (scraped_price data)
              (scraped_title data) w2) as [[row|m] w3] eqn:E3;
    cbn [snd] in P3, Q3.
  2:{ cbn. rewrite P3, P2, P1. intro H. lia. }
  pose proof (updateProductPrice_stores _ _ _ _ _ _ E3) as S3.
  rewrite bind_run.
  pose proof (preserves_addPriceHistory env runStats steady_runStats
                (id product) (scraped_price data) (fun _ _ => eq_refl) w3)
    as P4.
  pose proof (preserves_addPriceHistory env storedPrices steady_storedPrices
                (id product) (scraped_price data) (fun _ _ => eq_refl) w3)
    as S4.
  destruct (queries.addPriceHistory env (id product) (scraped_price data) w3)
    as [[entry|m] w4] eqn:E4; cbn [snd] in P4, S4.
  2:{ cbn. rewrite P4, P3, P2, P1. intro H. lia. }
  destruct (addPriceHistory_appends _ _ _ _ _ E4) as (added & H4 & Hid & Hp).
  intros _. exists (scraped_price data), added.
  split; [exact Hprice|].
  rewrite bind_run. cbn [updateStats modify].
  destruct (cronJobs.notify _).
  - rewrite bind_run. cbn [updateStats modify].
    match goal with
    | |- context [cronJobs.notifyUser env ?p ?o ?n ?r ?w5] =>
        pose proof (notifyUser_storedPrices p o n r w5) as N1;
        pose proof (notifyUser_history env p o n r w5) as N2;
        destruct (total_notifyUser env p o n r w5) as [[] N4];
        destruct (cronJobs.notifyUser env p o n r w5) as [[[]|m] w6]
    end; [|discriminate N4].
    cbn [snd] in N1, N2 |- *.
    rewrite N1, N2. cbn [db_price_history set_runStats].
    change (storedPrices (set_runStats _ (set_runStats _ w4)))
      with (storedPrices w4).
    rewrite S4, H4, Q3, Q2, Q1. auto.
  - cbn [snd ret db_price_history set_runStats].
    change (storedPrices (set_runStats _ w4)) with (storedPrices w4).
    rewrite S4, H4, Q3, Q2, Q1. auto.
Qed.

Lemma processProduct_persists (user : User) (product : Product) (w : World) :
  let w' := snd (cronJobs.processProduct env user product w) in
  productsChecked (runStats w') = S (productsChecked (runStats w)) ->
  exists price added,
    JS.truthy price = true /\
    Forall (fun stored => fst stored = id product -> snd stored = price)
      (storedPrices w') /\
    db_price_history w' = db_price_history w ++ [added] /\
    price_history.product_id added = id product /\
    Some (price_history.price added) = price.
Proof.
  cbv zeta. unfold cronJobs.processProduct. rewrite bind_run.
  unfold cronJobs.now. rewrite bind_run. cbn [interact ret].
  destruct (negb _).
  - cbn. intro H. lia.
  - apply (checkProduct_persists product (set_tick (S (tick w)) w)).
Qed.

End Persist.

(** ** The loops *)

Section Loops.

Context {A : Type} (body : A -> Eff unit).

Lemma forEach_app (l1 l2 : list A) (w : World) :
  forEach body (l1 ++ l2) w =
  bind (forEach body l1) (fun _ => forEach body l2) w.
Proof.
  revert w. induction l1 as [|x l1 IH]; intro w; [reflexivity|].
  cbn [app forEach]. rewrite !bind_run.
  destruct (body x w) as [[[]|m] w1]; [|reflexivity].
  rewrite IH, bind_run. reflexivity.
Qed.

Hypothesis body_total : forall x, total (body x).

Lemma forEach_total (l : list A) : total (forEach body l).
Proof.
  induction l as [|x l IH]; [apply total_ret|].
  cbn [forEach]. apply total_bind; [apply body_total | intro; exact IH].
Qed.

(** Whatever happened to the elements before it, an element is reached,
    and so are the ones after it. *)
Lemma forEach_resumes (before : list A) (x : A) (after : list A) (w : World) :
  forEach body (before ++ x :: after) w =
  forEach body after (snd (body x (snd (forEach body before w)))).
Proof.
  rewrite forEach_app, bind_run.
  pose proof (total_unit _ (forEach_total before) w) as H1.
  destruct (forEach body before w) as [r1 w1]. cbn [fst snd] in *. subst r1.
  cbn [forEach]. rewrite bind_run.
  pose proof (total_unit _ (body_total x) w1) as H2.
  destruct (body x w1) as [r2 w2]. cbn [fst snd] in *. subst r2. reflexivity.
Qed.


End Loops.

Section FlatLoop.

Variable env : Env.

Lemma forEach_map_pair (user : User) (products : list Product) (w : World) :
  forEach (cronJobs.processProduct env user) products w =
  forEach (cronJobs.processCandidate env) (map (pair user) products) w.
Proof.
  revert w. induction products as [|p l IH]; intro w; [reflexivity|].
  cbn [map forEach]. rewrite !bind_run.
  change (cronJobs.processCandidate env (user, p) w)
    with (cronJobs.processProduct env user p w).
  destruct (cronJobs.processProduct env user p w) as [[[]|m] w1];
    [apply IH | reflexivity].
Qed.

(** The two nested loops are one loop over the candidates. *)
Lemma processGroups_flat (groups : list (N * cronJobs.Group)) (w : World) :
  cronJobs.processGroups env groups w =
  forEach (cronJobs.processCandidate env) (cronJobs.candidatesOf groups) w.
Proof.
  unfold cronJobs.processGroups. revert w.
  induction groups as [|g groups IH]; intro w; [reflexivity|].
  cbn [forEach cronJobs.candidatesOf flat_map].
  rewrite forEach_app, !bind_run, forEach_map_pair.
  destruct (forEach (cronJobs.processCandidate env) _ w) as [[[]|m] w1];
    [apply IH | reflexivity].
Qed.

Lemma total_processCandidate candidate :
  total (cronJobs.processCandidate env candidate).
Proof. apply total_processProduct. Qed.


End FlatLoop.

(** Grouping keeps every candidate, once. *)
Lemma addProduct_candidates (product : Product)
  (groups : list (N * cronJobs.Group)) :
  Permutation
    (map snd (cronJobs.candidatesOf (cronJobs.addProduct product groups)))
    (product :: map snd (cronJobs.candidatesOf groups)).
Proof.
  induction groups as [|[key g] groups IH]; [reflexivity|].
  cbn [cronJobs.addProduct].
  destruct (N.eqb key (user_id product)).
  - cbn [cronJobs.candidatesOf flat_map snd cronJobs.group_user
         cronJobs.group_products].
    rewrite !map_app, !map_map. cbn [snd]. rewrite !map_id, <- app_assoc.
    cbn [app]. symmetry. apply Permutation_middle.
  - destruct (N.ltb (user_id product) key); [reflexivity|].
    change (cronJobs.candidatesOf ((key, g) :: cronJobs.addProduct product groups))
      with (map (pair (cronJobs.group_user g)) (cronJobs.group_products g)
            ++ cronJobs.candidatesOf (cronJobs.addProduct product groups)).
    change (cronJobs.candidatesOf ((key, g) :: groups))
      with (map (pair (cronJobs.group_user g)) (cronJobs.group_products g)
            ++ cronJobs.candidatesOf groups).
    rewrite !map_app.
    etransitivity; [apply Permutation_app_head; exact IH|].
    symmetry. apply Permutation_middle.
Qed.

Lemma groupByUser_candidates (products : list Product) :
  Permutation
    (map snd (cronJobs.candidatesOf (cronJobs.groupByUser products)))
    products.
Proof.
  unfold cronJobs.groupByUser.
  assert (H : forall groups,
    Permutation
      (map snd (cronJobs.candidatesOf
         (fold_left (fun acc p => cronJobs.addProduct p acc) products groups)))
      (map snd (cronJobs.candidatesOf groups) ++ products)).
  { induction products as [|p l IH]; intro groups.
    - cbn. rewrite app_nil_r. reflexivity.
    - cbn [fold_left]. rewrite IH.
      etransitivity;
        [apply Permutation_app_tail; apply addProduct_candidates|].
      cbn [app]. apply Permutation_middle. }
  apply (H []).
Qed.


(** ** The sweep *)

(** C4, amended. A notification dispatch that throws is caught where it
    happens: the block completes normally, the stored prices and the
    history stay as they were, and no counter of the run moves, neither
    the checked count, nor the error count, nor any other (the run keeps no
    count of failed notifications); the failure is written to the error
    log. *)
Theorem C4_notification_failure_isolated (env : Env) (product : Product)
  (oldPrice newPrice : JS.num) (reason : NotifyReason) (failure : string)
  (w : World) :
  sendMessage env (tick w) (telegram_id product)
    (cronJobs.priceDropMessage product oldPrice newPrice reason)
    = Some failure ->
  let run := cronJobs.notifyUser env product oldPrice newPrice reason w in
  fst run = Normal tt /\
  db_tracked_products (snd run) = db_tracked_products w /\
  db_price_history (snd run) = db_price_history w /\
  runStats (snd run) = runStats w /\
  trace (snd run) =
    EvConsoleError (NotificationFailed failure)
      :: EvSendMessage (telegram_id product)
           (cronJobs.priceDropMessage product oldPrice newPrice reason) false
      :: trace w.
Proof.
  intro Hsend. cbv zeta.
  rewrite (notifyUser_failure env product oldPrice newPrice reason failure w
             Hsend).
  repeat split.
Qed.

Lemma C4_notification_failure_isolated_witness :
  let run :=
    cronJobs.notifyUser (sampleEnv true) sampleCandidate (Some 1000) (Some 900)
      (PriceDroppedBy 10) sampleWorld in
  fst run = Normal tt /\
  db_tracked_products (snd run) = db_tracked_products sampleWorld /\
  db_price_history (snd run) = db_price_history sampleWorld /\
  runStats (snd run) = runStats sampleWorld.
Proof.
  destruct (C4_notification_failure_isolated (sampleEnv true) sampleCandidate
              (Some 1000) (Some 900) (PriceDroppedBy 10)
              "ETELEGRAM: 403 Forbidden" sampleWorld eq_refl)
    as (H1 & H2 & H3 & H4 & _).
  repeat split; assumption.
Defined.

(** C4 as stated fails: the run statistics have no counter of failed
    notifications. With the chat transport down both notifications of the
    sample sweep fail, and the counters end as they would have been before
    either dispatch: sent stays at zero, nothing else records the
    failures. *)
Lemma C4_no_notify_failed_counter :
  let final :=
    snd (cronJobs.runPriceCheckByInterval (sampleEnv true)
           (Some "DAILY"%string) sampleWorld) in
  List.length
    (filter (fun e => match e with
                      | EvSendMessage _ _ false => true
                      | _ => false
                      end) (trace final)) = 2%nat /\
  runStats final =
    {| lastRun := Some 1700000000000%Z; productsChecked := 2;
       productsSkipped := 0; priceDrops := 2; notificationsSent := 0;
       errors := 1 |} /\
  runStats
    (snd (cronJobs.notifyUser (sampleEnv true) sampleCandidate (Some 1000)
            (Some 900) (PriceDroppedBy 10) sampleWorld))
  = runStats sampleWorld.
Proof. repeat split; vm_compute; reflexivity. Qed.

(** C5. Nothing thrown while a candidate is processed leaves its
    iteration: the iteration completes normally, so the nested loops, which
    are one loop over the candidates, go on to every later candidate from
    the state the earlier ones left; a candidate counted as checked has its
    fetched price and a history entry stored. In the sample sweep the second of
    three candidates fails to load on every attempt; the run ends with two
    checked and one error, and the third candidate's price and history
    entry are stored. *)
Theorem C5_sweep_isolation :
  (forall env user product w,
     fst (cronJobs.processProduct env user product w) = Normal tt) /\
  (forall env groups w,
     cronJobs.processGroups env groups w =
     forEach (cronJobs.processCandidate env) (cronJobs.candidatesOf groups) w) /\
  (forall env before candidate after w,
     forEach (cronJobs.processCandidate env) (before ++ candidate :: after) w =
     forEach (cronJobs.processCandidate env) after
       (snd (cronJobs.processCandidate env candidate
               (snd (forEach (cronJobs.processCandidate env) before w))))) /\
  (forall env user product w,
     let w' := snd (cronJobs.processProduct env user product w) in
     productsChecked (runStats w') = S (productsChecked (runStats w)) ->
     exists price added,
       JS.truthy price = true /\
       Forall (fun stored => fst stored = id product -> snd stored = price)
         (storedPrices w') /\
       db_price_history w' = db_price_history w ++ [added] /\
       price_history.product_id added = id product /\
       Some (price_history.price added) = price) /\
  (let env := sampleEnv false in
   let run := cronJobs.runPriceCheckByInterval env (Some "DAILY"%string)
                sampleWorld in
   (forall t, scrapeAmazonProduct env t urlB = ScrapeThrows "Request blocked") /\
   fst run = Normal tt /\
   productsChecked (runStats (snd run)) = 2%nat /\
   errors (runStats (snd run)) = 1%nat /\
   map (fun r => (tracked_products.id r, tracked_products.current_price r))
     (db_tracked_products (snd run))
     = [(1%Z, Some 900); (2%Z, Some 2000); (3%Z, Some 2800)] /\
   map (fun h => (price_history.product_id h, price_history.price h))
     (db_price_history (snd run))
     = [(1%Z, 900); (3%Z, 2800)]).
Proof.
  split; [|split; [|split; [|split]]].
  - intros env user product w.
    apply total_unit, total_processProduct.
  - apply processGroups_flat.
  - intros env before candidate after w.
    apply forEach_resumes. apply total_processCandidate.
  - intros env user product w. apply processProduct_persists.
  - cbv zeta. split; [intro t; reflexivity|].
    repeat split; vm_compute; reflexivity.
Qed.

Lemma C5_sweep_isolation_witness :
  let w' :=
    snd (cronJobs.processProduct (sampleEnv false)
           (cronJobs.userOf sampleCandidate) sampleCandidate sampleWorld) in
  exists price added,
    JS.truthy price = true /\
    Forall (fun stored => fst stored = 1%Z -> snd stored = price)
      (storedPrices w') /\
    db_price_history w' = db_price_history sampleWorld ++ [added] /\
    price_history.product_id added = 1%Z /\
    Some (price_history.price added) = price.
Proof.
  destruct C5_sweep_isolation as (_ & _ & _ & H & _).
  apply (H (sampleEnv false) (cronJobs.userOf sampleCandidate) sampleCandidate
           sampleWorld).
  vm_compute. reflexivity.
Defined.

Section SweepTally.

Variable env : Env.

Lemma preserves_loadCandidates {X} (f : World -> X) interval :
  steady f -> preserves f (cronJobs.loadCandidates env interval).
Proof.
  intro Hf. pose proof (preserves_statement env f Hf) as Hs.
  unfold cronJobs.loadCandidates, queries.getActiveTrackedProductsByInterval,
    queries.getAllActiveTrackedProducts.
  destruct interval as [i|]; [destruct (JS.truthyS _)|];
    (apply preserves_bind; [exact Hs|]; intros _;
     apply preserves_bind; [apply preserves_get|]; intros ?;
     apply preserves_ret).
Qed.


End SweepTally.


(** * Further properties *)

(** ** Eligibility under the other intervals *)






Lemma orS_nonempty (a : option string) (b : string) :
  b <> EmptyString -> JS.truthyS (Some (JS.orS a b)) = true.
Proof.
  intro Hb. unfold JS.orS. destruct a as [[|c s]|]; cbn.
  - destruct b; [contradiction | reflexivity].
  - reflexivity.
  - destruct b; [contradiction | reflexivity].
Qed.

(** X3. In the sweep the interval that decides eligibility is the
    [check_interval] column of the owner's row in upper case, or WEEKLY
    when the column is empty: the default interval of the plan is never
    consulted. *)
Theorem X3_sweep_interval_ignores_plan (product : Product) :
  cronJobs.effectiveInterval (Some (cronJobs.userOf product))
  = JS.toUpperCase (JS.orS (check_interval product) "WEEKLY").
Proof.
  unfold cronJobs.effectiveInterval. cbn [cronJobs.userOf u_check_interval].
  pose proof (orS_nonempty (check_interval product) "WEEKLY"
                ltac:(discriminate)) as H.
  unfold JS.orS at 1. rewrite H. reflexivity.
Qed.

(** ** Titles *)

Lemma length_append (a b : string) :
  String.length (String.append a b) = (String.length a + String.length b)%nat.
Proof. induction a as [|c a IH]; simpl; [reflexivity | rewrite IH; reflexivity]. Qed.

Lemma length_substring_0 (n : nat) (s : string) :
  String.length (String.substring 0 n s) = Nat.min n (String.length s).
Proof.
  revert s. induction n as [|n IH]; intros [|c s]; simpl; try reflexivity.
  rewrite IH. reflexivity.
Qed.

(** X4. A title that fits is shown as it is; a longer one is cut to
    exactly the allowed length, its last three characters being dots; a
    missing or empty title reads "Unknown Product". *)
Theorem X4_truncateTitle_fits (title : string) (maxLength : nat) :
  (3 <= maxLength)%nat ->
  title <> EmptyString ->
  let shown := cronJobs.truncateTitle (Some title) maxLength in
  (String.length shown <= maxLength)%nat /\
  ((String.length title <= maxLength)%nat -> shown = title) /\
  ((maxLength < String.length title)%nat ->
   shown = String.append (String.substring 0 (maxLength - 3) title) "..." /\
   String.length shown = maxLength).
Proof.
  intros Hmax Hne. cbv zeta. unfold cronJobs.truncateTitle.
  assert (Ht : JS.truthyS (Some title) = true)
    by (destruct title; [contradiction | reflexivity]).
  rewrite Ht. cbn [negb].
  destruct (Nat.leb_spec (String.length title) maxLength) as [Hle|Hgt].
  - split; [exact Hle|]. split; [reflexivity | lia].
  - assert (Hlen : String.length
                     (String.append (String.substring 0 (maxLength - 3) title)
                        "...") = maxLength).
    { rewrite length_append, length_substring_0. simpl. lia. }
    split; [lia|]. split; [lia|]. intros _. split; [reflexivity | exact Hlen].
Qed.

Lemma X4_truncateTitle_fits_witness :
  cronJobs.truncateTitle (Some "Stainless steel electric kettle"%string) 12
  = "Stainless..."%string.
Proof.
  destruct (X4_truncateTitle_fits "Stainless steel electric kettle" 12
              ltac:(lia) ltac:(discriminate)) as (_ & _ & H).
  destruct (H ltac:(simpl; lia)) as [H1 _]. exact H1.
Defined.

(** ** More on the decisions *)






(** X6. For a product without a target price, whatever makes
    [shouldTriggerAlert] alert makes the sweep's decision notify. *)
Theorem X6_sweep_notifies_where_engine_alerts (env : JS.num)
  (product : Product) (oldPrice newPrice : JS.num) :
  JS.truthy (target_price product) = false ->
  priceHelper.shouldAlert
    (priceHelper.shouldTriggerAlert env product oldPrice newPrice) = true ->
  cronJobs.notify (cronJobs.shouldSendNotification product oldPrice newPrice)
    = true.
Proof.
  intros Hnt Halert.
  destruct (priceHelper.direction
              (priceHelper.calculatePriceChange env oldPrice newPrice)) eqn:Hd;
    try (rewrite not_dropped_no_alert in Halert;
         [discriminate | rewrite Hd; discriminate]).
  destruct (direction_down_inv env oldPrice newPrice Hd)
    as (o & n & -> & -> & Ho & Hn & Hdiff).
  destruct (dropped_change env o n Ho Hn Hdiff) as [Hdropped _].
  unfold priceHelper.shouldTriggerAlert in Halert.
  rewrite Hdropped, Hnt in Halert. cbn [negb andb] in Halert.
  rewrite (shouldSendNotification_numbers product o n
             (positive_nonzero o Ho) (positive_nonzero n Hn)).
  rewrite Hnt. cbn [negb andb].
  destruct (JS.truthy (last_alert_price product)
            && JS.ge (Some n) (last_alert_price product))%bool;
    [discriminate Halert|].
  assert (Hlt : JS.Qltb n o = true).
  { apply Qltb_true_iff. apply Qlt_minus_iff.
    eapply Qlt_trans; [|exact Hdiff]. reflexivity. }
  rewrite Hlt. reflexivity.
Qed.

Lemma X6_sweep_notifies_where_engine_alerts_witness :
  cronJobs.notify
    (cronJobs.shouldSendNotification (sampleProduct None None)
       (Some 1000) (Some 900)) = true.
Proof.
  apply (X6_sweep_notifies_where_engine_alerts None (sampleProduct None None)
           (Some 1000) (Some 900)); reflexivity.
Defined.



(** ** Grouping by owner *)

Lemma addProduct_keys_lower (product : Product) (bound : N)
  (groups : list (N * cronJobs.Group)) :
  (bound < user_id product)%N ->
  Forall (fun key => (bound < key)%N) (map fst groups) ->
  Forall (fun key => (bound < key)%N)
    (map fst (cronJobs.addProduct product groups)).
Proof.
  intros Hb. induction groups as [|[k g] groups IH]; intro H.
  - cbn. repeat constructor. exact Hb.
  - cbn [cronJobs.addProduct]. inversion H as [|? ? Hk Hrest]; subst.
    destruct (N.eqb k (user_id product)); [constructor; assumption|].
    destruct (N.ltb (user_id product) k).
    + constructor; [exact Hb | exact H].
    + cbn [map fst]. constructor; [exact Hk | apply IH; exact Hrest].
Qed.

Lemma addProduct_sorted (product : Product)
  (groups : list (N * cronJobs.Group)) :
  StronglySorted N.lt (map fst groups) ->
  StronglySorted N.lt (map fst (cronJobs.addProduct product groups)).
Proof.
  induction groups as [|[k g] groups IH]; intro H.
  - cbn. repeat constructor.
  - cbn [cronJobs.addProduct]. inversion H as [|? ? Hs Hall]; subst.
    destruct (N.eqb_spec k (user_id product)) as [E|E]; [exact H|].
    destruct (N.ltb_spec (user_id product) k) as [L|L].
    + cbn [map fst]. constructor; [exact H|].
      constructor; [exact L|].
      eapply Forall_impl; [|exact Hall]. cbn. intros a Ha. lia.
    + cbn [map fst]. constructor; [apply IH; exact Hs|].
      apply addProduct_keys_lower; [lia | exact Hall].
Qed.

Lemma productsOf_above (key : N) (groups : list (N * cronJobs.Group)) :
  Forall (fun k => (key < k)%N) (map fst groups) -> productsOf key groups = [].
Proof.
  unfold productsOf. induction groups as [|[k g] groups IH]; intro H;
    [reflexivity|].
  inversion H as [|? ? Hk Hrest]; subst. cbn [find fst] in *.
  destruct (N.eqb_spec k key) as [E|E]; [lia | apply IH; exact Hrest].
Qed.

(** Filing a product appends it under its owner's key and touches no other
    key. *)
Lemma addProduct_productsOf (product : Product) (key : N)
  (groups : list (N * cronJobs.Group)) :
  StronglySorted N.lt (map fst groups) ->
  productsOf key (cronJobs.addProduct product groups)
  = productsOf key groups ++ (if ownedBy key product then [product] else []).
Proof.
  unfold ownedBy.
  induction groups as [|[k g] groups IH]; intro H.
  - unfold productsOf. cbn. destruct (N.eqb (user_id product) key); reflexivity.
  - inversion H as [|? ? Hs Hall]; subst. cbn [cronJobs.addProduct].
    destruct (N.eqb_spec k (user_id product)) as [E|E].
    + unfold productsOf. cbn [find fst snd cronJobs.group_products].
      destruct (N.eqb_spec k key) as [E2|E2].
      * subst. rewrite N.eqb_refl. reflexivity.
      * destruct (N.eqb_spec (user_id product) key); [congruence|].
        rewrite app_nil_r. reflexivity.
    + destruct (N.ltb_spec (user_id product) k) as [L|L].
      * unfold productsOf at 1.
        cbn [find fst snd cronJobs.group_products].
        destruct (N.eqb_spec (user_id product) key) as [E2|E2].
        -- subst key. rewrite productsOf_above; [reflexivity|].
           constructor; [exact L|].
           eapply Forall_impl; [|exact Hall]. cbn. intros a Ha. lia.
        -- rewrite app_nil_r. reflexivity.
      * unfold productsOf in *. cbn [find fst snd].
        destruct (N.eqb_spec k key) as [E2|E2].
        -- subst key. destruct (N.eqb_spec (user_id product) k); [congruence|].
           rewrite app_nil_r. reflexivity.
        -- apply IH. exact Hs.
Qed.

Lemma addProduct_builtFromFirst (product : Product)
  (groups : list (N * cronJobs.Group)) :
  Forall builtFromFirst groups ->
  Forall builtFromFirst (cronJobs.addProduct product groups).
Proof.
  induction groups as [|[k g] groups IH]; intro H.
  - cbn. repeat constructor. exists product, []. split; reflexivity.
  - inversion H as [|? ? Hg Hrest]; subst. cbn [cronJobs.addProduct].
    destruct (N.eqb k (user_id product)).
    + constructor; [|exact Hrest].
      destruct Hg as (first & rest & E1 & E2). cbn [snd] in *.
      exists first, (rest ++ [product]). cbn. rewrite E1. split; [reflexivity|exact E2].
    + destruct (N.ltb (user_id product) k).
      * constructor; [|exact H]. exists product, []. split; reflexivity.
      * constructor; [exact Hg | apply IH; exact Hrest].
Qed.

Lemma groupByUser_invariant (products : list Product) :
  StronglySorted N.lt (map fst (cronJobs.groupByUser products)) /\
  Forall builtFromFirst (cronJobs.groupByUser products) /\
  forall key,
    productsOf key (cronJobs.groupByUser products)
    = filter (ownedBy key) products.
Proof.
  unfold cronJobs.groupByUser.
  assert (H : forall groups,
    StronglySorted N.lt (map fst groups) ->
    Forall builtFromFirst groups ->
    let final := fold_left (fun acc p => cronJobs.addProduct p acc)
                   products groups in
    StronglySorted N.lt (map fst final) /\
    Forall builtFromFirst final /\
    forall key, productsOf key final
                = productsOf key groups ++ filter (ownedBy key) products).
  { induction products as [|p l IH]; intros groups Hs Hw.
    - cbn. repeat split; try assumption. intro key. rewrite app_nil_r.
      reflexivity.
    - cbn [fold_left].
      destruct (IH (cronJobs.addProduct p groups)
                  (addProduct_sorted p groups Hs)
                  (addProduct_builtFromFirst p groups Hw)) as (H1 & H2 & H3).
      split; [exact H1|]. split; [exact H2|]. intro key.
      rewrite H3, (addProduct_productsOf p key groups Hs), <- app_assoc.
      cbn [filter]. destruct (ownedBy key p); reflexivity. }
  destruct (H [] ltac:(constructor) ltac:(constructor)) as (H1 & H2 & H3).
  split; [exact H1|]. split; [exact H2|]. intro key. rewrite H3. reflexivity.
Qed.

Lemma sorted_find (groups : list (N * cronJobs.Group)) entry :
  StronglySorted N.lt (map fst groups) ->
  In entry groups ->
  find (fun e => N.eqb (fst e) (fst entry)) groups = Some entry.
Proof.
  induction groups as [|e groups IH]; intros Hs Hin; [destruct Hin|].
  inversion Hs as [|? ? Hs' Hall]; subst. cbn [find].
  destruct Hin as [->|Hin]; [rewrite N.eqb_refl; reflexivity|].
  destruct (N.eqb_spec (fst e) (fst entry)) as [E|E]; [|apply IH; assumption].
  exfalso. rewrite Forall_forall in Hall.
  specialize (Hall (fst entry) (in_map fst _ _ Hin)). lia.
Qed.

(** X8. Grouping files every candidate under its owner: the keys come in
    ascending order without repetition, the products of a group are the
    candidates of that owner in the order the query returned them, and the
    user object of a group is built from the first of them. *)
Theorem X8_groups_by_owner (products : list Product) :
  let groups := cronJobs.groupByUser products in
  StronglySorted N.lt (map fst groups) /\
  Forall
    (fun entry =>
       cronJobs.group_products (snd entry)
       = filter (fun p => N.eqb (user_id p) (fst entry)) products /\
       exists first rest,
         cronJobs.group_products (snd entry) = first :: rest /\
         cronJobs.group_user (snd entry) = cronJobs.userOf first)
    groups.
Proof.
  cbv zeta.
  destruct (groupByUser_invariant products) as (Hs & Hw & Hp).
  split; [exact Hs|]. apply Forall_forall. intros entry Hin.
  split; [|exact (proj1 (Forall_forall _ _) Hw entry Hin)].
  specialize (Hp (fst entry)). unfold productsOf in Hp.
  rewrite (sorted_find _ entry Hs Hin) in Hp. exact Hp.
Qed.

(** ** Trends *)

Lemma minOf_le_last (values : list JS.num) (last : JS.num) :
  priceHelper.minOf values last <= JS.ToNumber last.
Proof.
  induction values as [|v l IH]; cbn; [apply Qle_refl|].
  eapply Qle_trans; [apply Q.le_min_r | exact IH].
Qed.

Lemma minOf_le_each (values : list JS.num) (last : JS.num) :
  Forall (fun v => priceHelper.minOf values last <= JS.ToNumber v) values.
Proof.
  induction values as [|v l IH]; constructor.
  - cbn. apply Q.le_min_l.
  - eapply Forall_impl; [|exact IH]. cbn. intros a Ha.
    eapply Qle_trans; [apply Q.le_min_r | exact Ha].
Qed.

Lemma maxOf_ge_last (values : list JS.num) (last : JS.num) :
  JS.ToNumber last <= priceHelper.maxOf values last.
Proof.
  induction values as [|v l IH]; cbn; [apply Qle_refl|].
  eapply Qle_trans; [exact IH | apply Q.le_max_r].
Qed.

Lemma maxOf_ge_each (values : list JS.num) (last : JS.num) :
  Forall (fun v => JS.ToNumber v <= priceHelper.maxOf values last) values.
Proof.
  induction values as [|v l IH]; constructor.
  - cbn. apply Q.le_max_l.
  - eapply Forall_impl; [|exact IH]. cbn. intros a Ha.
    eapply Qle_trans; [exact Ha | apply Q.le_max_r].
Qed.

(** The least value is the last one exactly when no other is below it. *)
Lemma last_is_least (values : list JS.num) (last : JS.num) :
  JS.ToNumber last <= priceHelper.minOf values last
  <-> Forall (fun v => JS.ToNumber last <= JS.ToNumber v) values.
Proof.
  split.
  - intro H. eapply Forall_impl; [|apply (minOf_le_each values last)].
    cbn. intros a Ha. eapply Qle_trans; eassumption.
  - induction values as [|v l IH]; intro H; cbn; [apply Qle_refl|].
    inversion H as [|? ? Hv Hl]; subst.
    apply Q.min_glb; [exact Hv | apply IH; exact Hl].
Qed.

Lemma last_nth_error {A} (l : list A) (d : A) :
  l <> [] -> nth_error l (List.length l - 1) = Some (List.last l d).
Proof.
  induction l as [|a l IH]; intro H; [contradiction|].
  destruct l as [|b l]; [reflexivity|].
  specialize (IH ltac:(discriminate)).
  cbn [List.length Nat.sub] in *. rewrite Nat.sub_0_r in *.
  cbn [nth_error]. rewrite IH. reflexivity.
Qed.

(** X9. The statistics of a period exist exactly when the period has an
    entry. They start from the oldest entry, count every entry, and their
    minimum and maximum enclose every price of the period and the current
    price. *)
Theorem X9_trend_stats_enclose (env : JS.num)
  (prices : list priceHelper.HistoryEntry) (currentPrice : JS.num)
  (period : priceHelper.Period) :
  (priceHelper.calculateTrendStats env prices currentPrice period = None
   <-> prices = []) /\
  forall stats,
    priceHelper.calculateTrendStats env prices currentPrice period
      = Some stats ->
    priceHelper.dataPoints stats = List.length prices /\
    Some (priceHelper.startPrice stats)
      = option_map priceHelper.price (nth_error prices (List.length prices - 1)) /\
    priceHelper.min stats <= JS.ToNumber currentPrice /\
    JS.ToNumber currentPrice <= priceHelper.max stats /\
    Forall (fun h =>
              priceHelper.min stats <= JS.ToNumber (priceHelper.price h) /\
              JS.ToNumber (priceHelper.price h) <= priceHelper.max stats)
      prices.
Proof.
  split.
  - destruct prices; cbn; split; intro H; congruence.
  - intros stats H. destruct prices as [|first rest]; [discriminate|].
    unfold priceHelper.calculateTrendStats in H. injection H as <-.
    cbn [priceHelper.dataPoints priceHelper.startPrice priceHelper.min
         priceHelper.max].
    split; [reflexivity|]. split.
    { rewrite (last_nth_error (first :: rest) first ltac:(discriminate)).
      reflexivity. }
    split;
      [exact (minOf_le_last (map priceHelper.price (first :: rest))
                currentPrice)|].
    split;
      [exact (maxOf_ge_last (map priceHelper.price (first :: rest))
                currentPrice)|].
    apply Forall_forall. intros h Hin.
    pose proof (minOf_le_each (map priceHelper.price (first :: rest))
                  currentPrice) as Hmin.
    pose proof (maxOf_ge_each (map priceHelper.price (first :: rest))
                  currentPrice) as Hmax.
    rewrite Forall_forall in Hmin, Hmax.
    split; [exact (Hmin _ (in_map priceHelper.price _ _ Hin))
           | exact (Hmax _ (in_map priceHelper.price _ _ Hin))].
Qed.

(** Statistics count the entries they were given, of which there is one at
    least. *)
Lemma trendStats_counts (env : JS.num) (prices : list priceHelper.HistoryEntry)
  (currentPrice : JS.num) (period : priceHelper.Period) stats :
  priceHelper.calculateTrendStats env prices currentPrice period = Some stats ->
  priceHelper.dataPoints stats = List.length prices /\
  (0 < priceHelper.dataPoints stats)%nat.
Proof.
  destruct prices as [|first rest]; [discriminate|].
  unfold priceHelper.calculateTrendStats. intro H. injection H as <-.
  cbn. split; [reflexivity | lia].
Qed.

Lemma filter_length_le {A} (p q : A -> bool) (l : list A) :
  (forall x, p x = true -> q x = true) ->
  (List.length (filter p l) <= List.length (filter q l))%nat.
Proof.
  intro H. induction l as [|x l IH]; [reflexivity|]. cbn.
  destruct (p x) eqn:E.
  - rewrite (H x E). cbn. lia.
  - destruct (q x); cbn; lia.
Qed.

(** X10. In an analysis of a non-empty history the fourteen-day statistics
    exist whenever the seven-day ones do and count at least as many
    entries; the all-time low is at most the all-time high; and the
    all-time-low flag is raised exactly when no recorded price is below the
    current one. *)
Theorem X10_trend_analysis (env : JS.num) (now : Z)
  (priceHistory : list priceHelper.HistoryEntry) (currentPrice : JS.num) :
  priceHistory <> [] ->
  let analysis :=
    priceHelper.analyzePriceTrend env now priceHistory currentPrice in
  priceHelper.hasData analysis = true /\
  priceHelper.totalChecks analysis = List.length priceHistory /\
  (forall week,
     priceHelper.trend7d analysis = Some week ->
     exists fortnight,
       priceHelper.trend14d analysis = Some fortnight /\
       (priceHelper.dataPoints week <= priceHelper.dataPoints fortnight)%nat) /\
  (exists low high,
     priceHelper.allTimeLow analysis = Some low /\
     priceHelper.allTimeHigh analysis = Some high /\ low <= high) /\
  (priceHelper.isAtLow analysis = true
   <-> Forall (fun h => JS.ToNumber currentPrice
                        <= JS.ToNumber (priceHelper.price h)) priceHistory).
Proof.
  intro Hne. destruct priceHistory as [|h0 rest]; [contradiction|].
  cbv zeta. unfold priceHelper.analyzePriceTrend.
  cbn [priceHelper.hasData priceHelper.totalChecks priceHelper.trend7d
       priceHelper.trend14d priceHelper.allTimeLow priceHelper.allTimeHigh
       priceHelper.isAtLow].
  set (history := h0 :: rest).
  split; [reflexivity|]. split; [reflexivity|]. split; [|split].
  - intros week Hweek.
    pose proof (filter_length_le
                  (fun h => Z.leb (now - 7 * 24 * 60 * 60 * 1000)
                              (priceHelper.checked_at h))
                  (fun h => Z.leb (now - 14 * 24 * 60 * 60 * 1000)
                              (priceHelper.checked_at h))
                  history) as Hlen.
    assert (Himp : forall x,
      Z.leb (now - 7 * 24 * 60 * 60 * 1000) (priceHelper.checked_at x) = true ->
      Z.leb (now - 14 * 24 * 60 * 60 * 1000) (priceHelper.checked_at x) = true).
    { intros x Hx. apply Z.leb_le in Hx. apply Z.leb_le. lia. }
    specialize (Hlen Himp).
    destruct (trendStats_counts env _ currentPrice priceHelper.SevenDays week Hweek)
      as [Hd7 Hn7].
    set (f14 := filter (fun h => Z.leb (now - 14 * 24 * 60 * 60 * 1000)
                                    (priceHelper.checked_at h)) history) in *.
    destruct f14 as [|h14 rest14] eqn:Ef.
    + exfalso. rewrite <- Hd7 in Hlen. cbn [List.length] in Hlen. lia.
    + eexists. split; [reflexivity|].
      cbn [priceHelper.dataPoints]. rewrite Hd7. exact Hlen.
  - eexists. eexists. split; [reflexivity|]. split; [reflexivity|].
    eapply Qle_trans; [apply minOf_le_last | apply maxOf_ge_last].
  - rewrite Qle_bool_iff, last_is_least, Forall_map. reflexivity.
Qed.

Lemma X9_trend_stats_enclose_witness :
  exists stats,
    priceHelper.calculateTrendStats None
      [entry 900 600; entry 950 300; entry 1000 0] (Some 900)
      priceHelper.SevenDays = Some stats /\
    priceHelper.startPrice stats = Some 1000 /\
    priceHelper.min stats <= 900 /\ 900 <= priceHelper.max stats.
Proof.
  eexists. split; [reflexivity|].
  destruct (X9_trend_stats_enclose None
              [entry 900 600; entry 950 300; entry 1000 0] (Some 900)
              priceHelper.SevenDays) as [_ H].
  destruct (H _ eq_refl) as (_ & _ & H3 & H4 & _).
  split; [reflexivity|]. split; [exact H3 | exact H4].
Defined.

Lemma X10_trend_analysis_witness :
  priceHelper.isAtLow
    (priceHelper.analyzePriceTrend None 1000
       [entry 900 600; entry 950 300; entry 1000 0] (Some 900)) = true.
Proof.
  destruct (X10_trend_analysis None 1000
              [entry 900 600; entry 950 300; entry 1000 0] (Some 900)
              ltac:(discriminate)) as (_ & _ & _ & _ & H).
  apply H. repeat constructor; vm_compute; discriminate.
Defined.




(** X12. The edges of the trend label: a history of fewer than two entries
    is STABLE for want of data, whatever the window; a window of no entries
    on a longer history fails on the missing first element; and a window of
    one entry compares the newest price with itself and is STABLE at 0
    percent. *)
Theorem X12_trend_label_edges
  (priceHistory : list priceHelper.HistoryEntry) (entries : Z) :
  ((List.length priceHistory < 2)%nat ->
   priceHelper.getTrendLabel priceHistory entries
   = Some {| priceHelper.label := priceHelper.STABLE;
             priceHelper.description := priceHelper.NotEnoughData;
             priceHelper.trendPercent := 0 |}) /\
  ((2 <= List.length priceHistory)%nat ->
   priceHelper.getTrendLabel priceHistory 0 = None) /\
  ((2 <= List.length priceHistory)%nat ->
   exists trend,
     priceHelper.getTrendLabel priceHistory 1 = Some trend /\
     priceHelper.label trend = priceHelper.STABLE /\
     priceHelper.trendPercent trend == 0).
Proof.
  unfold priceHelper.getTrendLabel. split; [|split]; intro H.
  - destruct (Nat.ltb_spec (List.length priceHistory) 2); [reflexivity | lia].
  - destruct (Nat.ltb_spec (List.length priceHistory) 2); [lia|].
    rewrite Z.min_l by lia. reflexivity.
  - destruct (Nat.ltb_spec (List.length priceHistory) 2); [lia|].
    rewrite Z.min_l by lia.
    destruct priceHistory as [|h rest]; [cbn in H; lia|].
    change (priceHelper.slice0 1 (h :: rest)) with [h].
    cbv beta iota zeta. cbn [List.last List.length].
    destruct (JS.truthy (priceHelper.price h)) eqn:T; cbn [negb orb].
    + destruct (priceHelper.price h) as [p|]; [|discriminate T].
      apply truthy_Some in T. cbn [JS.ToNumber].
      assert (E : (p - p) / p * 100 == 0) by (field; exact T).
      assert (E1 : JS.Qltb 2 ((p - p) / p * 100) = false).
      { apply Qltb_false_iff. rewrite E. discriminate. }
      assert (E2 : JS.Qltb ((p - p) / p * 100) (- (2)) = false).
      { apply Qltb_false_iff. rewrite E. discriminate. }
      rewrite E1, E2. eexists. split; [reflexivity|].
      split; [reflexivity | exact E].
    + eexists. split; [reflexivity|]. split; reflexivity.
Qed.

Lemma X12_trend_label_edges_witness :
  priceHelper.getTrendLabel [entry 900 600; entry 950 300] 0 = None.
Proof.
  destruct (X12_trend_label_edges [entry 900 600; entry 950 300] 0)
    as (_ & H & _).
  apply H. cbn. lia.
Defined.

(** ** Plans and the plan guard *)

(** X13. A user may track another product exactly when the remaining
    count is positive; the remaining count is never negative and, while
    positive, is the cap less the current count. The cap is never zero: a
    cap of 0 on the user's row gives way to the cap of the plan. *)
Theorem X13_track_more (user : option User) (currentProductCount : Z) :
  let check := plans.canUserTrackMore user currentProductCount in
  (plans.canTrack check = true <-> (0 < plans.remaining check)%Z) /\
  (0 <= plans.remaining check)%Z /\
  (plans.canTrack check = true ->
   (plans.current check + plans.remaining check = plans.limit check)%Z) /\
  plans.limit check <> 0%Z /\
  (forall u, user = Some u -> u_max_products u = Some 0%Z ->
   plans.limit check = plans.maxProducts (plans.getUserPlan user)).
Proof.
  cbv zeta. unfold plans.canUserTrackMore.
  cbn [plans.canTrack plans.remaining plans.current plans.limit].
  split; [rewrite Z.ltb_lt; lia|]. split; [lia|].
  split; [rewrite Z.ltb_lt; lia|]. split.
  - unfold plans.productLimit.
    assert (Hplan : plans.maxProducts (plans.getUserPlan user) <> 0%Z).
    { unfold plans.getUserPlan, plans.getPlanById, plans.PLANS.
      destruct user as [u|]; [|discriminate].
      destruct (negb _); [discriminate|].
      destruct (u_plan u) as [s|]; [|discriminate].
      destruct (String.eqb _ "FREE"); [discriminate|].
      destruct (String.eqb _ "PRO"); discriminate. }
    destruct user as [u|]; [|exact Hplan].
    destruct (u_max_products u) as [m|]; [|exact Hplan].
    destruct (Z.eqb_spec m 0); [exact Hplan | assumption].
  - intros u -> Hzero. unfold plans.productLimit. rewrite Hzero. reflexivity.
Qed.

Lemma X13_track_more_witness :
  plans.canTrack
    (plans.canUserTrackMore
       (Some {| u_id := 1%N; u_telegram_id := 4242;
                u_plan := Some "pro"%string; u_check_interval := None;
                u_max_products := Some 0%Z |}) 9) = true.
Proof.
  destruct (X13_track_more
              (Some {| u_id := 1%N; u_telegram_id := 4242;
                       u_plan := Some "pro"%string; u_check_interval := None;
                       u_max_products := Some 0%Z |}) 9) as (H & _).
  apply H. reflexivity.
Defined.

Lemma planRank_premium (planId : option string) :
  (plans.planRank planId = 1%Z <-> plans.isPremiumPlan planId = true) /\
  (plans.planRank planId = 0%Z <-> plans.isPremiumPlan planId = false).
Proof.
  unfold plans.planRank, plans.isPremiumPlan, plans.getPlanById, plans.PLANS.
  destruct planId as [s|]; [|cbn; split; split; (reflexivity || discriminate)].
  destruct (String.eqb (JS.toUpperCase s) "FREE") eqn:E1.
  - cbn. split; split; (reflexivity || discriminate).
  - destruct (String.eqb (JS.toUpperCase s) "PRO");
      cbn; split; split; (reflexivity || discriminate).
Qed.

(** X14. Comparing plans orders them by rank: the comparison is 0 on equal
    ranks and changes sign when its arguments are swapped; it is 1 exactly
    when the first plan is paid and the second is not. A plan that is
    missing or unknown compares as FREE does. *)
Theorem X14_comparePlans_order (planA planB : option string) :
  plans.comparePlans planA planB = (- plans.comparePlans planB planA)%Z /\
  plans.comparePlans planA planA = 0%Z /\
  (plans.comparePlans planA planB = 1%Z
   <-> plans.isPremiumPlan planA = true /\ plans.isPremiumPlan planB = false) /\
  (plans.isPremiumPlan planA = false ->
   plans.comparePlans planA planB
   = plans.comparePlans (Some "FREE"%string) planB).
Proof.
  destruct (planRank_premium planA) as [A1 A0].
  destruct (planRank_premium planB) as [B1 B0].
  assert (RA : plans.planRank planA = 0%Z \/ plans.planRank planA = 1%Z).
  { unfold plans.planRank. destruct planA as [s|]; [|left; reflexivity].
    destruct (String.eqb _ "FREE"); [left; reflexivity|].
    destruct (String.eqb _ "PRO"); [right | left]; reflexivity. }
  assert (RB : plans.planRank planB = 0%Z \/ plans.planRank planB = 1%Z).
  { unfold plans.planRank. destruct planB as [s|]; [|left; reflexivity].
    destruct (String.eqb _ "FREE"); [left; reflexivity|].
    destruct (String.eqb _ "PRO"); [right | left]; reflexivity. }
  unfold plans.comparePlans. cbv zeta.
  change (plans.planRank (Some "FREE"%string)) with 0%Z.
  split; [|split; [|split]].
  - destruct (Z.ltb_spec (plans.planRank planA) (plans.planRank planB));
      destruct (Z.ltb_spec (plans.planRank planB) (plans.planRank planA));
      lia.
  - rewrite Z.ltb_irrefl. reflexivity.
  - rewrite <- A1, <- B0.
    destruct (Z.ltb_spec (plans.planRank planA) (plans.planRank planB));
      destruct (Z.ltb_spec (plans.planRank planB) (plans.planRank planA));
      lia.
  - intro H. apply A0 in H. rewrite H. reflexivity.
Qed.

Lemma X14_comparePlans_order_witness :
  plans.comparePlans (Some "gold"%string) (Some "pro"%string)
  = plans.comparePlans (Some "FREE"%string) (Some "pro"%string).
Proof.
  destruct (X14_comparePlans_order (Some "gold"%string) (Some "pro"%string))
    as (_ & _ & _ & H).
  apply H. reflexivity.
Defined.

(** X15. The guard lets a user track a product exactly when the current
    count, or 0 when the context gives none, is below the cap. An allowance
    reports a remaining count of one at least; a refusal reports a current
    count that has reached the cap, and suggests an upgrade exactly when the
    plan is FREE. *)
Theorem X15_guard_track_product (user : option User)
  (context : planGuard.Context) :
  let count := match planGuard.currentProductCount context with
               | Some c => c
               | None => 0%Z
               end in
  let verdict := planGuard.validateAction user "TRACK_PRODUCT" context in
  (planGuard.canPerformAction user "TRACK_PRODUCT" context = true
   <-> (count < plans.productLimit user)%Z) /\
  (planGuard.allowed verdict = true ->
   exists left_,
     planGuard.remaining verdict = Some left_ /\ (1 <= left_)%Z /\
     planGuard.suggestion verdict = None) /\
  (planGuard.allowed verdict = false ->
   exists cur cap,
     planGuard.current verdict = Some cur /\
     planGuard.limit verdict = Some cap /\ (cap <= cur)%Z /\
     (planGuard.suggestion verdict
      = Some (planGuard.UpgradeToTrack 10)
      <-> plans.plan_id (plans.getUserPlan user) = "FREE"%string)).
Proof.
  cbv zeta. unfold planGuard.canPerformAction, planGuard.validateAction.
  cbn [String.eqb Ascii.eqb Bool.eqb]. unfold planGuard.validateTrackProduct.
  unfold plans.canUserTrackMore.
  cbn [plans.canTrack plans.remaining plans.current plans.limit].
  set (count := match planGuard.currentProductCount context with
                | Some c => c
                | None => 0%Z
                end).
  destruct (Z.ltb_spec count (plans.productLimit user)) as [L|L];
    cbn [negb planGuard.allowed planGuard.remaining planGuard.suggestion
         planGuard.current planGuard.limit].
  - split; [tauto|]. split; [|discriminate].
    intros _. eexists. split; [reflexivity|]. split; [lia | reflexivity].
  - split; [split; [discriminate | lia]|]. split; [discriminate|].
    intros _. eexists. eexists. split; [reflexivity|].
    split; [reflexivity|]. split; [exact L|].
    destruct (String.eqb_spec (plans.plan_id (plans.getUserPlan user)) "FREE")
      as [E|E].
    + split; [intros _; exact E | reflexivity].
    + split; [discriminate | contradiction].
Qed.

Lemma X15_guard_track_product_witness :
  planGuard.canPerformAction
    (Some {| u_id := 1%N; u_telegram_id := 4242;
             u_plan := Some "FREE"%string; u_check_interval := None;
             u_max_products := None |})
    "TRACK_PRODUCT" {| planGuard.currentProductCount := Some 1%Z |} = false.
Proof.
  destruct (X15_guard_track_product
              (Some {| u_id := 1%N; u_telegram_id := 4242;
                       u_plan := Some "FREE"%string; u_check_interval := None;
                       u_max_products := None |})
              {| planGuard.currentProductCount := Some 1%Z |}) as (H & _).
  destruct (planGuard.canPerformAction _ _ _); [|reflexivity].
  exfalso. assert (X : (1 < 1)%Z) by (apply H; reflexivity). lia.
Defined.



(** ** Retrying with backoff *)

Lemma retryFrom_spec {A} (fn : nat -> Completion A) (maxRetries baseDelay : Z)
  (remaining attempt : nat) (lastError : option string) :
  (attempt + remaining)%nat = Z.to_nat maxRetries ->
  let run := helpers.retryFrom fn maxRetries baseDelay remaining attempt
               lastError in
  (helpers.calls run <= remaining)%nat /\
  helpers.waits run
    = map (fun k => (baseDelay * 2 ^ Z.of_nat k)%Z)
        (seq attempt (helpers.calls run - 1)) /\
  (forall k, (attempt <= k < attempt + helpers.calls run - 1)%nat ->
             exists message, fn k = Throw message) /\
  match helpers.result run with
  | helpers.Returned value =>
      (1 <= helpers.calls run)%nat /\
      fn (attempt + helpers.calls run - 1)%nat = Normal value
  | helpers.Rethrown error =>
      helpers.calls run = remaining /\
      match remaining with
      | O => error = lastError
      | S _ => exists message,
                 fn (attempt + remaining - 1)%nat = Throw message /\
                 error = Some message
      end
  end.
Proof.
  revert attempt lastError.
  induction remaining as [|n IH]; intros attempt lastError Hsum; cbv zeta.
  - cbn [helpers.retryFrom helpers.calls helpers.waits helpers.result].
    split; [lia|]. split; [reflexivity|].
    split; [intros k Hk; lia|]. split; reflexivity.
  - cbn [helpers.retryFrom]. destruct (fn attempt) as [value|message] eqn:Efn.
    + cbn [helpers.calls helpers.waits helpers.result].
      split; [lia|]. split; [reflexivity|].
      split; [intros k Hk; lia|]. split; [lia|].
      replace (attempt + 1 - 1)%nat with attempt by lia. exact Efn.
    + specialize (IH (S attempt) (Some message) ltac:(lia)). cbv zeta in IH.
      set (rest := helpers.retryFrom fn maxRetries baseDelay n (S attempt)
                     (Some message)) in *.
      destruct IH as (Hcalls & Hwaits & Hfail & Hres).
      cbn [helpers.calls helpers.waits helpers.result].
      split; [lia|]. split; [|split].
      * rewrite Hwaits. replace (S (helpers.calls rest) - 1)%nat
          with (helpers.calls rest) by lia.
        destruct (helpers.result rest) as [value|error] eqn:Er.
        -- destruct Hres as [Hone _].
           destruct (Z.ltb_spec (Z.of_nat attempt) (maxRetries - 1)); [|lia].
           destruct (helpers.calls rest) as [|c]; [lia|].
           cbn [seq map app Nat.sub]. rewrite Nat.sub_0_r. reflexivity.
        -- destruct Hres as [Hall _]. rewrite Hall.
           destruct n as [|n'].
           ++ destruct (Z.ltb_spec (Z.of_nat attempt) (maxRetries - 1));
                [lia | reflexivity].
           ++ destruct (Z.ltb_spec (Z.of_nat attempt) (maxRetries - 1)); [|lia].
              cbn [seq map app Nat.sub]. rewrite Nat.sub_0_r. reflexivity.
      * intros k Hk. destruct (Nat.eq_dec k attempt) as [->|Hne];
          [exists message; exact Efn|].
        apply Hfail. lia.
      * destruct (helpers.result rest) as [value|error].
        -- destruct Hres as [Hone Hfn]. split; [lia|].
           replace (attempt + S (helpers.calls rest) - 1)%nat
             with (S attempt + helpers.calls rest - 1)%nat by lia.
           exact Hfn.
        -- destruct Hres as [Hall Herr]. split; [lia|].
           destruct n as [|n'].
           ++ exists message. subst error.
              replace (attempt + 1 - 1)%nat with attempt by lia.
              split; [exact Efn | reflexivity].
           ++ destruct Herr as (m & Hm & He). exists m.
              replace (attempt + S (S n') - 1)%nat
                with (S attempt + S n' - 1)%nat by lia.
              split; assumption.
Qed.

(** X17. The backoff wrapper calls the function at most [maxRetries]
    times. It returns the value of the first call that succeeds, after
    every earlier call threw; when all [maxRetries] calls throw it rethrows
    the error of the last one, and with no call allowed it throws
    [undefined]. Between two calls, and never after the last, it waits the
    base delay doubled once per call already made. *)
Theorem X17_retry_with_backoff {A} (fn : nat -> Completion A)
  (maxRetries baseDelay : Z) :
  let run := helpers.retryWithBackoff fn maxRetries baseDelay in
  (Z.of_nat (helpers.calls run) <= Z.max 0 maxRetries)%Z /\
  helpers.waits run
    = map (fun k => (baseDelay * 2 ^ Z.of_nat k)%Z)
        (seq 0 (helpers.calls run - 1)) /\
  (forall k, (k < helpers.calls run - 1)%nat ->
             exists message, fn k = Throw message) /\
  match helpers.result run with
  | helpers.Returned value =>
      (1 <= helpers.calls run)%nat /\
      fn (helpers.calls run - 1)%nat = Normal value
  | helpers.Rethrown error =>
      Z.of_nat (helpers.calls run) = Z.max 0 maxRetries /\
      ((maxRetries <= 0)%Z -> error = None) /\
      ((0 < maxRetries)%Z ->
       exists message,
         fn (helpers.calls run - 1)%nat = Throw message /\
         error = Some message)
  end.
Proof.
  cbv zeta. unfold helpers.retryWithBackoff.
  pose proof (retryFrom_spec fn maxRetries baseDelay (Z.to_nat maxRetries) 0
                None ltac:(lia)) as H.
  cbv zeta in H.
  set (run := helpers.retryFrom fn maxRetries baseDelay (Z.to_nat maxRetries)
                0 None) in *.
  destruct H as (Hcalls & Hwaits & Hfail & Hres).
  split; [lia|]. split; [exact Hwaits|]. split.
  - intros k Hk. apply Hfail. lia.
  - destruct (helpers.result run) as [value|error].
    + destruct Hres as [Hone Hfn]. split; [exact Hone|]. exact Hfn.
    + destruct Hres as [Hall Herr]. split; [lia|]. split.
      * intro Hneg. replace (Z.to_nat maxRetries) with 0%nat in Herr by lia.
        exact Herr.
      * intro Hpos. destruct (Z.to_nat maxRetries) as [|n] eqn:En; [lia|].
        destruct Herr as (m & Hm & He). exists m. rewrite Hall.
        split; [exact Hm | exact He].
Qed.

Lemma X17_retry_with_backoff_witness :
  helpers.waits
    (helpers.retryWithBackoff
       (fun k => if Nat.ltb k 2 then Throw "ETIMEDOUT" else Normal k) 3 1000)
  = [1000%Z; 2000%Z].
Proof.
  destruct (X17_retry_with_backoff
              (fun k => if Nat.ltb k 2 then Throw "ETIMEDOUT" else Normal k)
              3 1000) as (_ & H & _).
  exact H.
Defined.

(** ** Relative times *)

(** X18. The relative time of an instant less than a minute back, or in
    the future, is "just now"; below an hour it counts whole minutes, below
    a day whole hours, below a week whole days, each count being the
    elapsed time divided by the unit and at least 1; from a week on the date
    itself is shown. The unit takes its plural exactly when the count
    exceeds 1. *)
Theorem X18_relative_time (now date : Z) :
  let elapsed := (now - date)%Z in
  match helpers.getRelativeTime now date with
  | helpers.JustNow => (elapsed < 60 * 1000)%Z
  | helpers.MinutesAgo n plural =>
      (60 * 1000 <= elapsed < 60 * 60 * 1000)%Z /\
      n = (elapsed / (60 * 1000))%Z /\ (1 <= n <= 59)%Z /\
      (plural = true <-> (1 < n)%Z)
  | helpers.HoursAgo n plural =>
      (60 * 60 * 1000 <= elapsed < 24 * 60 * 60 * 1000)%Z /\
      n = (elapsed / (60 * 60 * 1000))%Z /\ (1 <= n <= 23)%Z /\
      (plural = true <-> (1 < n)%Z)
  | helpers.DaysAgo n plural =>
      (24 * 60 * 60 * 1000 <= elapsed < 7 * 24 * 60 * 60 * 1000)%Z /\
      n = (elapsed / (24 * 60 * 60 * 1000))%Z /\ (1 <= n <= 6)%Z /\
      (plural = true <-> (1 < n)%Z)
  | helpers.LocaleDate shown =>
      shown = date /\ (7 * 24 * 60 * 60 * 1000 <= elapsed)%Z
  end.
Proof.
  cbv zeta. unfold helpers.getRelativeTime. cbv zeta.
  set (e := (now - date)%Z).
  assert (Hm : (e / 1000 / 60 = e / (60 * 1000))%Z)
    by (rewrite Z.div_div by lia; f_equal).
  assert (Hh : (e / 1000 / 60 / 60 = e / (60 * 60 * 1000))%Z)
    by (rewrite !Z.div_div by lia; f_equal).
  assert (Hd : (e / 1000 / 60 / 60 / 24 = e / (24 * 60 * 60 * 1000))%Z)
    by (rewrite !Z.div_div by lia; f_equal).
  rewrite Hd, Hh, Hm.
  pose proof (Z.div_mod e 1000 ltac:(lia)) as D1.
  pose proof (Z.mod_pos_bound e 1000 ltac:(lia)) as B1.
  pose proof (Z.div_mod e (60 * 1000) ltac:(lia)) as D2.
  pose proof (Z.mod_pos_bound e (60 * 1000) ltac:(lia)) as B2.
  pose proof (Z.div_mod e (60 * 60 * 1000) ltac:(lia)) as D3.
  pose proof (Z.mod_pos_bound e (60 * 60 * 1000) ltac:(lia)) as B3.
  pose proof (Z.div_mod e (24 * 60 * 60 * 1000) ltac:(lia)) as D4.
  pose proof (Z.mod_pos_bound e (24 * 60 * 60 * 1000) ltac:(lia)) as B4.
  destruct (Z.ltb_spec (e / 1000) 60) as [L1|L1]; [lia|].
  destruct (Z.ltb_spec (e / (60 * 1000)) 60) as [L2|L2].
  { rewrite Z.ltb_lt. repeat split; lia. }
  destruct (Z.ltb_spec (e / (60 * 60 * 1000)) 24) as [L3|L3].
  { rewrite Z.ltb_lt. repeat split; lia. }
  destruct (Z.ltb_spec (e / (24 * 60 * 60 * 1000)) 7) as [L4|L4].
  { rewrite Z.ltb_lt. repeat split; lia. }
  split; [reflexivity | lia].
Qed.

(** ** The two price-change helpers *)



(** ** The rate limiter *)

Lemma filter_all {A} (p : A -> bool) (l : list A) :
  Forall (fun x => p x = true) l -> filter p l = l.
Proof.
  induction 1 as [|x l Hx Hl IH]; [reflexivity|].
  cbn. rewrite Hx, IH. reflexivity.
Qed.

Lemma filter_length_le_all {A} (p : A -> bool) (l : list A) :
  (List.length (filter p l) <= List.length l)%nat.
Proof.
  induction l as [|x l IH]; [reflexivity|]. cbn. destruct (p x); cbn; lia.
Qed.

Lemma shiftOld_filter (bound : Z) (requests : list Z) :
  StronglySorted Z.le requests ->
  helpers.shiftOld bound requests = filter (Z.leb bound) requests.
Proof.
  induction 1 as [|first rest Hs IH Hall]; [reflexivity|].
  cbn [helpers.shiftOld filter].
  destruct (Z.ltb_spec first bound) as [L|L].
  - destruct (Z.leb_spec bound first); [lia | exact IH].
  - destruct (Z.leb_spec bound first); [|lia].
    f_equal. symmetry. apply filter_all.
    eapply Forall_impl; [|exact Hall]. cbn. intros x Hx. apply Z.leb_le. lia.
Qed.

Lemma filter_sorted (p : Z -> bool) (l : list Z) :
  StronglySorted Z.le l -> StronglySorted Z.le (filter p l).
Proof.
  induction 1 as [|x l Hs IH Hall]; [constructor|].
  cbn. destruct (p x); [|exact IH].
  constructor; [exact IH|].
  apply Forall_forall. intros y Hy. apply filter_In in Hy.
  rewrite Forall_forall in Hall. apply Hall. tauto.
Qed.

Lemma filter_narrow (a b : Z) (l : list Z) :
  (a <= b)%Z -> filter (Z.leb b) (filter (Z.leb a) l) = filter (Z.leb b) l.
Proof.
  intro H. induction l as [|x l IH]; [reflexivity|]. cbn.
  destruct (Z.leb_spec a x); cbn.
  - destruct (Z.leb_spec b x); [rewrite IH; reflexivity | exact IH].
  - destruct (Z.leb_spec b x); [lia | exact IH].
Qed.

Lemma sorted_snoc (l : list Z) (x : Z) :
  StronglySorted Z.le l -> Forall (fun y => (y <= x)%Z) l ->
  StronglySorted Z.le (l ++ [x]).
Proof.
  induction 1 as [|y l Hs IH Hall]; intro H; cbn.
  - repeat constructor.
  - inversion H as [|? ? Hy Hl]; subst.
    constructor; [apply IH; exact Hl|].
    apply Forall_app. split; [exact Hall | repeat constructor; exact Hy].
Qed.

Lemma granted_cons_false (t : Z) (answers : list (Z * bool)) :
  granted ((t, false) :: answers) = granted answers.
Proof. reflexivity. Qed.

Lemma granted_cons_true (t : Z) (answers : list (Z * bool)) :
  granted ((t, true) :: answers) = t :: granted answers.
Proof. reflexivity. Qed.

(** With a clock that does not run backwards the state of a limiter is the
    part of the granted instants that lies in the current window; so at
    every granted check the window holds [maxRequests] grants at most. *)
Lemma serve_window (maxRequests windowMs : Z) (times : list Z) :
  (0 <= windowMs)%Z ->
  forall (before : list Z) (previous : Z) (requests : list Z),
    StronglySorted Z.le before ->
    Forall (fun x => (x <= previous)%Z) before ->
    requests = filter (Z.leb (previous - windowMs)) before ->
    StronglySorted Z.le (previous :: times) ->
    forall earlier t later,
      serve maxRequests windowMs times requests
        = earlier ++ (t, true) :: later ->
      (Z.of_nat
         (List.length
            (filter (Z.leb (t - windowMs))
               (before ++ granted (earlier ++ [(t, true)]))))
       <= maxRequests)%Z.
Proof.
  intro Hw. induction times as [|now times IH];
    intros before previous requests Hs Hle Hreq Hsorted earlier t later Hrun.
  - destruct earlier; discriminate.
  - inversion Hsorted as [|? ? Hs' Hall]; subst.
    inversion Hall as [|? ? Hnow Hrest]; subst.
    cbn [serve] in Hrun. unfold helpers.check in Hrun.
    rewrite (shiftOld_filter _ _ (filter_sorted _ _ Hs)) in Hrun.
    assert (Hpn : (previous - windowMs <= now - windowMs)%Z) by lia.
    rewrite (filter_narrow _ _ before Hpn) in Hrun.
    set (kept := filter (Z.leb (now - windowMs)) before) in *.
    assert (Hnext : StronglySorted Z.le (now :: times)).
    { inversion Hs' as [|? ? Hs'' Hall'']; subst. exact Hs'. }
    destruct (Z.leb_spec maxRequests (Z.of_nat (List.length kept))) as [D|G].
    + cbn [fst snd helpers.allowed] in Hrun.
      destruct earlier as [|e earlier]; [discriminate|].
      injection Hrun as <- Hrun. cbn [app]. rewrite granted_cons_false.
      apply (IH before now kept Hs) with (later := later); try assumption.
      * eapply Forall_impl; [|exact Hle]. cbn. intros; lia.
      * reflexivity.
    + cbn [fst snd helpers.allowed] in Hrun.
      assert (Hs2 : StronglySorted Z.le (before ++ [now])).
      { apply sorted_snoc; [exact Hs|].
        eapply Forall_impl; [|exact Hle]. cbn. intros; lia. }
      assert (Hkept2 : kept ++ [now]
                       = filter (Z.leb (now - windowMs)) (before ++ [now])).
      { rewrite filter_app. cbn.
        destruct (Z.leb_spec (now - windowMs) now); [reflexivity | lia]. }
      destruct earlier as [|e earlier].
      * injection Hrun as <- _. cbn [app]. rewrite granted_cons_true.
        cbn [granted map filter]. rewrite <- Hkept2, length_app.
        cbn [List.length]. lia.
      * injection Hrun as <- Hrun. cbn [app]. rewrite granted_cons_true.
        replace (before ++ now :: granted (earlier ++ [(t, true)]))
          with ((before ++ [now]) ++ granted (earlier ++ [(t, true)]))
          by (rewrite <- app_assoc; reflexivity).
        apply (IH (before ++ [now]) now (kept ++ [now]) Hs2)
          with (later := later); try assumption.
        apply Forall_app. split; [|repeat constructor; lia].
        eapply Forall_impl; [|exact Hle]. cbn. intros; lia.
Qed.

(** X20. A fresh limiter asked at instants that do not go backwards never
    grants more than [maxRequests] checks inside one window: at every
    granted check, the grants made so far that are at most [windowMs] old,
    this one included, number [maxRequests] at most. *)
Theorem X20_rate_limiter_window (maxRequests windowMs : Z) (times : list Z)
  (earlier : list (Z * bool)) (t : Z) (later : list (Z * bool)) :
  (0 <= windowMs)%Z ->
  StronglySorted Z.le times ->
  serve maxRequests windowMs times [] = earlier ++ (t, true) :: later ->
  (Z.of_nat
     (List.length
        (filter (Z.leb (t - windowMs)) (granted (earlier ++ [(t, true)]))))
   <= maxRequests)%Z.
Proof.
  intros Hw Hs Hrun. destruct times as [|first times].
  - destruct earlier; discriminate.
  - apply (serve_window maxRequests windowMs (first :: times) Hw
             [] first [] ltac:(constructor) ltac:(constructor) eq_refl)
      with (later := later); [|exact Hrun].
    constructor; [exact Hs|]. constructor; [lia|].
    inversion Hs; assumption.
Qed.

Lemma X20_rate_limiter_window_witness :
  (Z.of_nat
     (List.length
        (filter (Z.leb (1500 - 1000))
           (granted ([(0%Z, true); (400%Z, true); (900%Z, false)]
                     ++ [(1500%Z, true)]))))
   <= 2)%Z.
Proof.
  apply (X20_rate_limiter_window 2 1000 [0; 400; 900; 1500]%Z
           [(0%Z, true); (400%Z, true); (900%Z, false)] 1500 []).
  - lia.
  - repeat constructor; lia.
  - reflexivity.
Defined.

(** X21. A refused check names a wait between 0 and [windowMs], but the
    wait is one millisecond short: eviction needs an instant strictly older
    than the window, so the check made exactly after the named wait is
    refused again, and the one a millisecond later is granted. *)
Theorem X21_retry_after_one_short (maxRequests windowMs now : Z)
  (requests : list Z) :
  (0 < maxRequests)%Z -> (0 <= windowMs)%Z ->
  StronglySorted Z.le requests ->
  Forall (fun x => (x <= now)%Z) requests ->
  (Z.of_nat (List.length requests) <= maxRequests)%Z ->
  let answer := helpers.check maxRequests windowMs now requests in
  helpers.allowed (fst answer) = false ->
  exists wait,
    helpers.retryAfter (fst answer) = Some wait /\
    (0 <= wait <= windowMs)%Z /\
    helpers.allowed
      (fst (helpers.check maxRequests windowMs (now + wait) (snd answer)))
      = false /\
    helpers.allowed
      (fst (helpers.check maxRequests windowMs (now + wait + 1) (snd answer)))
      = true.
Proof.
  intros Hmax Hw Hs Hle Hlen. cbv zeta.
  set (kept := filter (Z.leb (now - windowMs)) requests).
  assert (Hc : helpers.check maxRequests windowMs now requests
               = if Z.leb maxRequests (Z.of_nat (List.length kept))
                 then ({| helpers.allowed := false;
                          helpers.retryAfter :=
                            match kept with
                            | first :: _ => Some (first + windowMs - now)%Z
                            | [] => None
                            end |}, kept)
                 else ({| helpers.allowed := true;
                          helpers.retryAfter := None |}, kept ++ [now])).
  { unfold helpers.check. rewrite (shiftOld_filter _ _ Hs). reflexivity. }
  rewrite Hc. clear Hc.
  assert (Hks : StronglySorted Z.le kept) by (apply filter_sorted; exact Hs).
  assert (Hkl : (List.length kept <= List.length requests)%nat)
    by apply filter_length_le_all.
  destruct (Z.leb_spec maxRequests (Z.of_nat (List.length kept))) as [D|G];
    cbn [fst snd helpers.allowed helpers.retryAfter]; [|discriminate].
  intros _. destruct kept as [|first rest] eqn:Ek; [cbn in D; lia|].
  assert (Hin : In first (filter (Z.leb (now - windowMs)) requests)).
  { fold kept. rewrite Ek. left. reflexivity. }
  apply filter_In in Hin. destruct Hin as [Hin Hb]. apply Z.leb_le in Hb.
  rewrite Forall_forall in Hle. specialize (Hle first Hin).
  exists (first + windowMs - now)%Z. split; [reflexivity|].
  split; [lia|]. split.
  - unfold helpers.check.
    replace (now + (first + windowMs - now) - windowMs)%Z with first by lia.
    cbn [helpers.shiftOld]. rewrite Z.ltb_irrefl.
    destruct (Z.leb_spec maxRequests (Z.of_nat (List.length (first :: rest))));
      [reflexivity | lia].
  - unfold helpers.check.
    replace (now + (first + windowMs - now) + 1 - windowMs)%Z
      with (first + 1)%Z by lia.
    cbn [helpers.shiftOld].
    destruct (Z.ltb_spec first (first + 1)); [|lia].
    inversion Hks as [|? ? Hrs Hall]; subst.
    rewrite (shiftOld_filter _ _ Hrs).
    pose proof (filter_length_le_all (Z.leb (first + 1)) rest) as Hr.
    cbn [List.length] in *.
    destruct (Z.leb_spec maxRequests
                (Z.of_nat (List.length (filter (Z.leb (first + 1)) rest))));
      [lia | reflexivity].
Qed.

Lemma X21_retry_after_one_short_witness :
  helpers.allowed
    (fst (helpers.check 2 1000 (900 + 100)
            (snd (helpers.check 2 1000 900 [0; 400]%Z)))) = false /\
  helpers.allowed
    (fst (helpers.check 2 1000 (900 + 100 + 1)
            (snd (helpers.check 2 1000 900 [0; 400]%Z)))) = true.
Proof.
  destruct (X21_retry_after_one_short 2 1000 900 [0; 400]%Z
              ltac:(lia) ltac:(lia) ltac:(repeat constructor; lia)
              ltac:(repeat constructor; lia) ltac:(cbn; lia) eq_refl)
    as (w & H1 & _ & H3 & H4).
  injection H1 as <-. split; [exact H3 | exact H4].
Defined.

(** ** What a sweep leaves alone and what it adds *)

Lemma steady_ledger : steady ledger.
Proof. split; reflexivity. Qed.

Lemma moved_refl (w : World) : moved 0 0 0 [] w w.
Proof.
  unfold moved. rewrite app_nil_r, !Nat.add_0_r. repeat split.
Qed.

Lemma moved_trans c1 d1 s1 a1 c2 d2 s2 a2 (w w1 w2 : World) :
  moved c1 d1 s1 a1 w w1 -> moved c2 d2 s2 a2 w1 w2 ->
  moved (c1 + c2) (d1 + d2) (s1 + s2) (a1 ++ a2) w w2.
Proof.
  intros (U1 & I1 & H1 & C1 & D1 & S1) (U2 & I2 & H2 & C2 & D2 & S2).
  unfold moved. rewrite U2, U1, I2, I1, H2, H1, C2, C1, D2, D1, S2, S1.
  rewrite app_assoc. repeat split; lia.
Qed.

Lemma ledger_moved (w w' : World) : ledger w' = ledger w -> moved 0 0 0 [] w w'.
Proof.
  unfold ledger. intro H. injection H as U I Hh C D S.
  unfold moved. rewrite U, I, Hh, C, D, S, app_nil_r, !Nat.add_0_r.
  repeat split.
Qed.

Lemma sweepStep_refl (w : World) : sweepStep w w.
Proof.
  exists 0%nat, 0%nat, 0%nat, []. split; [apply moved_refl|]. cbn. lia.
Qed.

Lemma sweepStep_trans (w w1 w2 : World) :
  sweepStep w w1 -> sweepStep w1 w2 -> sweepStep w w2.
Proof.
  intros (c1 & d1 & s1 & a1 & M1 & A1 & B1 & C1)
         (c2 & d2 & s2 & a2 & M2 & A2 & B2 & C2).
  exists (c1 + c2)%nat, (d1 + d2)%nat, (s1 + s2)%nat, (a1 ++ a2).
  split; [eapply moved_trans; eassumption|].
  rewrite length_app. lia.
Qed.

Section Ledger.

Variable env : Env.

Lemma updateWhereId_identities (productId : Z)
  (f : tracked_products.row -> tracked_products.row) (w : World) :
  (forall r,
     (tracked_products.id (f r), tracked_products.user_id (f r),
      tracked_products.amazon_url (f r), tracked_products.target_price (f r),
      tracked_products.currency (f r), tracked_products.is_active (f r))
     = (tracked_products.id r, tracked_products.user_id r,
        tracked_products.amazon_url r, tracked_products.target_price r,
        tracked_products.currency r, tracked_products.is_active r)) ->
  ledger (queries.updateWhereId productId f w) = ledger w.
Proof.
  intro Hf. unfold ledger, identities, queries.updateWhereId.
  cbn [db_users db_tracked_products db_price_history runStats
       set_tracked_products].
  rewrite map_map. f_equal. f_equal. f_equal. f_equal. f_equal.
  apply map_ext. intro r. destruct (Z.eqb _ _); [apply Hf | reflexivity].
Qed.

Lemma ledger_updateProductPrice productId price title :
  preserves ledger (queries.updateProductPrice env productId price title).
Proof.
  unfold queries.updateProductPrice.
  apply preserves_bind; [apply preserves_statement; apply steady_ledger|].
  intro now. apply preserves_bind.
  - apply preserves_modify. intro w. apply updateWhereId_identities.
    intro r. reflexivity.
  - intros _. apply preserves_findProduct. apply steady_ledger.
Qed.

Lemma ledger_updateAlertStatus productId price :
  preserves ledger (queries.updateAlertStatus env productId price).
Proof.
  unfold queries.updateAlertStatus.
  apply preserves_bind; [apply preserves_statement; apply steady_ledger|].
  intro now. apply preserves_bind.
  - apply preserves_modify. intro w. apply updateWhereId_identities.
    intro r. reflexivity.
  - intros _. apply preserves_findProduct. apply steady_ledger.
Qed.

(** A notification moves nothing but, at most once, the count of
    notifications sent. *)
Lemma notifyUser_moved product o n r (w : World) :
  exists sent, (sent <= 1)%nat /\
    moved 0 0 sent [] w (snd (cronJobs.notifyUser env product o n r w)).
Proof.
  unfold cronJobs.notifyUser, try_catch. rewrite bind_run.
  pose proof (preserves_sendPriceDropNotification env ledger steady_ledger
                product o n r w) as P1.
  destruct (cronJobs.sendPriceDropNotification env product o n r w)
    as [[[]|m] w1]; cbn [snd] in P1.
  2:{ exists 0%nat. split; [lia|]. apply ledger_moved. exact P1. }
  rewrite bind_run.
  pose proof (ledger_updateAlertStatus (id product) n w1) as P2.
  destruct (queries.updateAlertStatus env (id product) n w1) as [[row|m] w2];
    cbn [snd] in P2.
  2:{ exists 0%nat. split; [lia|]. apply ledger_moved. cbn.
      change (ledger (set_trace (EvConsoleError (NotificationFailed m) :: trace w2) w2))
        with (ledger w2).
      rewrite P2. exact P1. }
  exists 1%nat. split; [lia|].
  apply ledger_moved in P1. apply ledger_moved in P2.
  pose proof (moved_trans _ _ _ _ _ _ _ _ _ _ _ P1 P2) as P12.
  assert (P3 : moved 0 0 1 [] w2
                 (set_runStats (incNotificationsSent (runStats w2)) w2)).
  { unfold moved. cbn. rewrite app_nil_r, !Nat.add_0_r. repeat split. lia. }
  exact (moved_trans _ _ _ _ _ _ _ _ _ _ _ P12 P3).
Qed.

(** The history insert either leaves the history as it is or appends one
    entry; it appends one when it completes normally. *)
Lemma addPriceHistory_moved productId price (w : World) :
  exists added,
    moved 0 0 0 added w (snd (queries.addPriceHistory env productId price w)) /\
    (List.length added <= 1)%nat /\
    (forall entry, fst (queries.addPriceHistory env productId price w)
                   = Normal entry -> List.length added = 1%nat).
Proof.
  unfold queries.addPriceHistory, queries.statement.
  rewrite !bind_run. cbn [interact].
  destruct (sqlite env (tick w)) as [m|].
  { exists []. split; [apply ledger_moved; reflexivity|].
    split; [cbn; lia | discriminate]. }
  destruct price as [p|].
  2:{ exists []. split; [apply ledger_moved; reflexivity|].
      split; [cbn; lia | discriminate]. }
  rewrite bind_run. cbn [get]. rewrite bind_run. cbn [modify].
  rewrite !bind_run. cbn [interact tick].
  eexists [_]. split; [|split; [cbn; lia | reflexivity]].
  match goal with |- context [sqlite env ?t] => destruct (sqlite env t) end;
    cbn; unfold moved; cbn; rewrite !Nat.add_0_r; repeat split.
Qed.

Lemma checkProduct_step (product : Product) (w : World) :
  sweepStep w (snd (cronJobs.checkProduct env product w)).
Proof.
  assert (Hfail : forall w1 m,
            ledger w1 = ledger w ->
            sweepStep w
              (snd (console_error (ErrorContinuing m)
                      (set_runStats (incErrors (runStats w1)) w1)))).
  { intros w1 m H. exists 0%nat, 0%nat, 0%nat, [].
    split; [|cbn; lia]. apply ledger_moved. rewrite <- H. reflexivity. }
  assert (Herr : forall w1,
            ledger w1 = ledger w ->
            sweepStep w (set_runStats (incErrors (runStats w1)) w1)).
  { intros w1 H. exists 0%nat, 0%nat, 0%nat, [].
    split; [|cbn; lia]. apply ledger_moved. rewrite <- H. reflexivity. }
  unfold cronJobs.checkProduct, try_catch. rewrite bind_run.
  pose proof (preserves_pacing env ledger steady_ledger w) as P1.
  destruct (cronJobs.pacing env w) as [[[]|m] w1]; cbn [snd] in P1.
  2:{ unfold bind. cbn [updateStats modify]. apply Hfail. exact P1. }
  rewrite bind_run.
  pose proof (preserves_scrapeWithRetry env ledger steady_ledger
                (amazon_url product) 1 w1) as P2.
  destruct (cronJobs.scrapeWithRetry env (amazon_url product) 1 w1)
    as [[scrapedData|m] w2]; cbn [snd] in P2.
  2:{ unfold bind. cbn [updateStats modify]. apply Hfail. congruence. }
  destruct scrapedData as [data|];
    [|cbn [updateStats modify snd]; apply Herr; congruence].
  destruct (negb (JS.truthy (scraped_price data)));
    [cbn [updateStats modify snd]; apply Herr; congruence|].
  rewrite bind_run.
  pose proof (ledger_updateProductPrice (id product) (scraped_price data)
                (scraped_title data) w2) as P3.
  destruct (queries.updateProductPrice env (id product) (scraped_price data)
              (scraped_title data) w2) as [[row|m] w3]; cbn [snd] in P3.
  2:{ unfold bind. cbn [updateStats modify]. apply Hfail. congruence. }
  assert (P03 : moved 0 0 0 [] w w3) by (apply ledger_moved; congruence).
  rewrite bind_run.
  destruct (addPriceHistory_moved (id product) (scraped_price data) w3)
    as (added & P4 & Hlen & Hnormal).
  pose proof (moved_trans _ _ _ _ _ _ _ _ _ _ _ P03 P4) as P04.
  destruct (queries.addPriceHistory env (id product) (scraped_price data) w3)
    as [[entry|m] w4]; cbn [fst snd] in *.
  2:{ unfold bind. cbn [updateStats modify].
      exists 0%nat, 0%nat, 0%nat, ([] ++ added). split; [|cbn; lia].
      destruct P04 as (U & I & Hh & C & D & S).
      unfold moved. cbn. repeat split; assumption. }
  specialize (Hnormal entry eq_refl).
  rewrite bind_run. cbn [updateStats modify].
  set (w5 := set_runStats (incChecked (runStats w4)) w4).
  assert (P5 : moved 1 0 0 [] w4 w5).
  { unfold moved. cbn. rewrite app_nil_r, !Nat.add_0_r. repeat split. lia. }
  pose proof (moved_trans _ _ _ _ _ _ _ _ _ _ _ P04 P5) as P05.
  destruct (cronJobs.notify _).
  - rewrite bind_run. cbn [updateStats modify].
    set (w6 := set_runStats (incPriceDrops (runStats w5)) w5).
    assert (P6 : moved 0 1 0 [] w5 w6).
    { unfold moved. cbn. rewrite app_nil_r, !Nat.add_0_r. repeat split. lia. }
    pose proof (moved_trans _ _ _ _ _ _ _ _ _ _ _ P05 P6) as P06.
    match goal with
    | |- context [cronJobs.notifyUser env ?p ?o ?n ?r w6] =>
        destruct (notifyUser_moved p o n r w6) as (sent & Hsent & P7);
        destruct (total_notifyUser env p o n r w6) as [[] N4];
        destruct (cronJobs.notifyUser env p o n r w6) as [[[]|m] w7]
    end; [|discriminate N4].
    cbn [snd] in *.
    pose proof (moved_trans _ _ _ _ _ _ _ _ _ _ _ P06 P7) as P07.
    eexists _, _, _, _. split; [exact P07|].
    rewrite !length_app. cbn [List.length]. lia.
  - cbn [ret snd].
    eexists _, _, _, _. split; [exact P05|].
    rewrite !length_app. cbn [List.length]. lia.
Qed.

Lemma processCandidate_step (candidate : User * Product) (w : World) :
  sweepStep w (snd (cronJobs.processCandidate env candidate w)).
Proof.
  unfold cronJobs.processCandidate, cronJobs.processProduct.
  rewrite bind_run. unfold cronJobs.now. rewrite bind_run.
  cbn [interact ret]. destruct (negb _).
  - cbn. exists 0%nat, 0%nat, 0%nat, []. split; [|cbn; lia].
    apply ledger_moved. reflexivity.
  - eapply sweepStep_trans;
      [|apply (checkProduct_step (snd candidate) (set_tick (S (tick w)) w))].
    exists 0%nat, 0%nat, 0%nat, []. split; [|cbn; lia].
    apply ledger_moved. reflexivity.
Qed.

Lemma forEach_step {A} (body : A -> Eff unit) (l : list A) (w : World) :
  (forall x w, sweepStep w (snd (body x w))) ->
  sweepStep w (snd (forEach body l w)).
Proof.
  intro H. revert w. induction l as [|x l IH]; intro w.
  - apply sweepStep_refl.
  - cbn [forEach]. rewrite bind_run. specialize (H x w).
    destruct (body x w) as [[[]|m] w1]; cbn [snd] in *; [|exact H].
    eapply sweepStep_trans; [exact H | apply IH].
Qed.

End Ledger.

(** ** Whole sweeps *)

Section WholeSweep.

Variable env : Env.

Lemma sweep_step (interval : option string) (w : World) :
  sweepStep (snd (cronJobs.resetRun env w))
    (snd (cronJobs.runPriceCheckByInterval env interval w)).
Proof.
  unfold cronJobs.runPriceCheckByInterval. rewrite bind_run.
  assert (Hreset : exists w0, cronJobs.resetRun env w = (Normal tt, w0)).
  { eexists. reflexivity. }
  destruct Hreset as (w0 & ->). cbn [snd]. unfold try_catch.
  rewrite bind_run.
  pose proof (preserves_loadCandidates env ledger interval steady_ledger w0)
    as H1.
  destruct (cronJobs.loadCandidates env interval w0) as [[products|m] w1];
    cbn [snd] in H1.
  - eapply sweepStep_trans.
    + exists 0%nat, 0%nat, 0%nat, []. split; [|cbn; lia].
      apply ledger_moved. exact H1.
    + destruct (Nat.eqb _ _); [apply sweepStep_refl|].
      rewrite processGroups_flat.
      pose proof (forEach_step (cronJobs.processCandidate env)
                    (cronJobs.candidatesOf (cronJobs.groupByUser products)) w1
                    (processCandidate_step env)) as H2.
      pose proof (total_unit _ (forEach_total _ (total_processCandidate env)
                    (cronJobs.candidatesOf (cronJobs.groupByUser products)))
                    w1) as H3.
      destruct (forEach (cronJobs.processCandidate env) _ w1) as [r2 w2].
      cbn [fst snd] in H2, H3. subst r2. exact H2.
  - exists 0%nat, 0%nat, 0%nat, []. split; [|cbn; lia].
    apply ledger_moved. rewrite <- H1. reflexivity.
Qed.

End WholeSweep.

(** X22. At the end of every sweep the notifications sent are at most the
    price drops counted, these at most the products checked, and the price
    history is the one the sweep found with at least one entry per checked
    product appended: nothing of the history is removed or rewritten. *)
Theorem X22_sweep_counts_ordered (env : Env) (interval : option string)
  (w : World) :
  let w' := snd (cronJobs.runPriceCheckByInterval env interval w) in
  (notificationsSent (runStats w') <= priceDrops (runStats w'))%nat /\
  (priceDrops (runStats w') <= productsChecked (runStats w'))%nat /\
  exists added,
    db_price_history w' = db_price_history w ++ added /\
    (productsChecked (runStats w') <= List.length added)%nat.
Proof.
  cbv zeta.
  destruct (sweep_step env interval w)
    as (c & d & s & added & (_ & _ & Hh & Hc & Hd & Hs) & A & B & C).
  change (productsChecked (runStats (snd (cronJobs.resetRun env w))))
    with 0%nat in Hc.
  change (priceDrops (runStats (snd (cronJobs.resetRun env w))))
    with 0%nat in Hd.
  change (notificationsSent (runStats (snd (cronJobs.resetRun env w))))
    with 0%nat in Hs.
  change (db_price_history (snd (cronJobs.resetRun env w)))
    with (db_price_history w) in Hh.
  rewrite Hc, Hd, Hs. split; [lia|]. split; [lia|].
  exists added. split; [exact Hh | lia].
Qed.

(** X23. A sweep never touches the users, and of the tracked products it
    changes neither which rows there are, nor their order, owner, page,
    target price, currency or active flag. *)
Theorem X23_sweep_keeps_identities (env : Env) (interval : option string)
  (w : World) :
  let w' := snd (cronJobs.runPriceCheckByInterval env interval w) in
  db_users w' = db_users w /\ identities w' = identities w.
Proof.
  cbv zeta.
  destruct (sweep_step env interval w)
    as (c & d & s & added & (Hu & Hi & _) & _).
  split; [exact Hu | exact Hi].
Qed.

(** X24. When the database rejects the query for the candidates, the sweep
    still completes: it logs the failure once, fetches no page, sends no
    message, writes nothing, and leaves every counter at zero. *)
Theorem X24_query_failure (env : Env) (interval : option string)
  (failure : string) (w : World) :
  sqlite env (S (tick w)) = Some failure ->
  cronJobs.runPriceCheckByInterval env interval w =
  (Normal tt,
   set_trace (EvConsoleError (PriceCheckFailed failure) :: trace w)
     (set_tick (S (S (tick w)))
        (set_runStats (resetStats (Date_now env (tick w))) w))).
Proof.
  intro H.
  unfold cronJobs.runPriceCheckByInterval, cronJobs.resetRun, cronJobs.now,
    try_catch, cronJobs.loadCandidates,
    queries.getActiveTrackedProductsByInterval,
    queries.getAllActiveTrackedProducts, queries.statement.
  destruct interval as [i|]; [destruct (JS.truthyS _)|];
    unfold bind, interact, modify, ret; cbn [tick set_tick set_runStats];
    rewrite H; reflexivity.
Qed.

Lemma X24_query_failure_witness :
  let env := withSqlite (fun _ => Some "SQLITE_BUSY: database is locked"%string)
               (sampleEnv false) in
  let w' := snd (cronJobs.runPriceCheckByInterval env (Some "DAILY"%string)
                   sampleWorld) in
  trace w' = [EvConsoleError
                (PriceCheckFailed "SQLITE_BUSY: database is locked")] /\
  counted w' = 0%nat /\
  db_tracked_products w' = db_tracked_products sampleWorld.
Proof.
  cbv zeta.
  rewrite (X24_query_failure
             (withSqlite (fun _ => Some "SQLITE_BUSY: database is locked"%string)
                (sampleEnv false))
             (Some "DAILY"%string)
             "SQLITE_BUSY: database is locked" sampleWorld eq_refl).
  repeat split.
Defined.

Section FailedFetch.

Variable env : Env.

Lemma scrapeAttempt_unusable (attempt : Z) (url : string) (w : World) :
  (forall t, usableResult (scrapeAmazonProduct env t url) = None) ->
  fst (cronJobs.scrapeAttempt env attempt url w) = Normal None.
Proof.
  intro H.
  unfold cronJobs.scrapeAttempt, try_catch, bind, cronJobs.random,
    cronJobs.delay, cronJobs.scrape, bind, interact, emit, modify, ret, throw.
  destruct (Z.ltb 0 attempt); cbn [fst snd tick set_tick set_trace trace].
  - specialize (H (S (S (tick w)))).
    destruct (scrapeAmazonProduct env (S (S (tick w))) url) as [m|r];
      [reflexivity|].
    unfold usableResult in H. destruct (cronJobs.hasPrice r);
      [rewrite H|]; reflexivity.
  - specialize (H (tick w)).
    destruct (scrapeAmazonProduct env (tick w) url) as [m|r];
      [reflexivity|].
    unfold usableResult in H. destruct (cronJobs.hasPrice r);
      [rewrite H|]; reflexivity.
Qed.

Lemma scrapeAttempts_unusable (remaining : nat) (attempt : Z) (url : string)
  (w : World) :
  (forall t, usableResult (scrapeAmazonProduct env t url) = None) ->
  fst (cronJobs.scrapeAttempts env remaining attempt url w) = Normal None.
Proof.
  intro H. revert attempt w.
  induction remaining as [|k IH]; intros attempt w; [reflexivity|].
  cbn [cronJobs.scrapeAttempts]. rewrite bind_run.
  pose proof (scrapeAttempt_unusable attempt url w H) as H1.
  destruct (cronJobs.scrapeAttempt env attempt url w) as [r w1].
  cbn [fst] in H1. subst r. apply IH.
Qed.

End FailedFetch.

(** X25. A product whose page never yields a usable price (the fetch throws,
    returns nothing, or returns no price) costs one error and nothing else:
    its row, the history and the other counts stay as they were. *)
Theorem X25_failed_fetch_changes_nothing (env : Env) (product : Product)
  (w : World) :
  (forall t,
     usableResult (scrapeAmazonProduct env t (amazon_url product)) = None) ->
  let w' := snd (cronJobs.checkProduct env product w) in
  fst (cronJobs.checkProduct env product w) = Normal tt /\
  db_tracked_products w' = db_tracked_products w /\
  db_price_history w' = db_price_history w /\
  runStats w' = incErrors (runStats w).
Proof.
  intro H. cbv zeta.
  set (f := fun w : World =>
              (db_tracked_products w, db_price_history w, runStats w)).
  assert (Hf : steady f) by (split; reflexivity).
  unfold cronJobs.checkProduct, try_catch. rewrite bind_run.
  pose proof (preserves_pacing env f Hf w) as P1.
  destruct (cronJobs.pacing env w) as [[[]|m] w1]; cbn [snd] in P1.
  2:{ unfold f in P1. injection P1 as T Hh St. cbn. rewrite T, Hh, St.
      repeat split. }
  rewrite bind_run.
  pose proof (preserves_scrapeWithRetry env f Hf (amazon_url product) 1 w1)
    as P2.
  pose proof (scrapeAttempts_unusable env (Z.to_nat (1 + 1)) 0
                (amazon_url product) w1 H) as P3.
  unfold cronJobs.scrapeWithRetry in *.
  destruct (cronJobs.scrapeAttempts env (Z.to_nat (1 + 1)) 0
              (amazon_url product) w1) as [r w2].
  cbn [fst snd] in P2, P3. subst r.
  rewrite P1 in P2. unfold f in P2. injection P2 as T Hh St.
  cbn. rewrite T, Hh, St. repeat split.
Qed.

Lemma X25_failed_fetch_changes_nothing_witness :
  let product := queries.joinRow (sampleRow 2 urlB 2000) sampleOwner in
  let w' := snd (cronJobs.checkProduct (sampleEnv false) product sampleWorld) in
  fst (cronJobs.checkProduct (sampleEnv false) product sampleWorld)
    = Normal tt /\
  db_tracked_products w' = db_tracked_products sampleWorld /\
  db_price_history w' = db_price_history sampleWorld /\
  runStats w' = incErrors (runStats sampleWorld).
Proof.
  apply (X25_failed_fetch_changes_nothing (sampleEnv false)
           (queries.joinRow (sampleRow 2 urlB 2000) sampleOwner) sampleWorld).
  intro t. reflexivity.
Defined.

(** ** What a sweep emits *)

Lemma emits_weaken {A} (P Q : Event -> Prop) (c : Eff A) :
  (forall e, P e -> Q e) -> emits P c -> emits Q c.
Proof.
  intros H Hc w. destruct (Hc w) as (evs & E & F).
  exists evs. split; [exact E|]. eapply Forall_impl; eassumption.
Qed.

Lemma emits_still {A} (P : Event -> Prop) (c : Eff A) :
  (forall w, trace (snd (c w)) = trace w) -> emits P c.
Proof. intros H w. exists []. split; [apply H | constructor]. Qed.

Lemma emits_ret {A} P (a : A) : emits P (ret a).
Proof. apply emits_still. reflexivity. Qed.

Lemma emits_throw {A} P m : emits P (@throw A m).
Proof. apply emits_still. reflexivity. Qed.

Lemma emits_get P : emits P get.
Proof. apply emits_still. reflexivity. Qed.

Lemma emits_interact P : emits P interact.
Proof. apply emits_still. reflexivity. Qed.

Lemma emits_modify P (g : World -> World) :
  (forall w, trace (g w) = trace w) -> emits P (modify g).
Proof. intro H. apply emits_still. exact H. Qed.

Lemma emits_updateStats P g : emits P (updateStats g).
Proof. apply emits_modify. reflexivity. Qed.

Lemma emits_emit (P : Event -> Prop) e : P e -> emits P (emit e).
Proof.
  intros H w. exists [e]. split; [reflexivity | repeat constructor; exact H].
Qed.

Lemma emits_bind {A B} P (c : Eff A) (k : A -> Eff B) :
  emits P c -> (forall a, emits P (k a)) -> emits P (bind c k).
Proof.
  intros Hc Hk w. rewrite bind_run. destruct (Hc w) as (e1 & E1 & F1).
  destruct (c w) as [[a|m] w1]; cbn [snd] in *.
  - destruct (Hk a w1) as (e2 & E2 & F2). exists (e2 ++ e1).
    rewrite E2, E1, app_assoc. split; [reflexivity|].
    apply Forall_app. split; assumption.
  - exists e1. split; assumption.
Qed.

Lemma emits_try_catch {A} P (c : Eff A) (h : string -> Eff A) :
  emits P c -> (forall m, emits P (h m)) -> emits P (try_catch c h).
Proof.
  intros Hc Hh w. unfold try_catch. destruct (Hc w) as (e1 & E1 & F1).
  destruct (c w) as [[a|m] w1]; cbn [snd] in *.
  - exists e1. split; assumption.
  - destruct (Hh m w1) as (e2 & E2 & F2). exists (e2 ++ e1).
    rewrite E2, E1, app_assoc. split; [reflexivity|].
    apply Forall_app. split; assumption.
Qed.

Lemma emits_forEach {A} P (body : A -> Eff unit) (l : list A) :
  (forall x, In x l -> emits P (body x)) -> emits P (forEach body l).
Proof.
  induction l as [|x l IH]; intro H; [apply emits_ret|].
  cbn [forEach]. apply emits_bind.
  - apply H. left. reflexivity.
  - intros _. apply IH. intros y Hy. apply H. right. exact Hy.
Qed.

Lemma emits_nothing {A} (c : Eff A) (w : World) :
  emits (fun _ => False) c -> trace (snd (c w)) = trace w.
Proof.
  intro H. destruct (H w) as (evs & E & F).
  destruct evs as [|e evs]; [exact E|]. inversion F as [|? ? Hf]. destruct Hf.
Qed.

Section Emissions.

Variable env : Env.
Variable P : Event -> Prop.

Lemma emits_statement : emits P (queries.statement env).
Proof.
  unfold queries.statement. apply emits_bind; [apply emits_interact|].
  intro t. destruct (sqlite env t); [apply emits_throw | apply emits_ret].
Qed.

Lemma emits_findProduct productId : emits P (queries.findProduct env productId).
Proof.
  unfold queries.findProduct. apply emits_bind; [apply emits_statement|].
  intros _. apply emits_bind; [apply emits_get|]. intro. apply emits_ret.
Qed.

Lemma emits_updateProductPrice productId price title :
  emits P (queries.updateProductPrice env productId price title).
Proof.
  unfold queries.updateProductPrice.
  apply emits_bind; [apply emits_statement|]. intro now.
  apply emits_bind; [apply emits_modify; reflexivity|]. intros _.
  apply emits_findProduct.
Qed.

Lemma emits_updateAlertStatus productId price :
  emits P (queries.updateAlertStatus env productId price).
Proof.
  unfold queries.updateAlertStatus.
  apply emits_bind; [apply emits_statement|]. intro now.
  apply emits_bind; [apply emits_modify; reflexivity|]. intros _.
  apply emits_findProduct.
Qed.

Lemma emits_addPriceHistory productId price :
  emits P (queries.addPriceHistory env productId price).
Proof.
  unfold queries.addPriceHistory.
  apply emits_bind; [apply emits_interact|]. intro t.
  destruct (sqlite env t); [apply emits_throw|].
  destruct price; [|apply emits_throw].
  apply emits_bind; [apply emits_get|]. intro w0.
  apply emits_bind; [apply emits_modify; reflexivity|]. intros _.
  apply emits_bind; [apply emits_statement|]. intros _.
  apply emits_bind; [apply emits_get|]. intro. apply emits_ret.
Qed.

Lemma emits_loadCandidates interval :
  emits P (cronJobs.loadCandidates env interval).
Proof.
  unfold cronJobs.loadCandidates, queries.getActiveTrackedProductsByInterval,
    queries.getAllActiveTrackedProducts.
  destruct interval as [i|]; [destruct (JS.truthyS _)|];
    (apply emits_bind; [apply emits_statement|]; intros _;
     apply emits_bind; [apply emits_get|]; intros ?; apply emits_ret).
Qed.

Lemma emits_now : emits P (cronJobs.now env).
Proof.
  unfold cronJobs.now. apply emits_bind; [apply emits_interact|].
  intro. apply emits_ret.
Qed.

Lemma emits_random : emits P (cronJobs.random env).
Proof.
  unfold cronJobs.random. apply emits_bind; [apply emits_interact|].
  intro. apply emits_ret.
Qed.

Hypothesis pauses : forall ms, P (EvDelay ms).
Hypothesis logs : forall line, P (EvConsoleError line).

Lemma emits_delay ms : emits P (cronJobs.delay ms).
Proof.
  unfold cronJobs.delay. apply emits_bind; [apply emits_interact|].
  intros _. apply emits_emit. apply pauses.
Qed.

Lemma emits_pacing : emits P (cronJobs.pacing env).
Proof.
  unfold cronJobs.pacing. apply emits_bind; [apply emits_get|]. intro w.
  destruct (Nat.ltb _ _); [|apply emits_ret].
  apply emits_bind; [apply emits_random|]. intro. apply emits_delay.
Qed.

Lemma emits_scrapeWithRetry url retries :
  (forall outcome, P (EvScrape url outcome)) ->
  emits P (cronJobs.scrapeWithRetry env url retries).
Proof.
  intro Hurl. unfold cronJobs.scrapeWithRetry.
  generalize (Z.to_nat (retries + 1)) as remaining. generalize 0%Z as attempt.
  intros attempt remaining. revert attempt.
  induction remaining as [|k IH]; intro attempt; [apply emits_ret|].
  cbn [cronJobs.scrapeAttempts]. apply emits_bind.
  - unfold cronJobs.scrapeAttempt. apply emits_try_catch.
    + apply emits_bind.
      * destruct (Z.ltb 0 attempt); [|apply emits_ret].
        apply emits_bind; [apply emits_random|]. intro. apply emits_delay.
      * intros _. apply emits_bind.
        -- unfold cronJobs.scrape. apply emits_bind; [apply emits_interact|].
           intro t. apply emits_bind; [apply emits_emit; apply Hurl|].
           intros _. destruct (scrapeAmazonProduct env t url);
             [apply emits_throw | apply emits_ret].
        -- intro r. destruct (cronJobs.hasPrice r); apply emits_ret.
    + intro. apply emits_ret.
  - intros [r|]; [apply emits_ret | apply IH].
Qed.

Lemma emits_notifyUser product o n r :
  (forall message delivered,
     P (EvSendMessage (telegram_id product) message delivered)) ->
  emits P (cronJobs.notifyUser env product o n r).
Proof.
  intro Hchat. unfold cronJobs.notifyUser. apply emits_try_catch.
  - apply emits_bind.
    + unfold cronJobs.sendPriceDropNotification.
      apply emits_bind; [apply emits_interact|]. intro t.
      destruct (sendMessage env t _ _).
      * apply emits_bind; [apply emits_emit; apply Hchat|].
        intros _. apply emits_throw.
      * apply emits_emit. apply Hchat.
    + intros _. apply emits_bind; [apply emits_updateAlertStatus|].
      intros _. apply emits_updateStats.
  - intro m. apply emits_emit. apply logs.
Qed.

Lemma emits_checkProduct product :
  (forall outcome, P (EvScrape (amazon_url product) outcome)) ->
  (forall message delivered,
     P (EvSendMessage (telegram_id product) message delivered)) ->
  emits P (cronJobs.checkProduct env product).
Proof.
  intros Hurl Hchat. unfold cronJobs.checkProduct. apply emits_try_catch.
  - apply emits_bind; [apply emits_pacing|]. intros _.
    apply emits_bind; [apply emits_scrapeWithRetry; exact Hurl|].
    intros [data|]; [|apply emits_updateStats].
    destruct (negb _); [apply emits_updateStats|].
    apply emits_bind; [apply emits_updateProductPrice|]. intros _.
    apply emits_bind; [apply emits_addPriceHistory|]. intros _.
    apply emits_bind; [apply emits_updateStats|]. intros _.
    destruct (cronJobs.notify _); [|apply emits_ret].
    apply emits_bind; [apply emits_updateStats|]. intros _.
    apply emits_notifyUser. exact Hchat.
  - intro m. apply emits_bind; [apply emits_updateStats|]. intros _.
    apply emits_emit. apply logs.
Qed.

Lemma emits_processCandidate candidate :
  (forall outcome, P (EvScrape (amazon_url (snd candidate)) outcome)) ->
  (forall message delivered,
     P (EvSendMessage (telegram_id (snd candidate)) message delivered)) ->
  emits P (cronJobs.processCandidate env candidate).
Proof.
  intros Hurl Hchat. unfold cronJobs.processCandidate, cronJobs.processProduct.
  apply emits_bind; [apply emits_now|]. intro today.
  destruct (negb _); [apply emits_updateStats|].
  apply emits_checkProduct; assumption.
Qed.

End Emissions.

(** X26. Whatever a sweep fetches is the page of one of the candidates the
    query returned, and whoever it messages is the owner of one of them;
    when the query fails it fetches and messages nothing. *)
Theorem X26_sweep_concerns_candidates (env : Env) (interval : option string)
  (w : World) :
  let candidates :=
    match fst (cronJobs.loadCandidates env interval
                 (snd (cronJobs.resetRun env w))) with
    | Normal products => products
    | Throw _ => []
    end in
  exists evs,
    trace (snd (cronJobs.runPriceCheckByInterval env interval w))
      = evs ++ trace w /\
    Forall (concerns candidates) evs.
Proof.
  cbv zeta. unfold cronJobs.runPriceCheckByInterval. rewrite bind_run.
  assert (Hreset : exists w0, cronJobs.resetRun env w = (Normal tt, w0)
                              /\ trace w0 = trace w).
  { eexists. split; reflexivity. }
  destruct Hreset as (w0 & -> & <-). cbn [snd]. unfold try_catch.
  rewrite bind_run.
  pose proof (emits_nothing _ w0
                (emits_loadCandidates env (fun _ => False) interval)) as H1.
  destruct (cronJobs.loadCandidates env interval w0) as [[products|m] w1];
    cbn [fst snd] in *.
  - rewrite <- H1. destruct (Nat.eqb _ _).
    + exists []. split; [reflexivity | constructor].
    + rewrite processGroups_flat.
      assert (He : emits (concerns products)
                     (forEach (cronJobs.processCandidate env)
                        (cronJobs.candidatesOf
                           (cronJobs.groupByUser products)))).
      { apply emits_forEach. intros c Hc.
        assert (Hin : In (snd c) products).
        { eapply Permutation_in; [apply groupByUser_candidates|].
          apply in_map. exact Hc. }
        apply emits_processCandidate.
        - intro ms. exact I.
        - intro line. exact I.
        - intro outcome. cbn. apply in_map. exact Hin.
        - intros message delivered. cbn. apply in_map. exact Hin. }
      destruct (He w1) as (evs & E & F).
      pose proof (total_unit _ (forEach_total _ (total_processCandidate env)
                    (cronJobs.candidatesOf (cronJobs.groupByUser products)))
                    w1) as H3.
      destruct (forEach (cronJobs.processCandidate env) _ w1) as [r2 w2].
      cbn [fst snd] in E, H3. subst r2. exists evs. split; assumption.
  - exists [EvConsoleError (PriceCheckFailed m)]. cbn.
    rewrite H1. split; [reflexivity | repeat constructor].
Qed.

(** ** Candidates that are not due *)



(** ** Pauses between the fetches of one product *)


Section RetryPauses.

Variable env : Env.

Hypothesis random_range : forall t, 0 <= Math_random env t /\ Math_random env t < 1.



End RetryPauses.



(** ** The alert state after a notification *)

(** X29. When the message is delivered and the database accepts the update,
    the notification is counted and every row of the product records the
    notified price as the last alerted one; from then on the sweep's
    decision stays silent for that row at this price and at any higher
    one, whoever owns it and whatever the previous price. *)
Theorem X29_alert_recorded (env : Env) (product : Product) (oldPrice : JS.num)
  (price : Q) (reason : NotifyReason) (w : World) :
  sendMessage env (tick w) (telegram_id product)
    (cronJobs.priceDropMessage product oldPrice (Some price) reason) = None ->
  sqlite env (S (tick w)) = None ->
  sqlite env (S (S (tick w))) = None ->
  ~ price == 0 ->
  let w' := snd (cronJobs.notifyUser env product oldPrice (Some price)
                   reason w) in
  notificationsSent (runStats w') = S (notificationsSent (runStats w)) /\
  forall row,
    In row (db_tracked_products w') ->
    tracked_products.id row = id product ->
    tracked_products.last_alert_price row = Some price /\
    forall owner previous later,
      price <= later ->
      cronJobs.notify
        (cronJobs.shouldSendNotification (queries.joinRow row owner)
           previous (Some later)) = false.
Proof.
  intros Hsend Hupdate Hselect Hprice. cbv zeta.
  unfold cronJobs.notifyUser, try_catch, bind,
    cronJobs.sendPriceDropNotification, bind, interact.
  cbn [tick set_tick]. rewrite Hsend.
  unfold emit, modify, queries.updateAlertStatus, queries.findProduct,
    queries.statement, bind, interact.
  cbn [tick set_tick set_trace]. rewrite Hupdate.
  unfold ret, modify. cbn [tick set_tick set_trace queries.updateWhereId
                            set_tracked_products].
  rewrite Hselect. cbn [snd updateStats modify runStats set_runStats
                          db_tracked_products incNotificationsSent
                          notificationsSent get ret].
  split; [reflexivity|].
  intros row Hin Hid. apply in_map_iff in Hin. destruct Hin as (r0 & Hr & _).
  destruct (Z.eqb (tracked_products.id r0) (id product)) eqn:E.
  2:{ subst row. apply Z.eqb_neq in E. contradiction. }
  assert (Hlast : tracked_products.last_alert_price row = Some price)
    by (subst row; reflexivity).
  split; [exact Hlast|].
  intros owner previous later Hle.
  unfold cronJobs.shouldSendNotification.
  change (last_alert_price (queries.joinRow row owner))
    with (tracked_products.last_alert_price row).
  rewrite Hlast.
  assert (Hdup : (JS.truthy (Some price) && JS.ge (Some later) (Some price))%bool
                 = true).
  { apply andb_true_iff. split.
    - apply truthy_Some; exact Hprice.
    - apply Qle_bool_iff; exact Hle. }
  rewrite Hdup. destruct (_ || _)%bool; reflexivity.
Qed.

Lemma X29_alert_recorded_witness :
  let w' := snd (cronJobs.notifyUser (sampleEnv false) sampleCandidate
                   (Some 1000) (Some 900) NoReason sampleWorld) in
  notificationsSent (runStats w') = 1%nat /\
  forall row,
    In row (db_tracked_products w') ->
    tracked_products.id row = 1%Z ->
    tracked_products.last_alert_price row = Some 900 /\
    forall owner previous later,
      900 <= later ->
      cronJobs.notify
        (cronJobs.shouldSendNotification (queries.joinRow row owner)
           previous (Some later)) = false.
Proof.
  apply (X29_alert_recorded (sampleEnv false) sampleCandidate (Some 1000) 900
           NoReason sampleWorld eq_refl eq_refl eq_refl).
  vm_compute; discriminate.
Defined.

(** X30. When the message is delivered but the database rejects the update
    of the alert state, the user has the message while nothing records it:
    the last alerted price stays as it was, the notification is not
    counted, and the failure is logged as a failed notification. *)
Theorem X30_alert_write_rejected (env : Env) (product : Product)
  (oldPrice newPrice : JS.num) (reason : NotifyReason) (failure : string)
  (w : World) :
  sendMessage env (tick w) (telegram_id product)
    (cronJobs.priceDropMessage product oldPrice newPrice reason) = None ->
  sqlite env (S (tick w)) = Some failure ->
  cronJobs.notifyUser env product oldPrice newPrice reason w =
  (Normal tt,
   set_trace
     (EvConsoleError (NotificationFailed failure)
        :: EvSendMessage (telegram_id product)
             (cronJobs.priceDropMessage product oldPrice newPrice reason) true
        :: trace w)
     (set_tick (S (S (tick w))) w)).
Proof.
  intros Hsend Hupdate.
  unfold cronJobs.notifyUser, try_catch, bind,
    cronJobs.sendPriceDropNotification, bind, interact.
  cbn [tick set_tick]. rewrite Hsend.
  unfold emit, modify, queries.updateAlertStatus, queries.statement, bind,
    interact.
  cbn [tick set_tick set_trace]. rewrite Hupdate. reflexivity.
Qed.

Lemma X30_alert_write_rejected_witness :
  let env := withSqlite (fun _ => Some "SQLITE_BUSY: database is locked"%string)
               (sampleEnv false) in
  let w' := snd (cronJobs.notifyUser env sampleCandidate (Some 1000) (Some 900)
                   NoReason sampleWorld) in
  db_tracked_products w' = db_tracked_products sampleWorld /\
  notificationsSent (runStats w') = 0%nat /\
  exists message,
    trace w' = [EvConsoleError
                  (NotificationFailed "SQLITE_BUSY: database is locked");
                EvSendMessage 4242 message true].
Proof.
  cbv zeta.
  rewrite (X30_alert_write_rejected
             (withSqlite
                (fun _ => Some "SQLITE_BUSY: database is locked"%string)
                (sampleEnv false))
             sampleCandidate (Some 1000) (Some 900) NoReason
             "SQLITE_BUSY: database is locked" sampleWorld eq_refl eq_refl).
  split; [reflexivity|]. split; [reflexivity|]. eexists. reflexivity.
Defined.
